(** * Discovery Compounding Orchestrator: a shallow embedding

    The TypeScript sources under [src/backend] are embedded as Rocq
    functions over explicit state.  The external reasoning capability
    (the call [runAgent] followed by [JSON.parse]) is an input of the
    model: every function that awaits it takes the outcome of that call
    as an argument.  *)

From Stdlib Require Import QArith Lqa Lia Ascii Sorted Permutation.
From stdpp Require Import gmap strings list pretty.

Local Open Scope string_scope.
Local Open Scope list_scope.
Local Set Warnings "-register-all".

(** ** JavaScript values, as far as the orchestrator uses them *)

Module JS.

(** A Number: a finite double is a rational, NaN and the two infinities
    are values of their own. *)
Inductive JSNum : Type :=
| NaN
| NegInf
| Fin (q : Q)
| PosInf.

Definition isNaN (a : JSNum) : bool :=
  match a with NaN => true | _ => false end.

(** [a <= b] on Numbers; false as soon as one side is NaN. *)
Definition num_le (a b : JSNum) : bool :=
  match a, b with
  | NaN, _ | _, NaN => false
  | NegInf, _ => true
  | _, PosInf => true
  | PosInf, _ => false
  | _, NegInf => false
  | Fin x, Fin y => Qle_bool x y
  end.

(** [a < b] on Numbers; false as soon as one side is NaN. *)
Definition num_lt (a b : JSNum) : bool :=
  match a, b with
  | NaN, _ | _, NaN => false
  | _, _ => negb (num_le b a)
  end.

(** [Math.max(a, b)] and [Math.min(a, b)] on Numbers. *)
Definition Math_max (a b : JSNum) : JSNum :=
  if isNaN a || isNaN b then NaN else if num_le a b then b else a.

Definition Math_min (a b : JSNum) : JSNum :=
  if isNaN a || isNaN b then NaN else if num_le a b then a else b.

(** Completion of an expression that may throw. *)
Inductive completion (A : Type) : Type :=
| Normal (a : A)
| Throw.
Arguments Normal {A} a.
Arguments Throw {A}.

#[global] Instance completion_ret : MRet completion := fun A a => Normal a.

#[global] Instance completion_bind : MBind completion := fun A B k c =>
  match c with
  | Normal a => k a
  | Throw => Throw
  end.

(** The values [JSON.parse] produces, and [undefined] for a missing
    property. *)
Inductive JSValue : Type :=
| JUndefined
| JNull
| JBool (b : bool)
| JNumber (n : JSNum)
| JString (s : string)
| JArray (l : list JSValue)
| JObject (fields : list (string * JSValue)).

(** Own property of a parsed object. *)
Fixpoint own (name : string) (fields : list (string * JSValue)) : option JSValue :=
  match fields with
  | [] => None
  | (k, v) :: rest => if String.eqb k name then Some v else own name rest
  end.

Definition has_own (name : string) (fields : list (string * JSValue)) : bool :=
  match own name fields with Some _ => true | None => false end.

(** Property read [v.name], for a [name] that no prototype defines
    (every name the orchestrator reads is of this kind): a TypeError on
    [null] and [undefined], the own property of an object, [undefined]
    otherwise. *)
Definition get (v : JSValue) (name : string) : completion JSValue :=
  match v with
  | JUndefined | JNull => Throw
  | JObject fields =>
      Normal (match own name fields with Some x => x | None => JUndefined end)
  | _ => Normal JUndefined
  end.

(** ToBoolean. *)
Definition truthy (v : JSValue) : bool :=
  match v with
  | JUndefined | JNull => false
  | JBool b => b
  | JNumber (Fin q) => negb (Qeq_bool q 0)
  | JNumber NaN => false
  | JNumber _ => true
  | JString s => negb (String.eqb s "")
  | JArray _ | JObject _ => true
  end.

(** [v === 'text'] and [v === true]. *)
Definition is_string (v : JSValue) (text : string) : bool :=
  match v with JString s => String.eqb s text | _ => false end.

Definition is_true (v : JSValue) : bool :=
  match v with JBool b => b | _ => false end.

(** [a || b]. *)
Definition js_or (a b : JSValue) : JSValue := if truthy a then a else b.

(** The one operation of the runtime left abstract: StringToNumber, the
    numeric reading of a string (NaN when it is not a numeric literal).
    The empty string reads as 0. *)
Class JSRuntime : Type := {
  StringToNumber : string -> JSNum;
  StringToNumber_empty : StringToNumber "" = Fin 0
}.

Section Conversions.
Context {R : JSRuntime}.

(** ToString of an array element raises a TypeError exactly when it
    reaches an object whose own [toString] (never callable in parsed
    data) hides [Object.prototype.toString]. *)
Fixpoint toString_throws (v : JSValue) : bool :=
  match v with
  | JObject fields => has_own "toString" fields
  | JArray l => existsb toString_throws l
  | _ => false
  end.

(** ToNumber.  An object goes through ToPrimitive: the text
    [[object Object]], hence NaN, or a TypeError.  An array is joined
    with commas first: no element reads as 0, one element reads as that
    element's text, more elements never read as a number. *)
Fixpoint ToNumber (v : JSValue) : completion JSNum :=
  match v with
  | JUndefined => Normal NaN
  | JNull => Normal (Fin 0)
  | JBool b => Normal (Fin (if b then 1 else 0))
  | JNumber n => Normal n
  | JString s => Normal (StringToNumber s)
  | JObject fields => if has_own "toString" fields then Throw else Normal NaN
  | JArray [] => Normal (Fin 0)
  | JArray [x] =>
      match x with
      | JUndefined | JNull => Normal (Fin 0)
      | JBool _ => Normal NaN
      | JNumber n => Normal n
      | JString s => Normal (StringToNumber s)
      | JArray _ => ToNumber x
      | JObject fields => if has_own "toString" fields then Throw else Normal NaN
      end
  | JArray l => if existsb toString_throws l then Throw else Normal NaN
  end.

(** [v >= n] and [v < n] against a Number [n]. *)
Definition js_ge (v : JSValue) (n : JSNum) : completion bool :=
  a ← ToNumber v; Normal (num_le n a).

Definition js_lt (v : JSValue) (n : JSNum) : completion bool :=
  a ← ToNumber v; Normal (num_lt a n).

(** [Math.min(hi, Math.max(lo, v))]. *)
Definition clamp (lo hi : JSNum) (v : JSValue) : completion JSNum :=
  a ← ToNumber v; Normal (Math_min hi (Math_max lo a)).

End Conversions.

(** [lo <= a <= hi] for a finite Number [a]. *)
Definition between (lo hi : Q) (a : JSNum) : Prop :=
  match a with
  | Fin q => (lo <= q)%Q /\ (q <= hi)%Q
  | _ => False
  end.

(** The outcome of [JSON.parse(await this.runAgent(prompt))]. *)
Inductive Reply : Type :=
| AgentError            (* runAgent rejected: timeout or upstream error *)
| Malformed             (* JSON.parse threw a SyntaxError *)
| Parsed (v : JSValue).

End JS.

(** ** String operations of the sources *)

Module Str.

(** [s.startsWith(p)]. *)
Fixpoint startsWith (s p : string) : bool :=
  match p, s with
  | EmptyString, _ => true
  | String _ _, EmptyString => false
  | String a p', String b s' => if Ascii.eqb a b then startsWith s' p' else false
  end.

(** [s.includes(p)]. *)
Fixpoint includes (s p : string) : bool :=
  startsWith s p ||
  match s with
  | EmptyString => false
  | String _ s' => includes s' p
  end.

Definition lower (c : ascii) : ascii :=
  let n := nat_of_ascii c in
  if (65 <=? n)%nat && (n <=? 90)%nat then ascii_of_nat (n + 32) else c.

(** [s.toLowerCase()].  A string is the sequence of its bytes in
    UTF-8; the letters A-Z are lowered, every other byte is kept. *)
Fixpoint toLowerCase (s : string) : string :=
  match s with
  | EmptyString => EmptyString
  | String c s' => String (lower c) (toLowerCase s')
  end.

(** [s.toLowerCase()], as far as the ASCII characters of the result
    go.  Besides A-Z, two characters are lowered to ASCII letters:
    U+0130 (the bytes 196 176) to [i] followed by U+0307 (204 135), and
    U+212A, the Kelvin sign (226 132 170), to [k].  Every other
    character is lowered to characters outside ASCII and is kept here
    as it is, so the result contains an ASCII keyword exactly when the
    lowered text does. *)
Fixpoint lowered (s : string) : string :=
  match s with
  | EmptyString => EmptyString
  | String c s' =>
      match s' with
      | EmptyString => String (lower c) EmptyString
      | String c1 s1 =>
          if Ascii.eqb c (ascii_of_nat 196) && Ascii.eqb c1 (ascii_of_nat 176) then
            String "i" (String (ascii_of_nat 204) (String (ascii_of_nat 135) (lowered s1)))
          else
            match s1 with
            | EmptyString => String (lower c) (lowered s')
            | String c2 s2 =>
                if Ascii.eqb c (ascii_of_nat 226) && Ascii.eqb c1 (ascii_of_nat 132)
                   && Ascii.eqb c2 (ascii_of_nat 170)
                then String "k" (lowered s2)
                else String (lower c) (lowered s')
            end
      end
  end.

(** [s.replace(/[...]/g, '')]: drops every character of the class. *)
Fixpoint remove (class : list ascii) (s : string) : string :=
  match s with
  | EmptyString => EmptyString
  | String c s' =>
      if existsb (Ascii.eqb c) class then remove class s'
      else String c (remove class s')
  end.

End Str.

(** ** [Array.prototype.sort] *)

Module Sort.
Section Stable.
Context {A : Type} (before : A -> A -> bool).

(** [before x y] holds when the comparator does not put [y] ahead of
    [x].  The sort is stable: an element is inserted ahead of the first
    element it may precede, so equal elements keep their order. *)
Fixpoint insert (x : A) (l : list A) : list A :=
  match l with
  | [] => [x]
  | y :: l' => if before x y then x :: y :: l' else y :: insert x l'
  end.

Fixpoint sort (l : list A) : list A :=
  match l with
  | [] => []
  | x :: l' => insert x (sort l')
  end.

End Stable.
End Sort.

(** ** models/Discovery.ts *)

Module Store.
Import JS.

Record Source : Type := {
  url : string;
  title : string;
  keyInsight : string;
  credibility : JSNum
}.

Inductive Status : Type := pending | validated | rejected.

#[global] Instance Status_eq_dec : EqDecision Status.
Proof. solve_decision. Defined.

Record Discovery : Type := {
  id : string;
  finding : string;
  noveltyScore : JSNum;
  noveltyExplanation : string;
  sourcesSynthesized : list Source;
  discoveredBy : list string;
  buildsOn : list string;
  threadId : string;
  researchNext : list string;
  timestamp : nat;
  status : Status
}.

(** A thread refers to its discoveries: the array holds the objects of
    the discovery map themselves, here their keys. *)
Record DiscoveryThread : Type := {
  thread_id : string;
  topic : string;
  thread_discoveries : list string;
  createdAt : nat;
  lastUpdated : nat;
  depth : nat
}.

(** The two [Map]s.  A [Map] iterates in insertion order: [inserted]
    lists the keys of [discoveries] in that order. *)
Record DiscoveryManager : Type := {
  discoveries : gmap string Discovery;
  inserted : list string;
  threads : gmap string DiscoveryThread
}.

Definition empty : DiscoveryManager :=
  {| discoveries := ∅; inserted := []; threads := ∅ |}.

Definition createNewThread (m : DiscoveryManager) (uuid : string) (now : nat)
    (topic : string) : DiscoveryManager * DiscoveryThread :=
  let thread := {| thread_id := uuid; topic := topic; thread_discoveries := [];
                   createdAt := now; lastUpdated := now; depth := 0 |} in
  ({| discoveries := discoveries m; inserted := inserted m;
      threads := <[uuid := thread]> (threads m) |}, thread).

Definition addDiscoveryToThread (m : DiscoveryManager) (now : nat)
    (discovery : Discovery) : DiscoveryManager :=
  match threads m !! threadId discovery with
  | Some thread =>
      let thread' :=
        {| thread_id := thread_id thread; topic := topic thread;
           thread_discoveries := thread_discoveries thread ++ [id discovery];
           createdAt := createdAt thread; lastUpdated := now;
           depth := Nat.max (depth thread) (length (buildsOn discovery) + 1) |} in
      {| discoveries := discoveries m; inserted := inserted m;
         threads := <[threadId discovery := thread']> (threads m) |}
  | None => m
  end.

(** [createDiscovery]; the two [uuidv4()] results and the clock are
    arguments.  [threadId || ...] opens a thread when the argument is
    missing or empty. *)
Definition createDiscovery (m : DiscoveryManager) (uuid threadUuid : string) (now : nat)
    (finding noveltyExplanation : string) (sources : list Source)
    (discoveredBy buildsOn : list string) (threadId : option string)
    : DiscoveryManager * Discovery :=
  let '(m1, tid) :=
    match threadId with
    | Some t => if String.eqb t "" then
                  let '(m1, th) := createNewThread m threadUuid now finding in
                  (m1, thread_id th)
                else (m, t)
    | None => let '(m1, th) := createNewThread m threadUuid now finding in
              (m1, thread_id th)
    end in
  let discovery :=
    {| id := uuid; finding := finding; noveltyScore := Fin 0;
       noveltyExplanation := noveltyExplanation; sourcesSynthesized := sources;
       discoveredBy := discoveredBy; buildsOn := buildsOn; threadId := tid;
       researchNext := []; timestamp := now; status := pending |} in
  let m2 := {| discoveries := <[uuid := discovery]> (discoveries m1);
               inserted := match discoveries m1 !! uuid with
                           | Some _ => inserted m1
                           | None => inserted m1 ++ [uuid]
                           end;
               threads := threads m1 |} in
  (addDiscoveryToThread m2 now discovery, discovery).

Definition setStatus (d : Discovery) (st : Status) (score : option JSNum) : Discovery :=
  {| id := id d; finding := finding d;
     noveltyScore := match score with Some n => n | None => noveltyScore d end;
     noveltyExplanation := noveltyExplanation d;
     sourcesSynthesized := sourcesSynthesized d; discoveredBy := discoveredBy d;
     buildsOn := buildsOn d; threadId := threadId d;
     researchNext := researchNext d; timestamp := timestamp d; status := st |}.

(** [updateDiscoveryStatus]: mutates the stored object when the id is
    known; [noveltyScore] is optional. *)
Definition updateDiscoveryStatus (m : DiscoveryManager) (discoveryId : string)
    (st : Status) (score : option JSNum) : DiscoveryManager :=
  match discoveries m !! discoveryId with
  | Some discovery =>
      {| discoveries := <[discoveryId := setStatus discovery st score]> (discoveries m);
         inserted := inserted m;
         threads := threads m |}
  | None => m
  end.

Definition getDiscovery (m : DiscoveryManager) (i : string) : option Discovery :=
  discoveries m !! i.

Definition getThread (m : DiscoveryManager) (i : string) : option DiscoveryThread :=
  threads m !! i.

(** [getThreadDiscoveries]: the thread's view of its discoveries, read
    through the references. *)
Definition getThreadDiscoveries (m : DiscoveryManager) (i : string) : list Discovery :=
  match threads m !! i with
  | Some thread => omap (fun k => discoveries m !! k) (thread_discoveries thread)
  | None => []
  end.

Definition values (m : DiscoveryManager) : list Discovery :=
  omap (fun k => discoveries m !! k) (inserted m).

(** [l.slice(0, limit)] for an integer [limit]: a negative one counts
    from the end of the array. *)
Definition slice_to {A} (limit : Z) (l : list A) : list A :=
  if (limit <? 0)%Z then take (length l - Z.to_nat (- limit)) l
  else take (Z.to_nat limit) l.

(** [getValidatedDiscoveries(limit)].  The agents pass 5, 10, 20 and
    50; the server passes [parseInt(req.query.limit) || 10], any
    integer but 0, through [AgentController.getRecentDiscoveries]. *)
Definition getValidatedDiscoveries (m : DiscoveryManager) (limit : Z) : list Discovery :=
  slice_to limit
    (Sort.sort (fun a b => num_le (noveltyScore b) (noveltyScore a))
       (List.filter
          (fun d => bool_decide (status d = validated) && num_le (Fin 7) (noveltyScore d))
          (values m))).

End Store.

(** ** models/NoveltyValidatorAgent.ts *)

Module NoveltyValidator.
Import JS.

Inductive Recommendation : Type := accept | reject | needs_review.

#[global] Instance Recommendation_eq_dec : EqDecision Recommendation.
Proof. solve_decision. Defined.

Record NoveltyAssessment : Type := {
  discoveryId : string;
  noveltyScore : JSNum;
  validationReason : JSValue;
  comparisonInsights : JSValue;
  recommendation : Recommendation
}.

Record State : Type := {
  discoveryManager : Store.DiscoveryManager;
  knowledgeBase : gmap string (list string);   (* topic -> key insights *)
  processedCount : nat
}.

Definition init : State :=
  {| discoveryManager := Store.empty; knowledgeBase := ∅; processedCount := 0 |}.

(** [domainPatterns]: the source text of each pattern and the lower-case
    texts one of which a finding must contain, case ignored, for
    [pattern.test] to hold ([/materials?/] holds exactly when the finding
    contains [material]). *)
Definition domainPatterns : list (string * list string) :=
  [ ("quantum", ["quantum"]);
    ("AI|artificial intelligence", ["ai"; "artificial intelligence"]);
    ("blockchain", ["blockchain"]);
    ("biotech", ["biotech"]);
    ("space", ["space"]);
    ("materials?", ["material"]);
    ("energy", ["energy"]);
    ("computing", ["computing"]);
    ("neural", ["neural"]);
    ("genetic", ["genetic"]);
    ("robot", ["robot"]);
    ("autonomous", ["autonomous"]);
    ("machine learning", ["machine learning"]);
    ("cryptocurrency", ["cryptocurrency"]);
    ("climate", ["climate"]) ].

Definition test (pattern : string * list string) (finding : string) : bool :=
  existsb (Str.includes (Str.toLowerCase finding)) (snd pattern).

(** [pattern.source.replace(/[\/\\i]/g, '').toLowerCase()]. *)
Definition tag (pattern : string * list string) : string :=
  Str.toLowerCase (Str.remove ["/"%char; "\"%char; "i"%char] (fst pattern)).

Definition extractTopics (finding : string) : list string :=
  let topics := map tag (List.filter (fun p => test p finding) domainPatterns) in
  match topics with
  | [] => ["general"]
  | _ => topics
  end.

(** One turn of the loop of [updateKnowledgeBase]. *)
Definition remember (finding : string) (kb : gmap string (list string))
    (topic : string) : gmap string (list string) :=
  let kb1 := match kb !! topic with
             | Some _ => kb
             | None => <[topic := []]> kb
             end in
  let insights : list string := default [] (kb1 !! topic) in
  if bool_decide (finding ∈@{list string} insights) then kb1
  else
    let pushed := insights ++ [finding] in
    <[topic := if (10 <? length pushed)%nat then tail pushed else pushed]> kb1.

Definition updateKnowledgeBase (kb : gmap string (list string))
    (discovery : Store.Discovery) : gmap string (list string) :=
  foldl (remember (Store.finding discovery)) kb
        (extractTopics (Store.finding discovery)).

(** The comparison context [assessNovelty] puts into its prompt. *)
Definition existingInsights (kb : gmap string (list string))
    (discovery : Store.Discovery) : list string :=
  flat_map (fun topic => default [] (kb !! topic))
           (extractTopics (Store.finding discovery)).

Section Assess.
Context {R : JSRuntime}.

(** The [try] block of [assessNovelty], from the reply of the agent on. *)
Definition assess_try (discovery : Store.Discovery) (reply : Reply)
    : completion NoveltyAssessment :=
  match reply with
  | AgentError | Malformed => Throw
  | Parsed validation =>
      s ← get validation "noveltyScore";
      score ← clamp (Fin 1) (Fin 10) (js_or s (JNumber (Fin 5)));
      reason ← get validation "validationReason";
      insights ← get validation "comparisonInsights";
      r ← get validation "recommendation";
      verdict ← (if is_string r "accept"
                 then s' ← get validation "noveltyScore";
                      b ← js_ge s' (Fin 7);
                      Normal (if b : bool then accept else reject)
                 else Normal reject);
      Normal {| discoveryId := Store.id discovery;
                noveltyScore := score;
                validationReason :=
                  js_or reason (JString "No detailed reasoning provided");
                comparisonInsights := js_or insights (JArray []);
                recommendation := verdict |}
  end.

Definition assessNovelty (discovery : Store.Discovery) (reply : Reply)
    : NoveltyAssessment :=
  match assess_try discovery reply with
  | Normal assessment => assessment
  | Throw =>
      {| discoveryId := Store.id discovery;
         noveltyScore := Fin 3;
         validationReason := JString "Validation failed due to processing error";
         comparisonInsights := JArray [];
         recommendation := reject |}
  end.

(** The content of the message [process] returns. *)
Inductive Message : Type :=
| novelty_validation (discoveryId : string) (assessment : NoveltyAssessment)
    (totalProcessed knowledgeBaseSize : nat)
| validation_error (discoveryId : string).

(** The [try] block of [process]. *)
Definition process_try (st : State) (discovery : Store.Discovery) (reply : Reply)
    : completion (State * Message) :=
  let assessment := assessNovelty discovery reply in
  let finalStatus :=
    if decide (recommendation assessment = accept)
    then Store.validated else Store.rejected in
  let dm := Store.updateDiscoveryStatus (discoveryManager st) (Store.id discovery)
              finalStatus (Some (noveltyScore assessment)) in
  let kb := if decide (recommendation assessment = accept)
            then updateKnowledgeBase (knowledgeBase st) discovery
            else knowledgeBase st in
  Normal ({| discoveryManager := dm; knowledgeBase := kb;
             processedCount := processedCount st |},
          novelty_validation (Store.id discovery) assessment
            (processedCount st) (size kb)).

(** [process]: the counter is bumped first; the [catch] block rejects
    the discovery with score 3. *)
Definition process (st : State) (discovery : Store.Discovery) (reply : Reply)
    : State * Message :=
  let st0 := {| discoveryManager := discoveryManager st;
                knowledgeBase := knowledgeBase st;
                processedCount := S (processedCount st) |} in
  match process_try st0 discovery reply with
  | Normal result => result
  | Throw =>
      ({| discoveryManager :=
            Store.updateDiscoveryStatus (discoveryManager st0) (Store.id discovery)
              Store.rejected (Some (Fin 3));
          knowledgeBase := knowledgeBase st0;
          processedCount := processedCount st0 |},
       validation_error (Store.id discovery))
  end.

(** The states the store and the knowledge base go through: a
    specialist creates a discovery, or the validator processes a stored
    one. *)
Inductive step : State -> State -> Prop :=
| step_create st uuid threadUuid now finding explanation sources by_ buildsOn threadId :
    step st
      {| discoveryManager :=
           fst (Store.createDiscovery (discoveryManager st) uuid threadUuid now
                  finding explanation sources by_ buildsOn threadId);
         knowledgeBase := knowledgeBase st;
         processedCount := processedCount st |}
| step_process st key discovery reply :
    Store.discoveries (discoveryManager st) !! key = Some discovery ->
    step st (fst (process st discovery reply)).

Inductive reachable : State -> Prop :=
| reachable_init : reachable init
| reachable_step st st' : reachable st -> step st st' -> reachable st'.

(** The knowledge base holds the finding of [discovery] under one of
    the tags its finding matches. *)
Definition known (kb : gmap string (list string)) (discovery : Store.Discovery) : Prop :=
  exists topic, topic ∈ extractTopics (Store.finding discovery) /\
    Store.finding discovery ∈@{list string} default [] (kb !! topic).

(** Every stored discovery sits under its own id, and a validated one
    has a score in [7,10]. *)
Definition well_scored (st : State) : Prop :=
  forall key discovery,
    Store.discoveries (discoveryManager st) !! key = Some discovery ->
    Store.id discovery = key /\
    (Store.status discovery = Store.validated ->
     between 7 10 (Store.noveltyScore discovery)).

(** The property of the spec, on one state: a stored discovery is
    validated exactly when its score is at least 7 and the knowledge
    base holds its finding under a matching tag. *)
Definition validated_iff_known (st : State) : Prop :=
  forall key discovery,
    Store.discoveries (discoveryManager st) !! key = Some discovery ->
    (Store.status discovery = Store.validated <->
     num_le (Fin 7) (Store.noveltyScore discovery) = true /\
     known (knowledgeBase st) discovery).

End Assess.

End NoveltyValidator.


(** ** models/ResearchDirectorAgent.ts *)

Module ResearchDirector.
Import JS.

Inductive Status : Type := pending | active | completed.

#[global] Instance Status_eq_dec : EqDecision Status.
Proof. solve_decision. Defined.

(** A topic of the queue.  The text, the priority and the parent are
    copied from the agent's reply as they are: the interface declares a
    string, a number and a string, the code checks none of them. *)
Record ResearchTopic : Type := {
  id : string;
  topic : JSValue;
  priority : JSValue;                  (* 1-10 scale *)
  assignedTo : option string;
  status : Status;
  parentDiscoveryId : JSValue
}.

Definition with_status (t : ResearchTopic) (st : Status) : ResearchTopic :=
  {| id := id t; topic := topic t; priority := priority t;
     assignedTo := assignedTo t; status := st;
     parentDiscoveryId := parentDiscoveryId t |}.

(** An element of [data.topics], through the three properties the code
    reads; a missing property is [JUndefined]. *)
Record RawTopic : Type := {
  raw_topic : JSValue;
  raw_priority : JSValue;
  raw_parent : JSValue
}.

(** The [forEach] of [generateInitialTopics]: pushes, in the order of
    the reply, without sorting; the priority is [topic.priority || 8]. *)
Definition generateInitialTopics (researchQueue : list ResearchTopic)
    (topics : list RawTopic) : list ResearchTopic :=
  researchQueue ++
  imap (fun index t =>
          {| id := "initial-" +:+ pretty index; topic := raw_topic t;
             priority := js_or (raw_priority t) (JNumber (Fin 8));
             assignedTo := None; status := pending;
             parentDiscoveryId := JUndefined |}) topics.

Definition fallbackTopics : list (string * Q) :=
  [ ("Quantum computing applications in biological systems", 9%Q);
    ("AI-driven materials discovery for sustainable technology", 8%Q);
    ("Intersection of blockchain and space technology", 7%Q);
    ("Novel applications of CRISPR beyond gene editing", 8%Q);
    ("Emergent properties in neural network architectures", 7%Q) ].

Definition addFallbackTopics (researchQueue : list ResearchTopic) : list ResearchTopic :=
  researchQueue ++
  imap (fun index t =>
          {| id := "fallback-" +:+ pretty index; topic := JString (fst t);
             priority := JNumber (Fin (snd t)); assignedTo := None; status := pending;
             parentDiscoveryId := JUndefined |}) fallbackTopics.

(** The [map] at the end of [generateResearchTopics]; the priority is
    [topic.priority || 7]. *)
Definition generateResearchTopics (currentCycle : nat) (topicsData : list RawTopic)
    : list ResearchTopic :=
  imap (fun index t =>
          {| id := "generated-" +:+ pretty currentCycle +:+ "-" +:+ pretty index;
             topic := raw_topic t;
             priority := js_or (raw_priority t) (JNumber (Fin 7));
             assignedTo := None; status := pending;
             parentDiscoveryId := js_or (raw_parent t) JUndefined |}) topicsData.

(** [selectNextResearchTopic].  The filtered array holds the topic
    objects of the queue themselves: each comes with its position, and
    the assignment to [status] is an update of the queue there. *)
Definition selectNextResearchTopic (researchQueue : list ResearchTopic)
    : option ResearchTopic * list ResearchTopic :=
  let availableTopics :=
    List.filter (fun it => bool_decide (status (snd it) = pending))
                (imap pair researchQueue) in
  match availableTopics with
  | [] => (None, researchQueue)
  | (ref, selectedTopic) :: _ =>
      let selected := with_status selectedTopic active in
      (Some selected, <[ref := selected]> researchQueue)
  end.

(** [processVoiceCommand]; [userTopic] is the capture of
    [command.match(/research\s+(.+)/i)] when the command matches, and
    [now] is [Date.now()]. *)
Definition processVoiceCommand (researchQueue : list ResearchTopic)
    (userTopic : option string) (now : nat) : list ResearchTopic :=
  match userTopic with
  | Some text =>
      {| id := "voice-" +:+ pretty now; topic := JString text;
         priority := JNumber (Fin 10);
         assignedTo := None; status := pending; parentDiscoveryId := JUndefined |}
      :: researchQueue
  | None => researchQueue
  end.

Record State : Type := {
  researchQueue : list ResearchTopic;
  currentCycle : nat
}.

Section Queue.
Context {R : JSRuntime}.

(** The Number a priority is read as by [b.priority - a.priority], and
    whether reading it throws (an object whose own [toString] hides the
    inherited one). *)
Definition number (t : ResearchTopic) : JSNum :=
  match ToNumber (priority t) with
  | Normal n => n
  | Throw => NaN
  end.

Definition throws (t : ResearchTopic) : bool :=
  match ToNumber (priority t) with
  | Normal _ => false
  | Throw => true
  end.

(** The priority reads as a Number that is not NaN, and as one that is
    at most 10. *)
Definition numeric (t : ResearchTopic) : bool :=
  negb (throws t) && negb (isNaN (number t)).

Definition at_most_ten (t : ResearchTopic) : bool := num_le (number t) (Fin 10).

(** The comparator [(a, b) => b.priority - a.priority] puts [b] ahead
    of [a] when the difference is positive, that is when
    [a.priority < b.priority] as Numbers; a difference that is NaN
    counts as 0.  When some priority is not a Number the comparator is
    not consistent and the order [sort] gives is left to the
    implementation: [Sort.sort] then stands for one that leaves an
    array as it is when no element is followed by one that the
    comparator puts ahead of it, as the run detection of V8 does. *)
Definition before (a b : ResearchTopic) : bool :=
  negb (num_lt (number a) (number b)).

(** [updateResearchQueue].  The comparator throws when reading a
    priority throws, and [sort] compares every element of an array of
    two or more; the sorted array is assigned to the queue only when
    [sort] returns. *)
Definition updateResearchQueue (researchQueue newTopics : list ResearchTopic)
    : completion (list ResearchTopic) :=
  let pushed := researchQueue ++ newTopics in
  let kept :=
    List.filter (fun t => negb (bool_decide (status t = completed))) pushed in
  if (2 <=? length kept)%nat && existsb throws kept then Throw
  else
    let sorted := Sort.sort before kept in
    Normal (if (20 <? length sorted)%nat then take 20 sorted else sorted).

(** The topics [sort] is given. *)
Definition candidates (researchQueue newTopics : list ResearchTopic)
    : list ResearchTopic :=
  List.filter (fun t => negb (bool_decide (status t = completed)))
    (researchQueue ++ newTopics).

(** [process], from the topics [generateResearchTopics] returned on.
    It has no [try]: when [updateResearchQueue] throws, so does
    [process], and the queue is left with the new topics pushed. *)
Definition process (st : State) (topicsData : list RawTopic)
    : State * completion (option ResearchTopic) :=
  let cycle := S (currentCycle st) in
  let newTopics := generateResearchTopics cycle topicsData in
  match updateResearchQueue (researchQueue st) newTopics with
  | Normal queue =>
      let '(nextTopic, queue') := selectNextResearchTopic queue in
      ({| researchQueue := queue'; currentCycle := cycle |}, Normal nextTopic)
  | Throw =>
      ({| researchQueue := researchQueue st ++ newTopics; currentCycle := cycle |},
       Throw)
  end.

(** Descending priority. *)
Definition descending (q : list ResearchTopic) : Prop :=
  Sorted (fun a b => num_le (number b) (number a) = true) q.

(** The bound and the order the queue is meant to keep. *)
Definition bounded_sorted (q : list ResearchTopic) : Prop :=
  length q <= 20 /\ descending q.

(** The selection returns a pending topic of the queue with the highest
    priority among the pending ones and marks it active there; with no
    pending topic it returns nothing and leaves the queue alone. *)
Definition selects_highest (q : list ResearchTopic) : Prop :=
  match selectNextResearchTopic q with
  | (Some selected, q') =>
      exists ref topic0,
        q !! ref = Some topic0 /\ status topic0 = pending /\
        selected = with_status topic0 active /\
        q' = <[ref := selected]> q /\
        forall other, In other q -> status other = pending ->
          num_le (number other) (number topic0) = true
  | (None, q') =>
      q' = q /\ forall other, In other q -> status other <> pending
  end.

End Queue.

End ResearchDirector.

(** ** controllers/AgentController.ts *)

Module Controller.
Import JS.

(** The roster the constructor builds, in registration order; a
    specialist is identified by its specialization. *)
Definition discoverySpecialists : list string :=
  ["Technology"; "Science"; "Applications"].

Definition MAX_PARALLEL_RESEARCH : nat := 2.

Definition technology : list string := ["tech"; "ai"; "software"].
Definition science : list string := ["science"; "research"; "study"].
Definition applications : list string := ["application"; "practical"; "use"].

(** [topicLower.includes(k1) || topicLower.includes(k2) || ...]. *)
Definition mentions (topicLower : string) (keywords : list string) : bool :=
  existsb (Str.includes topicLower) keywords.

(** [topic.topic.toLowerCase()].  The topic is the one the director's
    message carries; its text is what the agent's reply gave, and
    anything but a string has no [toLowerCase]: a TypeError. *)
Definition toLowerCase (text : JSValue) : completion string :=
  match text with
  | JString s => Normal (Str.lowered s)
  | _ => Throw
  end.

Section Roster.
Variable roster : list string.

(** [roster.find(s => s.getSpecialization() === name)]; [None] is
    [undefined]. *)
Definition find (name : string) : option string :=
  List.find (String.eqb name) roster.

(** The three keyword tests, each pushing what [find] returns. *)
Definition matched (topicLower : string) : list (option string) :=
  (if mentions topicLower technology then [find "Technology"] else []) ++
  (if mentions topicLower science then [find "Science"] else []) ++
  (if mentions topicLower applications then [find "Applications"] else []).

Definition selectOptimalSpecialists (text : JSValue)
    : completion (list (option string)) :=
  topicLower ← toLowerCase text;
  let selected := matched topicLower in
  let selected :=
    match selected with
    | [] => map Some (take 2 roster)
    | _ => selected
    end in
  let selected :=
    match selected with
    | [_] =>
        let remaining :=
          List.filter (fun s => negb (bool_decide (Some s ∈ selected))) roster in
        match remaining with
        | next :: _ => selected ++ [Some next]
        | [] => selected
        end
    | _ => selected
    end in
  Normal (take MAX_PARALLEL_RESEARCH selected).

Record Handoff : Type := {
  recommended : bool;
  targetAgent : string;
  reason : string
}.

Definition toValidator : Handoff :=
  {| recommended := true; targetAgent := "NoveltyValidator";
     reason := "High novelty score warrants immediate validation" |}.

Definition toSpecialist (other : string) : Handoff :=
  {| recommended := true; targetAgent := "DiscoverySpecialist-" +:+ other;
     reason := "Multiple sources with low novelty - trying different specialization" |}.

Definition noHandoff (why : string) : Handoff :=
  {| recommended := false; targetAgent := ""; reason := why |}.

Context {R : JSRuntime}.

(** The [try] block of [evaluateHandoffNeed]; [content] is the outcome
    of [JSON.parse(message.content)]. *)
Definition evaluate_try (content : completion JSValue) (specialist : string)
    : completion Handoff :=
  messageData ← content;
  novelty ← get messageData "noveltyScore";
  high ← js_ge novelty (Fin 6);
  synthesized ← (if high : bool
                 then count ← get messageData "sourcesSynthesized";
                      js_ge count (Fin 2)
                 else Normal false);
  if synthesized : bool then Normal toValidator
  else
    analyzed ← get messageData "sourcesAnalyzed";
    many ← js_ge analyzed (Fin 3);
    low ← (if many : bool
           then novelty' ← get messageData "noveltyScore";
                js_lt novelty' (Fin 5)
           else Normal false);
    let otherSpecialists :=
      List.filter (fun s => negb (String.eqb s specialist)) roster in
    match low, otherSpecialists with
    | true, other :: _ => Normal (toSpecialist other)
    | _, _ => Normal (noHandoff "No handoff needed")
    end.

Definition evaluateHandoffNeed (content : completion JSValue) (specialist : string)
    : Handoff :=
  match evaluate_try content specialist with
  | Normal decision => decision
  | Throw => noHandoff "Error evaluating handoff need"
  end.

(** A numeric field of a result message compares at least, or below, a
    Number: the message parses, and the comparison yields true. *)
Definition at_least (content : completion JSValue) (name : string) (k : Q) : bool :=
  match messageData ← content; v ← get messageData name; js_ge v (Fin k) with
  | Normal b => b
  | Throw => false
  end.

Definition below (content : completion JSValue) (name : string) (k : Q) : bool :=
  match messageData ← content; v ← get messageData name; js_lt v (Fin k) with
  | Normal b => b
  | Throw => false
  end.

End Roster.

(** The controller's own fields, and the lines it writes to the
    console (pictographs left out). *)
Record State : Type := {
  isRunning : bool;
  currentCycle : nat;
  cycleInterval : option nat;          (* the handle of [setInterval] *)
  lastActivity : nat;
  console : list string
}.

Definition init : State :=
  {| isRunning := false; currentCycle := 0; cycleInterval := None;
     lastActivity := 0; console := [] |}.

Definition log (st : State) (line : string) : State :=
  {| isRunning := isRunning st; currentCycle := currentCycle st;
     cycleInterval := cycleInterval st; lastActivity := lastActivity st;
     console := console st ++ [line] |}.

(** [runDiscoveryCycle] on the controller's own fields: the guard, the
    counter and the clock.  The body of the cycle works on the agents
    and on the message queue, and catches what it throws. *)
Definition runDiscoveryCycle (st : State) (now : nat) : State :=
  if isRunning st then
    log {| isRunning := isRunning st; currentCycle := S (currentCycle st);
           cycleInterval := cycleInterval st; lastActivity := now;
           console := console st |}
        ("=== DISCOVERY CYCLE " +:+ pretty (S (currentCycle st)) +:+ " ===")
  else st.

(** [start]; [timer] is the handle [setInterval] returns. *)
Definition start (st : State) (now timer : nat) : State :=
  if isRunning st then log st "System already running"
  else
    let st1 := log st "Starting Ambient Discovery Engine..." in
    let st2 := {| isRunning := true; currentCycle := currentCycle st1;
                  cycleInterval := Some timer; lastActivity := now;
                  console := console st1 |} in
    let st3 := runDiscoveryCycle st2 now in
    log st3 "Discovery system running - continuous research active".

Definition stop (st : State) : State :=
  if negb (isRunning st) then log st "System already stopped"
  else
    let st1 := log st "Stopping discovery system..." in
    let st2 := {| isRunning := false; currentCycle := currentCycle st1;
                  cycleInterval := None; lastActivity := lastActivity st1;
                  console := console st1 |} in
    log st2 "Discovery system stopped".

End Controller.

(** ** models/ChainBuilderAgent.ts *)

Module ChainBuilder.
Import JS.

Record ChainOpportunity : Type := {
  sourceDiscoveryId : string;
  targetDiscoveryId : string;
  connectionType : JSValue;
  connectionStrength : JSNum;          (* 1-10 scale *)
  explanation : JSValue
}.

Record State : Type := {
  chainOpportunities : list ChainOpportunity;
  processedConnections : nat
}.

Definition init : State := {| chainOpportunities := []; processedConnections := 0 |}.

Section Analysis.
Context {R : JSRuntime}.

(** The reply says there is a connection, of strength at least 6. *)
Definition meaningful (reply : Reply) : Prop :=
  exists analysis has s,
    reply = Parsed analysis /\
    get analysis "hasConnection" = Normal has /\ is_true has = true /\
    get analysis "connectionStrength" = Normal s /\
    js_ge s (Fin 6) = Normal true.

(** The [try] block of [analyzeConnection]; [None] is [null]. *)
Definition analyze_try (discovery1 discovery2 : Store.Discovery) (reply : Reply)
    : completion (option ChainOpportunity) :=
  match reply with
  | AgentError | Malformed => Throw
  | Parsed analysis =>
      has ← get analysis "hasConnection";
      strong ← (if is_true has
                then s ← get analysis "connectionStrength"; js_ge s (Fin 6)
                else Normal false);
      if strong : bool then
        kind ← get analysis "connectionType";
        s ← get analysis "connectionStrength";
        strength ← clamp (Fin 1) (Fin 10) (js_or s (JNumber (Fin 5)));
        text ← get analysis "explanation";
        Normal (Some {| sourceDiscoveryId := Store.id discovery1;
                        targetDiscoveryId := Store.id discovery2;
                        connectionType := js_or kind (JString "intersects");
                        connectionStrength := strength;
                        explanation :=
                          js_or text (JString "Connection identified but not explained") |})
      else Normal None
  end.

Definition analyzeConnection (discovery1 discovery2 : Store.Discovery) (reply : Reply)
    : option ChainOpportunity :=
  match analyze_try discovery1 discovery2 reply with
  | Normal connection => connection
  | Throw => None
  end.

(** [findConnectionOpportunities]; [agent i j] is the reply to the
    prompt for the [i]-th new discovery and the [j]-th existing one. *)
Definition findConnectionOpportunities (m : Store.DiscoveryManager)
    (discoveries : list Store.Discovery) (agent : nat -> nat -> Reply)
    : list ChainOpportunity :=
  let existingDiscoveries := Store.getValidatedDiscoveries m 20%Z in
  concat (imap (fun i newDiscovery =>
    if bool_decide (Store.status newDiscovery = Store.validated) then
      concat (imap (fun j existingDiscovery =>
        if String.eqb (Store.id newDiscovery) (Store.id existingDiscovery) then []
        else
          match analyzeConnection newDiscovery existingDiscovery (agent i j) with
          | Some connection =>
              if num_le (Fin 6) (connectionStrength connection)
              then [connection] else []
          | None => []
          end) existingDiscoveries)
    else []) discoveries).

(** [process], on the agent's own fields: the new opportunities are
    appended and the counter grows; nothing after that in the [try]
    block throws. *)
Definition process (st : State) (m : Store.DiscoveryManager)
    (discoveries : list Store.Discovery) (agent : nat -> nat -> Reply) : State :=
  let newOpportunities := findConnectionOpportunities m discoveries agent in
  {| chainOpportunities := chainOpportunities st ++ newOpportunities;
     processedConnections := processedConnections st + length discoveries |}.

(** The states the agent goes through. *)
Inductive reachable : State -> Prop :=
| reachable_init : reachable init
| reachable_process st m discoveries agent :
    reachable st -> reachable (process st m discoveries agent).

End Analysis.

End ChainBuilder.

(** ** Sample data *)

Module Sample.
Import JS.

(** A runtime in which only the empty string reads as a number.  The
    replies below carry numbers, never texts, where a number is read:
    what they show does not depend on this choice. *)
Definition runtime : JSRuntime :=
  {| StringToNumber := fun s => if String.eqb s "" then Fin 0 else NaN;
     StringToNumber_empty := eq_refl |}.

(** The reply [{"noveltyScore": score, "recommendation": verdict}]. *)
Definition verdict (score : JSValue) (recommendation : string) : Reply :=
  Parsed (JObject [("noveltyScore", score);
                   ("recommendation", JString recommendation)]).

(** A store with one pending discovery. *)
Definition created : NoveltyValidator.State :=
  {| NoveltyValidator.discoveryManager :=
       fst (Store.createDiscovery Store.empty "d1" "t1" 0
              "Quantum sensors detect dark matter" "" [] [] [] None);
     NoveltyValidator.knowledgeBase := ∅;
     NoveltyValidator.processedCount := 0 |}.

Definition quantum : Store.Discovery :=
  {| Store.id := "d1"; Store.finding := "Quantum sensors detect dark matter";
     Store.noveltyScore := Fin 0;
     Store.noveltyExplanation := ""; Store.sourcesSynthesized := [];
     Store.discoveredBy := []; Store.buildsOn := []; Store.threadId := "t1";
     Store.researchNext := []; Store.timestamp := 0; Store.status := Store.pending |}.

(** The same discovery after the validator accepted it with score 8. *)
Definition accepted : Store.Discovery :=
  Store.setStatus quantum Store.validated (Some (Fin 8)).

(** The validator processes the discovery twice, as a cycle does when
    the handoff to the validator is followed by the validation step: the
    first reply accepts with score 8, the second rejects with score 8. *)
Definition validated_once : NoveltyValidator.State :=
  fst (NoveltyValidator.process (R := runtime) created quantum
         (verdict (JNumber (Fin 8)) "accept")).

Definition validated_twice : NoveltyValidator.State :=
  fst (NoveltyValidator.process (R := runtime) validated_once accepted
         (verdict (JNumber (Fin 8)) "reject")).

(** One more discovery is created and accepted with score 8. *)
Definition feed (st : NoveltyValidator.State) (n : nat) : NoveltyValidator.State :=
  let '(m, d) :=
    Store.createDiscovery (NoveltyValidator.discoveryManager st)
      ("d" +:+ pretty n) ("t" +:+ pretty n) n
      ("Finding number " +:+ pretty n) "" [] [] [] None in
  fst (NoveltyValidator.process (R := runtime)
         {| NoveltyValidator.discoveryManager := m;
            NoveltyValidator.knowledgeBase := NoveltyValidator.knowledgeBase st;
            NoveltyValidator.processedCount := NoveltyValidator.processedCount st |}
         d (verdict (JNumber (Fin 8)) "accept")).

(** Eleven discoveries with the tag [general], all accepted. *)
Definition eleven : NoveltyValidator.State :=
  foldl feed NoveltyValidator.init (seq 0 11).

(** The agent finds a connection of strength 9 everywhere. *)
Definition connected (i j : nat) : Reply :=
  Parsed (JObject [("hasConnection", JBool true);
                   ("connectionType", JString "builds_on");
                   ("connectionStrength", JNumber (Fin 9))]).

(** The result message of a specialist, reduced to its counts. *)
Definition result (novelty analyzed synthesized : Q) : completion JSValue :=
  Normal (JObject [("action", JString "research_completed");
                   ("sourcesAnalyzed", JNumber (Fin analyzed));
                   ("noveltyScore", JNumber (Fin novelty));
                   ("sourcesSynthesized", JNumber (Fin synthesized))]).

Definition raw (text : string) (priority : Q) : ResearchDirector.RawTopic :=
  {| ResearchDirector.raw_topic := JString text;
     ResearchDirector.raw_priority := JNumber (Fin priority);
     ResearchDirector.raw_parent := JUndefined |}.

(** A batch of 25 topics with the priorities 1 to 10, over and over. *)
Definition batch : list ResearchDirector.RawTopic :=
  map (fun i => raw "topic" (inject_Z (Z.of_nat (1 + i mod 10)))) (seq 0 25).

(** A queue filled to its capacity by that batch. *)
Definition full_queue : list ResearchDirector.ResearchTopic :=
  match ResearchDirector.updateResearchQueue (R := runtime) []
          (ResearchDirector.generateResearchTopics 1 batch) with
  | Normal queue => queue
  | Throw => []
  end.

(** The queue after the initial topics came in the order 7, 9. *)
Definition initial_queue : list ResearchDirector.ResearchTopic :=
  ResearchDirector.generateInitialTopics [] [raw "first" 7; raw "second" 9].

(** A reply that gives the priority of its second topic as a value
    that is not a Number: 5, [worded], 9. *)
Definition mixed (worded : JSValue) : list ResearchDirector.RawTopic :=
  [ raw "a" 5;
    {| ResearchDirector.raw_topic := JString "b";
       ResearchDirector.raw_priority := worded;
       ResearchDirector.raw_parent := JUndefined |};
    raw "c" 9 ].

(** The director after these came as the initial topics. *)
Definition mixed_start (worded : JSValue) : ResearchDirector.State :=
  {| ResearchDirector.researchQueue :=
       ResearchDirector.generateInitialTopics [] (mixed worded);
     ResearchDirector.currentCycle := 0 |}.

(** The three topics as the queue holds them. *)
Definition low : ResearchDirector.ResearchTopic :=
  {| ResearchDirector.id := "initial-" +:+ pretty 0;
     ResearchDirector.topic := JString "a";
     ResearchDirector.priority := JNumber (Fin 5);
     ResearchDirector.assignedTo := None;
     ResearchDirector.status := ResearchDirector.pending;
     ResearchDirector.parentDiscoveryId := JUndefined |}.

Definition odd (worded : JSValue) : ResearchDirector.ResearchTopic :=
  {| ResearchDirector.id := "initial-" +:+ pretty 1;
     ResearchDirector.topic := JString "b";
     ResearchDirector.priority := worded;
     ResearchDirector.assignedTo := None;
     ResearchDirector.status := ResearchDirector.pending;
     ResearchDirector.parentDiscoveryId := JUndefined |}.

Definition high : ResearchDirector.ResearchTopic :=
  {| ResearchDirector.id := "initial-" +:+ pretty 2;
     ResearchDirector.topic := JString "c";
     ResearchDirector.priority := JNumber (Fin 9);
     ResearchDirector.assignedTo := None;
     ResearchDirector.status := ResearchDirector.pending;
     ResearchDirector.parentDiscoveryId := JUndefined |}.

End Sample.

(** ** models/Discovery.ts: the views of the store *)

Module Queries.
Import JS Store.

(** The comparator [(a, b) => b.timestamp.getTime() - a.timestamp.getTime()]
    leaves [a] ahead of [b] when [b] is not newer. *)
Definition newer_first (a b : Discovery) : bool :=
  (timestamp b <=? timestamp a)%nat.


Definition getSeedDiscoveries (m : DiscoveryManager) : list Discovery :=
  take 5
    (Sort.sort newer_first
       (List.filter
          (fun d => bool_decide (status d = validated) && num_le (Fin 8) (noveltyScore d))
          (values m))).


Definition count (st : Status) (l : list Discovery) : nat :=
  length (List.filter (fun d => bool_decide (status d = st)) l).



End Queries.

(** ** models/DiscoverySpecialistAgent.ts *)

Module Specialist.
Import JS.

Definition any_of (s : string) (parts : list string) : bool :=
  existsb (Str.includes s) parts.

(** [estimateCredibility], a small whole number. *)
Definition estimateCredibility (url title : string) : nat :=
  let credibility := 5 in
  let credibility :=
    if any_of url ["edu"; "arxiv"; "scholar"] then credibility + 3 else credibility in
  let credibility :=
    if any_of url ["gov"; "org"] then credibility + 2 else credibility in
  let credibility :=
    if any_of url ["nature.com"; "science.org"; "ieee.org"]
    then credibility + 3 else credibility in
  let credibility :=
    if any_of (Str.toLowerCase title) ["research"; "study"]
    then credibility + 1 else credibility in
  Nat.min 10 credibility.

(** [self.findIndex(p)]; [None] is [-1]. *)
Fixpoint findIndex {A} (p : A -> bool) (l : list A) : option nat :=
  match l with
  | [] => None
  | x :: l' => if p x then Some 0 else S <$> findIndex p l'
  end.

(** The comparator [(a, b) => b.credibility - a.credibility] puts [b]
    ahead of [a] only when [a.credibility < b.credibility]. *)
Definition more_credible_first (a b : Store.Source) : bool :=
  negb (num_lt (Store.credibility a) (Store.credibility b)).

Definition deduplicateAndRankSources (sources : list Store.Source) : list Store.Source :=
  let uniqueSources :=
    map snd
      (List.filter
         (fun it =>
            bool_decide
              (findIndex (fun s => String.eqb (Store.url s) (Store.url (snd it))) sources
               = Some (fst it)))
         (imap pair sources)) in
  Sort.sort more_credible_first uniqueSources.

(** [generateSearchQueries]; [specialization] is
    [this.config.specialization]. *)
Definition generateSearchQueries (specialization : option string) (topic : string)
    : list string :=
  let baseQueries :=
    [ topic;
      topic +:+ " research breakthrough";
      topic +:+ " novel applications";
      topic +:+ " interdisciplinary connections";
      "recent developments " +:+ topic ] in
  let baseQueries :=
    match specialization with
    | Some name =>
        if String.eqb name "" then baseQueries
        else baseQueries ++
             [ topic +:+ " " +:+ Str.toLowerCase name;
               Str.toLowerCase name +:+ " applications " +:+ topic ]
    | None => baseQueries
    end in
  take 4 baseQueries.

(** [gatherWebSources]; [search i] is what [parseSearchResults] made of
    the reply to the [i]-th query, [None] when that search failed. *)
Definition gatherWebSources (specialization : option string) (topic : string)
    (search : nat -> option (list Store.Source)) : list Store.Source :=
  let searchQueries := generateSearchQueries specialization topic in
  let sources :=
    concat (imap (fun i _ => default [] (search i)) searchQueries) in
  take 5 (deduplicateAndRankSources sources).

(** What [synthesizeMultipleSources] returns. *)
Record Analysis : Type := {
  finding : JSValue;
  noveltyExplanation : JSValue;
  noveltyScore : JSNum;
  sourcesSynthesized : JSNum
}.

Definition of_nat (n : nat) : JSNum := Fin (inject_Z (Z.of_nat n)).

Section Synthesis.
Context {R : JSRuntime}.

(** The [try] block of [synthesizeMultipleSources]. *)
Definition synthesize_try (sources : list Store.Source) (reply : Reply)
    : completion Analysis :=
  match reply with
  | AgentError | Malformed => Throw
  | Parsed analysis =>
      f ← get analysis "finding";
      e ← get analysis "noveltyExplanation";
      s ← get analysis "noveltyScore";
      score ← clamp (Fin 1) (Fin 10) (js_or s (JNumber (Fin 3)));
      c ← get analysis "sourcesSynthesized";
      count ← ToNumber (js_or c (JNumber (Fin 0)));
      Normal {| finding := js_or f (JString "No significant synthesis achieved");
                noveltyExplanation := js_or e (JString "Limited novelty detected");
                noveltyScore := score;
                sourcesSynthesized :=
                  Math_max count
                    (if (2 <=? length sources)%nat then Fin 2
                     else of_nat (length sources)) |}
  end.

Definition synthesizeMultipleSources (sources : list Store.Source) (reply : Reply)
    : Analysis :=
  if (length sources <? 2)%nat then
    {| finding := JString "Insufficient sources for synthesis";
       noveltyExplanation :=
         JString "Need at least 2 sources for meaningful synthesis";
       noveltyScore := Fin 2;
       sourcesSynthesized := of_nat (length sources) |}
  else
    match synthesize_try sources reply with
    | Normal analysis => analysis
    | Throw =>
        {| finding := JString "Synthesis error occurred";
           noveltyExplanation :=
             JString "Unable to complete multi-source synthesis";
           noveltyScore := Fin 2;
           sourcesSynthesized := Fin 0 |}
    end.

(** The test of [process] that decides whether a discovery is created. *)
Definition creates (analysis : Analysis) : bool :=
  num_le (Fin 7) (noveltyScore analysis) &&
  num_le (Fin 2) (sourcesSynthesized analysis).



End Synthesis.

End Specialist.

(** ** controllers/AgentController.ts: handoffs, the run loop, messages *)

Module Handoffs.
Import JS.

(** [s.replace(p, r)] for a text [p]: the first occurrence only. *)
Fixpoint replace (s p r : string) : string :=
  if Str.startsWith s p then r +:+ String.substring (String.length p) (String.length s) s
  else
    match s with
    | EmptyString => EmptyString
    | String c s' => String c (replace s' p r)
    end.

Inductive Target : Type :=
| noveltyValidator
| chainBuilder
| discoverySpecialist (specialization : string).

(** The search for the target agent in [executeAgentHandoff]; [None]
    ends in [Target agent not found]. *)
Definition targetAgent (roster : list string) (toAgentName : string) : option Target :=
  if String.eqb toAgentName "NoveltyValidator" then Some noveltyValidator
  else if String.eqb toAgentName "ChainBuilder" then Some chainBuilder
  else if Str.startsWith toAgentName "DiscoverySpecialist-" then
    let specialization := replace toAgentName "DiscoverySpecialist-" "" in
    discoverySpecialist <$> Controller.find roster specialization
  else None.

(** What [executeAgentHandoff] ends up doing. *)
Inductive Action : Type :=
| validate (discovery : Store.Discovery)     (* noveltyValidator.process *)
| research (specialization topic : string)   (* targetAgent.process(enhancedTopic) *)
| handoff_completed
| handoff_failed.

(** [getName()] of a specialist. *)
Definition getName (specialization : string) : string :=
  "Discovery Specialist (" +:+ specialization +:+ ")".

(** The [try] block of [executeAgentHandoff]; [content] is the outcome
    of [JSON.parse(previousResult.content)], which is only asked for
    when the target is the validator. *)
Definition handoff_try (roster : list string) (m : Store.DiscoveryManager)
    (fromAgent toAgentName topic : string) (content : completion JSValue)
    : completion Action :=
  match targetAgent roster toAgentName with
  | None => Throw
  | Some target =>
      found ← (if String.eqb toAgentName "NoveltyValidator" then
                 messageData ← content;
                 summary ← get messageData "discovery";
                 if truthy summary then
                   key ← get summary "id";
                   Normal (match key with
                           | JString k => Store.getDiscovery m k
                           | _ => None
                           end)
                 else Normal None
               else Normal None);
      match found, target with
      | Some discovery, _ => Normal (validate discovery)
      | None, discoverySpecialist specialization =>
          Normal (research specialization
                    (topic +:+ " (handoff from " +:+ fromAgent +:+ ")"))
      | None, _ => Normal handoff_completed
      end
  end.

Definition executeAgentHandoff (roster : list string) (m : Store.DiscoveryManager)
    (fromAgent toAgentName topic : string) (content : completion JSValue) : Action :=
  match handoff_try roster m fromAgent toAgentName topic content with
  | Normal action => action
  | Throw => handoff_failed
  end.

(** The states the controller goes through: [start], [stop], and a
    cycle, fired by the timer or by a voice command. *)
Inductive reachable : Controller.State -> Prop :=
| reachable_init : reachable Controller.init
| reachable_start st now timer : reachable st -> reachable (Controller.start st now timer)
| reachable_stop st : reachable st -> reachable (Controller.stop st)
| reachable_cycle st now : reachable st -> reachable (Controller.runDiscoveryCycle st now).

Record AgentMessage : Type := {
  id : string;
  content : string;
  timestamp : nat;
  agentName : string;
  type : string
}.

(** [queue.slice(-n)]: the last [n] elements, and all of them for
    [n = 0], since [-0] is [0]. *)
Definition slice_last {A} (n : nat) (queue : list A) : list A :=
  match n with
  | O => queue
  | _ => drop (length queue - n) queue
  end.

Definition newest_first (a b : AgentMessage) : bool :=
  (timestamp b <=? timestamp a)%nat.

Definition getRecentMessages (messageQueue : list AgentMessage) (limit : nat)
    : list AgentMessage :=
  Sort.sort newest_first (slice_last limit messageQueue).

Definition cleanupMessages (messageQueue : list AgentMessage) : list AgentMessage :=
  if (1000 <? length messageQueue)%nat then slice_last 500 messageQueue
  else messageQueue.

End Handoffs.

(** ** models/ResearchDirectorAgent.ts: the views of the queue *)

Module QueueViews.
Import JS ResearchDirector.


Record QueueStatus : Type := {
  pending_topics : nat;
  active_topics : nat;
  total_topics : nat
}.

Definition count (st : Status) (q : list ResearchTopic) : nat :=
  length (List.filter (fun t => bool_decide (status t = st)) q).

Definition getQueueStatus (researchQueue : list ResearchTopic) : QueueStatus :=
  {| pending_topics := count pending researchQueue;
     active_topics := count active researchQueue;
     total_topics := length researchQueue |}.

Section Reach.
Context {R : JSRuntime}.

(** The queues the director goes through: the initial topics of the
    reply, or the fallback ones after those that were pushed before the
    reply failed; then voice commands and cycles. *)
Inductive reachable : State -> Prop :=
| reachable_initial topics :
    reachable {| researchQueue := generateInitialTopics [] topics; currentCycle := 0 |}
| reachable_fallback pushed :
    reachable {| researchQueue := addFallbackTopics (generateInitialTopics [] pushed);
                 currentCycle := 0 |}
| reachable_voice st userTopic now :
    reachable st ->
    reachable {| researchQueue := processVoiceCommand (researchQueue st) userTopic now;
                 currentCycle := currentCycle st |}
| reachable_process st topicsData :
    reachable st -> reachable (fst (process st topicsData)).

End Reach.

End QueueViews.

(** ** models/NoveltyValidatorAgent.ts and ChainBuilderAgent.ts: the rest *)

Module Knowledge.
Import JS NoveltyValidator.

(** [buildKnowledgeBase], run once by [initialize]. *)
Definition buildKnowledgeBase (st : State) : State :=
  {| discoveryManager := discoveryManager st;
     knowledgeBase :=
       foldl updateKnowledgeBase (knowledgeBase st)
             (Store.getValidatedDiscoveries (discoveryManager st) 50%Z);
     processedCount := processedCount st |}.

(** Every list of the knowledge base holds at most 10 findings, each
    once. *)
Definition tidy (kb : gmap string (list string)) : Prop :=
  forall topic insights, kb !! topic = Some insights ->
    length insights <= 10 /\ NoDup insights.

End Knowledge.

Module Suggestions.
Import JS.

Record ResearchSuggestion : Type := {
  suggestedTopic : JSValue;
  priority : JSNum;
  basedOnDiscoveries : JSValue;
  reasoning : JSValue;
  type : JSValue
}.

Section Generate.
Context {R : JSRuntime}.

(** [suggestions.filter(s => s.priority >= 7)]. *)
Fixpoint promising (suggestions : list JSValue) : completion (list JSValue) :=
  match suggestions with
  | [] => Normal []
  | s :: rest =>
      p ← get s "priority";
      keep ← js_ge p (Fin 7);
      kept ← promising rest;
      Normal (if keep : bool then s :: kept else kept)
  end.

Definition suggestion (s : JSValue) : completion ResearchSuggestion :=
  t ← get s "suggestedTopic";
  p ← get s "priority";
  prio ← clamp (Fin 1) (Fin 10) (js_or p (JNumber (Fin 7)));
  b ← get s "basedOnDiscoveries";
  r ← get s "reasoning";
  k ← get s "type";
  Normal {| suggestedTopic := js_or t (JString "Research suggestion not specified");
            priority := prio;
            basedOnDiscoveries := js_or b (JArray []);
            reasoning := js_or r (JString "Reasoning not provided");
            type := js_or k (JString "deep_dive") |}.

(** [kept.map(...)]. *)
Fixpoint suggestions_of (kept : list JSValue) : completion (list ResearchSuggestion) :=
  match kept with
  | [] => Normal []
  | s :: rest =>
      first ← suggestion s;
      others ← suggestions_of rest;
      Normal (first :: others)
  end.

(** The [try] block of [generateResearchSuggestions]: only an array
    has a [filter]. *)
Definition suggestions_try (reply : Reply) : completion (list ResearchSuggestion) :=
  match reply with
  | Parsed (JArray suggestions) =>
      kept ← promising suggestions; suggestions_of kept
  | _ => Throw
  end.

(** [generateResearchSuggestions]: the agent is not asked when there is
    no discovery. *)
Definition generateResearchSuggestions (discoveries : list Store.Discovery)
    (reply : Reply) : list ResearchSuggestion :=
  match discoveries with
  | [] => []
  | _ =>
      match suggestions_try reply with
      | Normal suggestions => suggestions
      | Throw => []
      end
  end.

End Generate.

End Suggestions.

(** ** Further scenarios *)

Module Scenario.
Import JS.

Definition runtime : JSRuntime := Sample.runtime.

Definition paper (address : string) (score : Q) : Store.Source :=
  {| Store.url := address; Store.title := "A study"; Store.keyInsight := "";
     Store.credibility := Fin score |}.

(** Two searches succeed, the third fails, the fourth repeats an
    address of the first. *)
Definition search (i : nat) : option (list Store.Source) :=
  match i with
  | 0 => Some [paper "https://arxiv.org/abs/1" 8; paper "https://example.com/a" 5]
  | 1 => Some [paper "https://nature.com/x" 9]
  | 2 => None
  | 3 => Some [paper "https://arxiv.org/abs/1" 7]
  | _ => Some [paper "https://ieee.org/never-asked" 10]
  end.

(** The reply [{"finding": ..., "noveltyScore": score,
    "sourcesSynthesized": count}]. *)
Definition synthesis (score count : JSNum) : Reply :=
  Parsed (JObject [("finding", JString "Sensors meet biology");
                   ("noveltyScore", JNumber score);
                   ("sourcesSynthesized", JNumber count)]).

(** The thread the first discovery of [Sample.created] opened. *)
Definition first_thread : Store.DiscoveryThread :=
  {| Store.thread_id := "t1"; Store.topic := "Quantum sensors detect dark matter";
     Store.thread_discoveries := ["d1"]; Store.createdAt := 0;
     Store.lastUpdated := 0; Store.depth := 1 |}.

(** The director after the initial topics and one cycle. *)
Definition director : ResearchDirector.State :=
  fst (ResearchDirector.process (R := runtime)
         {| ResearchDirector.researchQueue := Sample.initial_queue;
            ResearchDirector.currentCycle := 0 |}
         [Sample.raw "third" 8]).

(** A director with a full queue, and the same after a voice command. *)
Definition busy : ResearchDirector.State :=
  {| ResearchDirector.researchQueue := Sample.full_queue;
     ResearchDirector.currentCycle := 1 |}.

Definition voiced : ResearchDirector.State :=
  {| ResearchDirector.researchQueue :=
       ResearchDirector.processVoiceCommand Sample.full_queue (Some "cats") 0;
     ResearchDirector.currentCycle := 1 |}.

(** A message of the queue. *)
Definition note : Handoffs.AgentMessage :=
  {| Handoffs.id := "msg-1"; Handoffs.content := ""; Handoffs.timestamp := 0;
     Handoffs.agentName := "System"; Handoffs.type := "coordination" |}.

(** The message of a research that created the discovery [d1]. *)
Definition found : completion JSValue :=
  Normal (JObject [("action", JString "research_completed");
                   ("discovery", JObject [("id", JString "d1")]);
                   ("sourcesAnalyzed", JNumber (Fin 3));
                   ("noveltyScore", JNumber (Fin 8));
                   ("sourcesSynthesized", JNumber (Fin 2))]).

(** One suggestion of priority 9. *)
Definition suggested : Reply :=
  Parsed (JArray [JObject [("suggestedTopic", JString "Sensors in biology");
                           ("priority", JNumber (Fin 9))]]).

End Scenario.

(** * Properties *)

Section JSFacts.
Import JS.
Context {R : JSRuntime}.

Lemma num_le_Fin (x y : Q) : num_le (Fin x) (Fin y) = true <-> (x <= y)%Q.
Proof. simpl. apply Qle_bool_iff. Qed.

Lemma Qle_bool_false (x y : Q) : Qle_bool x y = false -> (y < x)%Q.
Proof.
  intros H. apply Qnot_le_lt. intros Hle.
  apply Qle_bool_iff in Hle. congruence.
Qed.

(** Clamping a Number that is not NaN lands in the interval. *)
Lemma clamp_between (a : JSNum) :
  a <> NaN -> between 1 10 (Math_min (Fin 10) (Math_max (Fin 1) a)).
Proof.
  intros Ha. destruct a as [| |q|]; try congruence; cbn.
  - split; lra.
  - destruct (Qle_bool 1 q) eqn:H1; cbn.
    + apply Qle_bool_iff in H1.
      destruct (Qle_bool 10 q) eqn:H2; cbn.
      * split; lra.
      * apply Qle_bool_false in H2. split; lra.
    + split; lra.
  - split; lra.
Qed.

(** Clamping keeps a Number that is at least [k] at least [k]. *)
Lemma clamp_at_least (k : Q) (a : JSNum) :
  (1 <= k)%Q -> (k <= 10)%Q -> num_le (Fin k) a = true ->
  between k 10 (Math_min (Fin 10) (Math_max (Fin 1) a)).
Proof.
  intros Hk1 Hk2 Ha. destruct a as [| |q|]; try discriminate; cbn.
  - apply num_le_Fin in Ha.
    assert (H1 : Qle_bool 1 q = true) by (apply Qle_bool_iff; lra).
    rewrite H1. cbn.
    destruct (Qle_bool 10 q) eqn:H2; cbn.
    + split; lra.
    + apply Qle_bool_false in H2. split; lra.
  - split; lra.
Qed.

(** A value that compares at least a positive Number is truthy. *)
Lemma at_least_truthy (k : Q) (v : JSValue) (a : JSNum) :
  (0 < k)%Q -> ToNumber v = Normal a -> num_le (Fin k) a = true -> truthy v = true.
Proof.
  intros Hk Hv Ha.
  assert (Hz : forall q, num_le (Fin k) (Fin q) = true -> negb (Qeq_bool q 0) = true).
  { intros q Hq. apply num_le_Fin in Hq. apply negb_true_iff.
    destruct (Qeq_bool q 0) eqn:E; [|done].
    apply Qeq_bool_iff in E. lra. }
  assert (H0 : num_le (Fin k) (Fin 0) = false).
  { destruct (num_le (Fin k) (Fin 0)) eqn:E; [|done].
    apply num_le_Fin in E. lra. }
  destruct v as [| |b|n|s| |]; cbn in *; try done.
  - injection Hv as <-. cbn in Ha. discriminate.
  - injection Hv as <-. cbn in H0. congruence.
  - injection Hv as <-. destruct b; [done|]. cbn in H0. congruence.
  - injection Hv as <-. destruct n; try done. by apply Hz.
  - injection Hv as <-. destruct (String.eqb_spec s ""); [|done].
    subst. rewrite StringToNumber_empty in Ha. cbn in H0. congruence.
Qed.

End JSFacts.

(** ** The Novelty Validator *)

Section ValidatorFacts.
Import JS NoveltyValidator.
Context {R : JSRuntime}.

(** What the [try] block of [assessNovelty] returns when it returns. *)
Lemma assess_try_Normal discovery reply assessment :
  assess_try discovery reply = Normal assessment ->
  exists validation s score,
    reply = Parsed validation /\
    get validation "noveltyScore" = Normal s /\
    ToNumber (js_or s (JNumber (Fin 5))) = Normal score /\
    noveltyScore assessment = Math_min (Fin 10) (Math_max (Fin 1) score) /\
    discoveryId assessment = Store.id discovery /\
    (recommendation assessment = accept \/ recommendation assessment = reject) /\
    (recommendation assessment = accept <->
       exists r, get validation "recommendation" = Normal r /\
                 is_string r "accept" = true /\ js_ge s (Fin 7) = Normal true).
Proof.
  destruct reply as [| |validation]; try discriminate.
  unfold assess_try. intros H.
  destruct (get validation "noveltyScore") as [s|] eqn:Hs; [|discriminate].
  cbn in H. unfold clamp in H.
  destruct (ToNumber (js_or s (JNumber (Fin 5)))) as [score|] eqn:Hscore;
    [|discriminate].
  cbn in H.
  destruct (get validation "validationReason") as [reason|]; [|discriminate].
  destruct (get validation "comparisonInsights") as [insights|]; [|discriminate].
  destruct (get validation "recommendation") as [r|] eqn:Hr; [|discriminate].
  cbn in H.
  exists validation, s, score. repeat split; try done.
  - destruct (is_string r "accept"); cbn in H.
    + destruct (js_ge s (Fin 7)) as [b|]; [|discriminate].
      injection H as <-. done.
    + injection H as <-. done.
  - destruct (is_string r "accept"); cbn in H.
    + destruct (js_ge s (Fin 7)) as [b|]; [|discriminate].
      injection H as <-. done.
    + injection H as <-. done.
  - destruct (is_string r "accept"); cbn in H.
    + destruct (js_ge s (Fin 7)) as [[]|]; try discriminate;
        injection H as <-; cbn; auto.
    + injection H as <-; cbn; auto.
  - intros Hacc. exists r.
    destruct (is_string r "accept"); cbn in H.
    + destruct (js_ge s (Fin 7)) as [[]|]; try discriminate;
        injection H as <-; cbn in Hacc; done.
    + injection H as <-; cbn in Hacc; done.
  - intros (r' & Hr' & Hacc & Hge). rewrite Hr in Hr'. injection Hr' as <-.
    rewrite Hacc in H. cbn in H. rewrite Hge in H. cbn in H.
    injection H as <-. done.
Qed.

(** [assessNovelty] recommends [accept] exactly when the reply's
    recommendation is the text [accept] and its score compares at least
    7, and [reject] in every other case. *)
Lemma assessNovelty_recommendation discovery reply :
  let assessment := assessNovelty discovery reply in
  (recommendation assessment = accept <->
     exists validation r s,
       reply = Parsed validation /\
       get validation "recommendation" = Normal r /\ is_string r "accept" = true /\
       get validation "noveltyScore" = Normal s /\ js_ge s (Fin 7) = Normal true) /\
  (recommendation assessment <> accept -> recommendation assessment = reject).
Proof.
  cbn. unfold assessNovelty.
  destruct (assess_try discovery reply) as [assessment|] eqn:H.
  - destruct (assess_try_Normal _ _ _ H)
      as (validation & s & score & -> & Hs & Hn & Hsc & Hid & Hor & Hiff).
    split.
    + rewrite Hiff. split.
      * intros (r & Hr & Hacc & Hge). by exists validation, r, s.
      * intros (v' & r & s' & Hv & Hr & Hacc & Hs' & Hge).
        injection Hv as <-. rewrite Hs in Hs'. injection Hs' as <-. by exists r.
    + intros Hne. by destruct Hor.
  - cbn. split; [|done]. split; [done|].
    intros (validation & r & s & -> & Hr & Hacc & Hs & Hge).
    exfalso. unfold assess_try in H. rewrite Hs in H. cbn in H.
    unfold js_ge in Hge.
    destruct (ToNumber s) as [a|] eqn:Ha; [|discriminate].
    cbn in Hge. injection Hge as Hge.
    assert (Ht : truthy s = true) by (eapply (at_least_truthy 7); [lra|done..]).
    unfold clamp, js_or in H. rewrite Ht, Ha in H. cbn in H.
    destruct validation; try discriminate; cbn in H, Hr;
      injection Hr as <-; rewrite Hacc in H; cbn in H;
      unfold js_ge in H; rewrite Ha in H; cbn in H; by rewrite Hge in H.
Qed.

(** The score [assessNovelty] returns lies in [1,10] unless it is NaN. *)
Lemma assessNovelty_score discovery reply :
  noveltyScore (assessNovelty discovery reply) <> NaN ->
  between 1 10 (noveltyScore (assessNovelty discovery reply)).
Proof.
  unfold assessNovelty.
  destruct (assess_try discovery reply) as [assessment|] eqn:H.
  - destruct (assess_try_Normal _ _ _ H)
      as (validation & s & score & -> & Hs & Hn & -> & _).
    intros Hnan. apply clamp_between. intros ->. by apply Hnan.
  - cbn. intros _. split; lra.
Qed.

(** An accepted score lies in [7,10]. *)
Lemma assessNovelty_accept_score discovery reply :
  recommendation (assessNovelty discovery reply) = accept ->
  between 7 10 (noveltyScore (assessNovelty discovery reply)).
Proof.
  unfold assessNovelty.
  destruct (assess_try discovery reply) as [assessment|] eqn:H; [|done].
  destruct (assess_try_Normal _ _ _ H)
    as (validation & s & score & -> & Hs & Hn & -> & _ & _ & Hiff).
  intros Hacc. apply Hiff in Hacc as (r & _ & _ & Hge).
  unfold js_ge in Hge. destruct (ToNumber s) as [a|] eqn:Ha; [|discriminate].
  cbn in Hge. injection Hge as Hge.
  assert (Ht : truthy s = true) by (eapply (at_least_truthy 7); [lra|done..]).
  unfold js_or in Hn. rewrite Ht, Ha in Hn. injection Hn as <-.
  apply clamp_at_least; [lra|lra|done].
Qed.

End ValidatorFacts.

Section ValidatorProcess.
Import JS NoveltyValidator.
Context {R : JSRuntime}.

Lemma process_manager st discovery reply :
  discoveryManager (fst (process st discovery reply)) =
  Store.updateDiscoveryStatus (discoveryManager st) (Store.id discovery)
    (if decide (recommendation (assessNovelty discovery reply) = accept)
     then Store.validated else Store.rejected)
    (Some (noveltyScore (assessNovelty discovery reply))).
Proof. reflexivity. Qed.

Lemma process_knowledgeBase st discovery reply :
  knowledgeBase (fst (process st discovery reply)) =
  if decide (recommendation (assessNovelty discovery reply) = accept)
  then updateKnowledgeBase (knowledgeBase st) discovery
  else knowledgeBase st.
Proof. reflexivity. Qed.

(** A failed assessment is the default one. *)
Lemma assessNovelty_failed discovery reply :
  reply = AgentError \/ reply = Malformed \/ assess_try discovery reply = Throw ->
  noveltyScore (assessNovelty discovery reply) = Fin 3 /\
  recommendation (assessNovelty discovery reply) = reject.
Proof.
  intros H. assert (Ht : assess_try discovery reply = Throw).
  { destruct H as [->|[->|H]]; done. }
  unfold assessNovelty. by rewrite Ht.
Qed.

(** C3. When validation fails (the agent call throws, its reply does
    not parse, or reading the parsed reply throws), a stored discovery
    ends up rejected with the default score 3, and is otherwise the
    discovery it was; and whatever the reply, a stored discovery is
    validated or rejected, not pending, once [process] has returned. *)
Theorem process_failure_rejects st discovery reply :
  Store.discoveries (discoveryManager st) !! Store.id discovery = Some discovery ->
  let after := Store.discoveries (discoveryManager (fst (process st discovery reply)))
                 !! Store.id discovery in
  (reply = AgentError \/ reply = Malformed \/ assess_try discovery reply = Throw ->
   exists stored,
     after = Some stored /\
     Store.status stored = Store.rejected /\
     Store.noveltyScore stored = Fin 3 /\
     Store.id stored = Store.id discovery /\
     Store.finding stored = Store.finding discovery /\
     stored = Store.setStatus discovery Store.rejected (Some (Fin 3))) /\
  (exists discovery', after = Some discovery' /\
                      Store.status discovery' <> Store.pending /\
                      (Store.status discovery' = Store.validated \/
                       Store.status discovery' = Store.rejected)).
Proof.
  intros Hin. cbn zeta. rewrite process_manager.
  unfold Store.updateDiscoveryStatus. rewrite Hin. cbn.
  rewrite lookup_insert_eq. split.
  - intros Hfail. destruct (assessNovelty_failed _ _ Hfail) as [-> ->].
    rewrite decide_False by done. eexists. split; [done|]. cbn. done.
  - eexists. split; [done|]. cbn. case_decide; split; auto.
Qed.

(** The score follows the reply's score field through ToNumber: a
    truthy field that reads as NaN gives NaN. *)
Lemma assessNovelty_score_of_field discovery validation s :
  get validation "noveltyScore" = Normal s -> truthy s = true ->
  ToNumber s = Normal NaN ->
  noveltyScore (assessNovelty discovery (Parsed validation)) = NaN.
Proof.
  intros Hs Ht Hn. unfold assessNovelty.
  destruct (assess_try discovery (Parsed validation)) as [assessment|] eqn:H.
  - destruct (assess_try_Normal _ _ _ H)
      as (validation' & s' & score & Hv & Hs' & Hscore & -> & _).
    injection Hv as <-. rewrite Hs in Hs'. injection Hs' as <-.
    unfold js_or in Hscore. rewrite Ht, Hn in Hscore. by injection Hscore as <-.
  - exfalso. unfold assess_try in H. rewrite Hs in H. cbn in H.
    unfold clamp, js_or in H. rewrite Ht, Hn in H. cbn in H.
    destruct validation; try discriminate; cbn in H;
      repeat (match type of H with
              | context [if ?b then _ else _] => destruct b; cbn in H
              end); try discriminate;
      unfold js_ge in H; rewrite Hn in H; discriminate.
Qed.

(** A score given as a text that is not a numeric literal, such as
    ["high"] or ["8/10"], is stored as NaN. *)
Lemma assessNovelty_score_of_text discovery text verdict :
  text <> "" -> StringToNumber text = NaN ->
  noveltyScore (assessNovelty discovery (Sample.verdict (JString text) verdict)) = NaN.
Proof.
  intros Hne Hnan. apply (assessNovelty_score_of_field _ _ (JString text)).
  - reflexivity.
  - cbn. destruct (String.eqb_spec text ""); done.
  - cbn. by rewrite Hnan.
Qed.

(** C2, at the reply [{"noveltyScore": {}, "recommendation": "accept"}]:
    the returned score is NaN, outside [1,10]; the recommendation is
    [reject], as the claim says. *)
Theorem assessNovelty_score_not_clamped discovery :
  let assessment := assessNovelty discovery (Sample.verdict (JObject []) "accept") in
  noveltyScore assessment = NaN /\
  ~ between 1 10 (noveltyScore assessment) /\
  recommendation assessment = reject.
Proof. cbn. auto. Qed.

End ValidatorProcess.

Section ValidatorWitnesses.
Import JS NoveltyValidator.

Lemma process_failure_rejects_witness :
  Store.discoveries (discoveryManager Sample.created) !! "d1" = Some Sample.quantum /\
  exists stored,
    Store.discoveries
      (discoveryManager
         (fst (process (R := Sample.runtime) Sample.created Sample.quantum AgentError)))
      !! "d1" = Some stored /\
    Store.status stored = Store.rejected /\
    Store.noveltyScore stored = Fin 3 /\
    Store.id stored = "d1" /\
    Store.finding stored = "Quantum sensors detect dark matter" /\
    stored = Store.setStatus Sample.quantum Store.rejected (Some (Fin 3)).
Proof.
  assert (H : Store.discoveries (discoveryManager Sample.created)
                !! Store.id Sample.quantum = Some Sample.quantum)
    by (vm_compute; reflexivity).
  split; [exact H|].
  exact (proj1 (process_failure_rejects (R := Sample.runtime)
                  Sample.created Sample.quantum AgentError H) (or_introl eq_refl)).
Defined.

End ValidatorWitnesses.

(** ** The discovery store *)

Section StoreFacts.
Import JS.

(** C10. [updateDiscoveryStatus] with an id that is not in the store
    returns the store as it was: no discovery and no thread changes,
    and nothing is reported. *)
Theorem updateDiscoveryStatus_unknown_id (m : Store.DiscoveryManager)
    (discoveryId : string) (st : Store.Status) (score : option JSNum) :
  Store.discoveries m !! discoveryId = None ->
  Store.updateDiscoveryStatus m discoveryId st score = m.
Proof. intros H. unfold Store.updateDiscoveryStatus. by rewrite H. Qed.

Lemma updateDiscoveryStatus_unknown_id_witness :
  let m := NoveltyValidator.discoveryManager Sample.created in
  Store.discoveries m !! "d2" = None /\
  Store.updateDiscoveryStatus m "d2" Store.validated (Some (Fin 9)) = m.
Proof.
  assert (H : Store.discoveries (NoveltyValidator.discoveryManager Sample.created)
                !! "d2" = None) by (vm_compute; reflexivity).
  split; [exact H|].
  exact (updateDiscoveryStatus_unknown_id _ "d2" Store.validated (Some (Fin 9)) H).
Defined.

Lemma createDiscovery_discoveries m uuid threadUuid now finding explanation
    sources by_ buildsOn threadId :
  exists discovery,
    Store.id discovery = uuid /\ Store.status discovery = Store.pending /\
    Store.discoveries
      (fst (Store.createDiscovery m uuid threadUuid now finding explanation
              sources by_ buildsOn threadId))
    = <[uuid := discovery]> (Store.discoveries m).
Proof.
  unfold Store.createDiscovery.
  destruct threadId as [t|]; [destruct (String.eqb t "")|];
    cbn; unfold Store.addDiscoveryToThread; cbn;
    repeat case_match; cbn; eexists; (split; [|split]); try reflexivity; done.
Qed.

End StoreFacts.

(** ** The knowledge base and the lifecycle of a discovery *)

Section KnowledgeBase.
Import JS NoveltyValidator.

Lemma remember_contains finding (kb : gmap string (list string)) topic :
  finding ∈@{list string} default [] (remember finding kb topic !! topic).
Proof.
  unfold remember. destruct (kb !! topic) as [insights|] eqn:E.
  - rewrite E. cbn [default from_option id]. case_bool_decide as Hin.
    + by rewrite E.
    + rewrite lookup_insert_eq.
      destruct (10 <? length (insights ++ [finding]))%nat eqn:Hlen;
        cbn [default from_option id].
      * destruct insights as [|x rest]; [done|]. cbn [app tail].
        apply elem_of_app. right. by apply list_elem_of_singleton.
      * apply elem_of_app. right. by apply list_elem_of_singleton.
  - rewrite lookup_insert_eq. cbn. rewrite bool_decide_eq_false_2.
    + rewrite lookup_insert_eq. cbn. by apply list_elem_of_singleton.
    + by intros ?%elem_of_nil.
Qed.

Lemma remember_keeps finding (kb : gmap string (list string)) topic t :
  finding ∈@{list string} default [] (kb !! t) ->
  finding ∈@{list string} default [] (remember finding kb topic !! t).
Proof.
  intros Hin. destruct (decide (t = topic)) as [->|Hne].
  - apply remember_contains.
  - unfold remember.
    assert (H1 : (match kb !! topic with
                  | Some _ => kb
                  | None => <[topic := []]> kb
                  end) !! t = kb !! t).
    { destruct (kb !! topic); [done|]. by rewrite lookup_insert_ne. }
    case_bool_decide.
    + by rewrite H1.
    + rewrite lookup_insert_ne by done. by rewrite H1.
Qed.

Lemma foldl_remember finding topics : forall (kb : gmap string (list string)) t,
  t ∈ topics \/ finding ∈@{list string} default [] (kb !! t) ->
  finding ∈@{list string} default [] (foldl (remember finding) kb topics !! t).
Proof.
  induction topics as [|topic topics IH]; intros kb t H; cbn.
  - destruct H as [H|H]; [by apply elem_of_nil in H|done].
  - apply IH. destruct H as [H|H].
    + apply elem_of_cons in H as [->|H]; [|by left].
      right. apply remember_contains.
    + right. by apply remember_keeps.
Qed.

(** After [updateKnowledgeBase] the finding is under each of its tags. *)
Lemma updateKnowledgeBase_contains kb discovery topic :
  topic ∈ extractTopics (Store.finding discovery) ->
  Store.finding discovery
    ∈@{list string} default [] (updateKnowledgeBase kb discovery !! topic).
Proof. intros H. apply foldl_remember. by left. Qed.

Lemma extractTopics_first finding :
  exists topic, topic ∈ extractTopics finding.
Proof.
  unfold extractTopics.
  destruct (map tag (List.filter (λ p, test p finding) domainPatterns)) as [|t l].
  - exists "general". by apply list_elem_of_singleton.
  - exists t. by left.
Qed.

(** The list under a topic never holds more than 10 findings once
    [remember] has touched it, provided it did not before. *)
Lemma remember_bound finding (kb : gmap string (list string)) topic :
  length (default [] (kb !! topic)) <= 10 ->
  length (default [] (remember finding kb topic !! topic)) <= 10.
Proof.
  intros Hlen. unfold remember. destruct (kb !! topic) as [insights|] eqn:E.
  - rewrite E in *. cbn [default from_option id] in *. case_bool_decide.
    + by rewrite E.
    + rewrite lookup_insert_eq.
      destruct (10 <? length (insights ++ [finding]))%nat eqn:Hten;
        cbn [default from_option id].
      * rewrite length_tl, length_app. cbn. lia.
      * apply Nat.ltb_ge in Hten. done.
  - rewrite lookup_insert_eq. cbn. rewrite bool_decide_eq_false_2.
    + rewrite lookup_insert_eq. cbn. lia.
    + by intros ?%elem_of_nil.
Qed.

End KnowledgeBase.

Section Lifecycle.
Import JS NoveltyValidator.
Context {R : JSRuntime}.

Lemma well_scored_init : well_scored init.
Proof. intros key discovery H. cbn in H. by rewrite lookup_empty in H. Qed.

Lemma well_scored_step st st' : well_scored st -> step st st' -> well_scored st'.
Proof.
  intros Hinv Hstep.
  destruct Hstep as [st uuid threadUuid now finding explanation sources by_
                       buildsOn threadId | st key0 discovery0 reply Hin0].
  - intros key discovery. cbn.
    destruct (createDiscovery_discoveries (discoveryManager st) uuid threadUuid now
                finding explanation sources by_ buildsOn threadId)
      as (fresh & Hid & Hst & ->).
    destruct (decide (uuid = key)) as [<-|Hne].
    + rewrite lookup_insert_eq. intros [= <-]. split; [done|].
      rewrite Hst. discriminate.
    + rewrite lookup_insert_ne by done. apply Hinv.
  - intros key discovery. rewrite process_manager.
    destruct (Hinv _ _ Hin0) as [Hid0 _]. subst key0.
    unfold Store.updateDiscoveryStatus. rewrite Hin0. cbn.
    destruct (decide (Store.id discovery0 = key)) as [<-|Hne].
    + rewrite lookup_insert_eq. intros [= <-]. split; [done|]. cbn.
      case_decide as Hacc; [|discriminate].
      intros _. by apply assessNovelty_accept_score.
    + rewrite lookup_insert_ne by done. apply Hinv.
Qed.

Lemma reachable_well_scored st : reachable st -> well_scored st.
Proof.
  induction 1 as [|st st' _ IH Hstep].
  - apply well_scored_init.
  - by apply (well_scored_step st).
Qed.

(** C1, as amended.  In every state the store goes through, a
    validated discovery has a score of at least 7 (and at most 10); and
    when the validator leaves a stored discovery validated, the
    knowledge base then holds its finding under every tag that matches
    the finding, of which there is at least one. *)
Theorem validated_score_and_knowledge st :
  reachable st ->
  (forall key discovery,
     Store.discoveries (discoveryManager st) !! key = Some discovery ->
     Store.status discovery = Store.validated ->
     between 7 10 (Store.noveltyScore discovery)) /\
  (forall key discovery reply discovery',
     Store.discoveries (discoveryManager st) !! key = Some discovery ->
     let st' := fst (process st discovery reply) in
     Store.discoveries (discoveryManager st') !! key = Some discovery' ->
     Store.status discovery' = Store.validated ->
     known (knowledgeBase st') discovery' /\
     forall topic, topic ∈ extractTopics (Store.finding discovery') ->
       Store.finding discovery'
         ∈@{list string} default [] (knowledgeBase st' !! topic)).
Proof.
  intros Hreach. pose proof (reachable_well_scored _ Hreach) as Hinv. split.
  - intros key discovery Hin. exact (proj2 (Hinv _ _ Hin)).
  - intros key discovery reply discovery' Hin st' Hin' Hval.
    destruct (Hinv _ _ Hin) as [Hid _]. subst key.
    assert (Hall : forall topic, topic ∈ extractTopics (Store.finding discovery') ->
              Store.finding discovery'
                ∈@{list string} default [] (knowledgeBase st' !! topic)).
    { subst st'. rewrite process_manager in Hin'.
      unfold Store.updateDiscoveryStatus in Hin'. rewrite Hin in Hin'. cbn in Hin'.
      rewrite lookup_insert_eq in Hin'. injection Hin' as <-.
      rewrite process_knowledgeBase. cbn in Hval |- *.
      case_decide as Hacc; [|discriminate].
      intros topic Htopic. by apply updateKnowledgeBase_contains. }
    split; [|done].
    destruct (extractTopics_first (Store.finding discovery')) as [topic Htopic].
    exists topic. split; [done|]. by apply Hall.
Qed.

End Lifecycle.

Section LifecycleExamples.
Import JS NoveltyValidator.

Lemma created_reachable : reachable (R := Sample.runtime) Sample.created.
Proof.
  apply (reachable_step init); [apply reachable_init|].
  exact (step_create init "d1" "t1" 0 "Quantum sensors detect dark matter"
           "" [] [] [] None).
Qed.

Lemma validated_once_reachable : reachable (R := Sample.runtime) Sample.validated_once.
Proof.
  apply (reachable_step Sample.created); [apply created_reachable|].
  apply (step_process _ "d1"). vm_compute. reflexivity.
Qed.

Lemma validated_twice_reachable : reachable (R := Sample.runtime) Sample.validated_twice.
Proof.
  apply (reachable_step Sample.validated_once); [apply validated_once_reachable|].
  apply (step_process _ "d1"). vm_compute. reflexivity.
Qed.

Lemma validated_score_and_knowledge_witness :
  reachable (R := Sample.runtime) Sample.validated_once /\
  Store.discoveries (discoveryManager Sample.validated_once) !! "d1"
    = Some Sample.accepted /\
  Store.status Sample.accepted = Store.validated /\
  between 7 10 (Store.noveltyScore Sample.accepted).
Proof.
  assert (Hin : Store.discoveries (discoveryManager Sample.validated_once) !! "d1"
                = Some Sample.accepted) by (vm_compute; reflexivity).
  split; [apply validated_once_reachable|]. split; [exact Hin|]. split; [reflexivity|].
  exact (proj1 (validated_score_and_knowledge (R := Sample.runtime)
                  Sample.validated_once validated_once_reachable)
           "d1" Sample.accepted Hin eq_refl).
Defined.

(** The converse direction of C1 fails too.  The discovery [d1] is
    accepted with score 8, which puts its finding under the tag
    [quantum]; it is processed again and rejected with score 8.  It is
    then rejected, its score is at least 7, and the knowledge base holds
    its finding. *)
Lemma rejected_but_known :
  reachable (R := Sample.runtime) Sample.validated_twice /\
  ~ validated_iff_known Sample.validated_twice.
Proof.
  split; [apply validated_twice_reachable|].
  intros H.
  specialize (H "d1" (Store.setStatus Sample.accepted Store.rejected (Some (Fin 8)))).
  destruct H as [_ H]; [vm_compute; reflexivity|].
  assert (Hv : Store.rejected = Store.validated); [|discriminate].
  apply H. split; [reflexivity|].
  exists "quantum". split.
  - vm_compute. by left.
  - vm_compute. by left.
Qed.

(** Scenario A: a reply that accepts with score 8 validates the
    discovery and files its finding under the tag [quantum]. *)
Example accept_files_finding :
  Store.discoveries (discoveryManager Sample.validated_once) !! "d1"
    = Some Sample.accepted /\
  knowledgeBase Sample.validated_once
    = {[ "quantum" := ["Quantum sensors detect dark matter"] ]}.
Proof. split; vm_compute; reflexivity. Qed.

(** Scenario B: a reply with score 5 rejects the discovery, whatever
    its verdict, and leaves the knowledge base as it was. *)
Example low_score_rejects :
  let st := fst (process (R := Sample.runtime) Sample.created Sample.quantum
                   (Sample.verdict (JNumber (Fin 5)) "accept")) in
  Store.discoveries (discoveryManager st) !! "d1"
    = Some (Store.setStatus Sample.quantum Store.rejected (Some (Fin 5))) /\
  knowledgeBase st = knowledgeBase Sample.created.
Proof. split; vm_compute; reflexivity. Qed.

Lemma createDiscovery_stored m uuid threadUuid now finding explanation
    sources by_ buildsOn threadId :
  Store.discoveries
    (fst (Store.createDiscovery m uuid threadUuid now finding explanation
            sources by_ buildsOn threadId)) !! uuid
  = Some (snd (Store.createDiscovery m uuid threadUuid now finding explanation
                 sources by_ buildsOn threadId)).
Proof.
  unfold Store.createDiscovery.
  destruct threadId as [t|]; [destruct (String.eqb t "")|];
    cbn; unfold Store.addDiscoveryToThread; cbn;
    repeat case_match; cbn; by rewrite lookup_insert_eq.
Qed.

Lemma feed_reachable st n :
  reachable (R := Sample.runtime) st -> reachable (R := Sample.runtime) (Sample.feed st n).
Proof.
  intros H. unfold Sample.feed.
  pose proof (createDiscovery_stored (discoveryManager st) ("d" +:+ pretty n)
                ("t" +:+ pretty n) n ("Finding number " +:+ pretty n) "" [] [] [] None)
    as Hstored.
  pose proof (step_create (R := Sample.runtime) st ("d" +:+ pretty n)
                ("t" +:+ pretty n) n ("Finding number " +:+ pretty n) "" [] [] [] None)
    as Hcreate.
  destruct (Store.createDiscovery _ _ _ _ _ _ _ _ _ _) as [m d]. cbn [fst snd] in *.
  eapply reachable_step; [eapply reachable_step; [exact H|exact Hcreate]|].
  exact (step_process (R := Sample.runtime)
           {| discoveryManager := m; knowledgeBase := knowledgeBase st;
              processedCount := processedCount st |}
           ("d" +:+ pretty n) d
           (Sample.verdict (JNumber (Fin 8)) "accept") Hstored).
Qed.

Lemma eleven_reachable : reachable (R := Sample.runtime) Sample.eleven.
Proof.
  unfold Sample.eleven. generalize (seq 0 11).
  assert (H : forall l st, reachable (R := Sample.runtime) st ->
                reachable (R := Sample.runtime) (foldl Sample.feed st l)).
  { induction l as [|n l IH]; intros st Hst; cbn; [done|].
    by apply IH, feed_reachable. }
  intros l. apply H, reachable_init.
Qed.

(** C1 fails as stated.  The knowledge base keeps ten findings per
    tag: after eleven discoveries with the tag [general] were accepted
    with score 8, the first one is still validated and its finding has
    left the knowledge base. *)
Lemma validated_iff_known_fails :
  reachable (R := Sample.runtime) Sample.eleven /\
  ~ validated_iff_known Sample.eleven.
Proof.
  split; [apply eleven_reachable|].
  intros H.
  specialize (H "d0" (Store.setStatus (snd (Store.createDiscovery Store.empty
                        "d0" "t0" 0 "Finding number 0" "" [] [] [] None))
                        Store.validated (Some (Fin 8)))).
  destruct H as [H _]; [vm_compute; reflexivity|].
  destruct (H eq_refl) as (_ & topic & Htopic & Hin). cbn in Htopic.
  apply list_elem_of_singleton in Htopic as ->.
  vm_compute in Hin.
  repeat (apply elem_of_cons in Hin as [Hin|Hin]; [discriminate|]).
  by apply elem_of_nil in Hin.
Qed.

End LifecycleExamples.

(** ** The controller *)

Section StartStop.
Import Controller.

Lemma log_fields st line :
  isRunning (log st line) = isRunning st /\
  currentCycle (log st line) = currentCycle st /\
  cycleInterval (log st line) = cycleInterval st /\
  lastActivity (log st line) = lastActivity st /\
  console (log st line) = console st ++ [line].
Proof. done. Qed.

(** C9. [start] on a running system and [stop] on a stopped one change
    neither the running flag, nor the cycle counter, nor the timer:
    they write one line that reports the state, and return.  Both are
    total functions of the state: nothing is thrown. *)
Theorem start_stop_idempotent st now timer :
  (isRunning st = true ->
   start st now timer = log st "System already running" /\
   isRunning (start st now timer) = isRunning st /\
   currentCycle (start st now timer) = currentCycle st /\
   cycleInterval (start st now timer) = cycleInterval st) /\
  (isRunning st = false ->
   stop st = log st "System already stopped" /\
   isRunning (stop st) = isRunning st /\
   currentCycle (stop st) = currentCycle st /\
   cycleInterval (stop st) = cycleInterval st).
Proof.
  split; intros H.
  - assert (E : start st now timer = log st "System already running")
      by (unfold start; by rewrite H).
    rewrite E. by destruct (log_fields st "System already running") as (?&?&?&?&?).
  - assert (E : stop st = log st "System already stopped")
      by (unfold stop; by rewrite H).
    rewrite E. by destruct (log_fields st "System already stopped") as (?&?&?&?&?).
Qed.

Lemma start_stop_idempotent_witness :
  stop init = log init "System already stopped" /\
  start (start init 5 1) 9 2 = log (start init 5 1) "System already running".
Proof.
  split.
  - exact (proj1 (proj2 (start_stop_idempotent init 0 0) eq_refl)).
  - exact (proj1 (proj1 (start_stop_idempotent (start init 5 1) 9 2) eq_refl)).
Defined.

(** After [start] the system runs and after [stop] it does not, so a
    second call in a row is always the reporting one. *)
Lemma start_twice st now timer now' timer' :
  start (start st now timer) now' timer'
  = log (start st now timer) "System already running".
Proof.
  assert (H : isRunning (start st now timer) = true).
  { unfold start. destruct (isRunning st) eqn:E; cbn; [done|].
    unfold runDiscoveryCycle. cbn. done. }
  unfold start at 1. by rewrite H.
Qed.

Lemma stop_twice st :
  stop (stop st) = log (stop st) "System already stopped".
Proof.
  assert (H : isRunning (stop st) = false).
  { unfold stop. destruct (isRunning st) eqn:E; cbn; done. }
  unfold stop at 1. by rewrite H.
Qed.

End StartStop.

Section Handoff.
Import JS Controller.
Context {R : JSRuntime}.

Local Arguments num_le : simpl never.
Local Arguments num_lt : simpl never.

Local Ltac settle :=
  rewrite ?andb_false_r, ?andb_true_r; cbn;
  intuition (try discriminate; try congruence).

(** The three outcomes of [evaluateHandoffNeed]. *)
Lemma evaluateHandoffNeed_cases roster content specialist :
  let decision := evaluateHandoffNeed roster content specialist in
  let validate :=
    at_least content "noveltyScore" 6 && at_least content "sourcesSynthesized" 2 in
  let retry :=
    at_least content "sourcesAnalyzed" 3 && below content "noveltyScore" 5 in
  let others := List.filter (fun s => negb (String.eqb s specialist)) roster in
  (validate = true -> decision = toValidator) /\
  (validate = false -> retry = true ->
   forall other rest, others = other :: rest ->
     decision = toSpecialist other /\ other <> specialist /\ In other roster) /\
  (validate = false -> retry = false \/ others = [] ->
   recommended decision = false /\ targetAgent decision = "").
Proof.
  cbn zeta. unfold evaluateHandoffNeed, evaluate_try, at_least, below.
  destruct content as [messageData|]; cbn; [|settle].
  destruct (get messageData "noveltyScore") as [novelty|] eqn:Hn; cbn; [|settle].
  assert (Hget : forall name, exists v, get messageData name = Normal v).
  { intros name. destruct messageData; try discriminate; cbn; eauto. }
  destruct (Hget "sourcesSynthesized") as [count ->].
  destruct (Hget "sourcesAnalyzed") as [analyzed ->]. cbn.
  unfold js_ge, js_lt.
  destruct (ToNumber novelty) as [n|]; cbn; [|settle].
  destruct (num_le (Fin 6) n) eqn:H6; cbn.
  - assert (H5 : num_lt n (Fin 5) = false).
    { destruct n as [| |q|]; try done. unfold num_lt, num_le in *.
      apply Qle_bool_iff in H6. apply negb_false_iff, Qle_bool_iff. lra. }
    rewrite H5.
    destruct (ToNumber count) as [c|]; cbn; [|settle].
    destruct (num_le (Fin 2) c); cbn; [settle|].
    destruct (ToNumber analyzed) as [a|]; cbn; [|settle].
    destruct (num_le (Fin 3) a); cbn; settle.
  - destruct (ToNumber analyzed) as [a|]; cbn; [|settle].
    destruct (num_le (Fin 3) a); cbn; [|settle].
    destruct (num_lt n (Fin 5)); cbn; [|settle].
    destruct (List.filter (λ s, negb (String.eqb s specialist)) roster)
      as [|other rest] eqn:Hothers; cbn; [settle|].
    split; [done|]. split.
    + intros _ _ other' rest' [= <- <-]. split; [done|].
      assert (Hin : In other (List.filter (λ s, negb (String.eqb s specialist)) roster))
        by (rewrite Hothers; by left).
      apply filter_In in Hin as [Hin Hneq]. split; [|done].
      intros ->. by rewrite String.eqb_refl in Hneq.
    + intros _ [|]; done.
Qed.

(** C6. The handoff decision for a result message: a handoff is
    recommended to [NoveltyValidator] when the novelty score is at
    least 6 and the synthesized sources are at least 2; otherwise to
    [DiscoverySpecialist-X], for the first other specialist X of the
    roster, when the analyzed sources are at least 3, the novelty score
    is below 5 and the roster has another specialist; otherwise no
    handoff is recommended and no target is named. *)
Theorem evaluateHandoffNeed_decision roster content specialist :
  let decision := evaluateHandoffNeed roster content specialist in
  let validate :=
    at_least content "noveltyScore" 6 && at_least content "sourcesSynthesized" 2 in
  let retry :=
    at_least content "sourcesAnalyzed" 3 && below content "noveltyScore" 5 in
  let others := List.filter (fun s => negb (String.eqb s specialist)) roster in
  (validate = true ->
   recommended decision = true /\
   targetAgent decision = "NoveltyValidator" /\
   reason decision = "High novelty score warrants immediate validation") /\
  (validate = false -> retry = true ->
   forall other rest, others = other :: rest ->
     recommended decision = true /\
     targetAgent decision = "DiscoverySpecialist-" +:+ other /\
     reason decision
     = "Multiple sources with low novelty - trying different specialization" /\
     other <> specialist /\ In other roster) /\
  (validate = false -> retry = false \/ others = [] ->
   recommended decision = false /\ targetAgent decision = "" /\
   (reason decision = "No handoff needed" \/
    reason decision = "Error evaluating handoff need")).
Proof.
  cbn zeta.
  destruct (evaluateHandoffNeed_cases roster content specialist) as (Hv & Hs & Hn).
  cbn zeta in Hv, Hs, Hn. split; [|split].
  - intros H. rewrite (Hv H). done.
  - intros H1 H2 other rest Hothers.
    destruct (Hs H1 H2 other rest Hothers) as (-> & Hne & Hin). done.
  - intros H1 H2. destruct (Hn H1 H2) as [Hrec Htarget].
    split; [done|]. split; [done|].
    unfold evaluateHandoffNeed in *.
    destruct (evaluate_try roster content specialist) as [decision|] eqn:Htry;
      [|by right].
    left. unfold evaluate_try in Htry.
    destruct content as [messageData|]; cbn in Htry; [|done].
    destruct (get messageData "noveltyScore") as [novelty|]; cbn in Htry; [|done].
    destruct (js_ge novelty (Fin 6)) as [high|]; cbn in Htry; [|done].
    destruct (if high then _ else _) as [[|]|]; cbn in Htry; [| |done].
    { injection Htry as <-. done. }
    destruct (get messageData "sourcesAnalyzed") as [analyzed|]; cbn in Htry; [|done].
    destruct (js_ge analyzed (Fin 3)) as [many|]; cbn in Htry; [|done].
    destruct (if many then _ else _) as [[|]|]; cbn in Htry; [| |done].
    + destruct (List.filter _ roster); injection Htry as <-; done.
    + injection Htry as <-. done.
Qed.

End Handoff.

Section HandoffWitness.
Import JS Controller.

(** Scenario C: novelty 6 with 2 synthesized sources goes to the
    validator; novelty 3 with 4 analyzed sources goes to the first other
    specialist. *)
Lemma evaluateHandoffNeed_decision_witness :
  (recommended (evaluateHandoffNeed (R := Sample.runtime) discoverySpecialists
                  (Sample.result 6 3 2) "Technology") = true /\
   targetAgent (evaluateHandoffNeed (R := Sample.runtime) discoverySpecialists
                  (Sample.result 6 3 2) "Technology") = "NoveltyValidator" /\
   reason (evaluateHandoffNeed (R := Sample.runtime) discoverySpecialists
             (Sample.result 6 3 2) "Technology")
   = "High novelty score warrants immediate validation") /\
  (recommended (evaluateHandoffNeed (R := Sample.runtime) discoverySpecialists
                  (Sample.result 3 4 2) "Science") = true /\
   targetAgent (evaluateHandoffNeed (R := Sample.runtime) discoverySpecialists
                  (Sample.result 3 4 2) "Science")
   = "DiscoverySpecialist-" +:+ "Technology" /\
   reason (evaluateHandoffNeed (R := Sample.runtime) discoverySpecialists
             (Sample.result 3 4 2) "Science")
   = "Multiple sources with low novelty - trying different specialization" /\
   "Technology" <> "Science" /\ In "Technology" discoverySpecialists) /\
  (recommended (evaluateHandoffNeed (R := Sample.runtime) discoverySpecialists
                  (Sample.result 5 2 1) "Science") = false /\
   targetAgent (evaluateHandoffNeed (R := Sample.runtime) discoverySpecialists
                  (Sample.result 5 2 1) "Science") = "" /\
   (reason (evaluateHandoffNeed (R := Sample.runtime) discoverySpecialists
              (Sample.result 5 2 1) "Science") = "No handoff needed" \/
    reason (evaluateHandoffNeed (R := Sample.runtime) discoverySpecialists
              (Sample.result 5 2 1) "Science") = "Error evaluating handoff need")).
Proof.
  split; [|split].
  - exact (proj1 (evaluateHandoffNeed_decision (R := Sample.runtime)
                    discoverySpecialists (Sample.result 6 3 2) "Technology") eq_refl).
  - exact (proj1 (proj2 (evaluateHandoffNeed_decision (R := Sample.runtime)
                           discoverySpecialists (Sample.result 3 4 2) "Science"))
             eq_refl eq_refl "Technology" ["Applications"] eq_refl).
  - exact (proj2 (proj2 (evaluateHandoffNeed_decision (R := Sample.runtime)
                           discoverySpecialists (Sample.result 5 2 1) "Science"))
             eq_refl (or_introl eq_refl)).
Defined.

End HandoffWitness.

Section Selection.
Import JS Controller ResearchDirector.

(** On the roster of the constructor and for a topic whose text is a
    string, the selection holds at least one and at most two
    specialists of the roster.  With no keyword match it is the first
    two of the roster, in registration order; with a match for exactly
    one specialist, the first other specialist of the roster joins it,
    which makes two. *)
Lemma selectOptimalSpecialists_roster text :
  exists selected,
    selectOptimalSpecialists discoverySpecialists (JString text) = Normal selected /\
    (1 <= length selected <= 2) /\
    (forall x, In x selected -> exists s, x = Some s /\ In s discoverySpecialists) /\
    (matched discoverySpecialists (Str.lowered text) = [] ->
     selected = map Some (take 2 discoverySpecialists)) /\
    (forall one, matched discoverySpecialists (Str.lowered text) = [one] ->
     exists s next rest,
       one = Some s /\
       List.filter (fun r => negb (String.eqb r s)) discoverySpecialists = next :: rest /\
       selected = [Some s; Some next]).
Proof.
  unfold selectOptimalSpecialists, matched. cbn [toLowerCase mbind completion_bind].
  eexists. split; [reflexivity|].
  destruct (mentions (Str.lowered text) technology),
    (mentions (Str.lowered text) science),
    (mentions (Str.lowered text) applications);
    (split; [vm_compute; lia|]);
    (split; [vm_compute; intros x Hx; intuition (subst; eauto 10)|]);
    (split; [intros H; vm_compute in H |- *; (reflexivity || discriminate)|]);
    intros one Hone; vm_compute in Hone; try discriminate;
    injection Hone as <-; eexists _, _, _;
    (split; [reflexivity|split; reflexivity]).
Qed.

(** Scenario A: no keyword of [quantum sensors] matches, the first two
    specialists are selected; [Practical sensors] matches Applications
    alone, and Technology joins it.  U+0130 is lowered to an [i]: the
    text [study a] followed by it mentions [ai]. *)
Example selectOptimalSpecialists_samples :
  selectOptimalSpecialists discoverySpecialists (JString "quantum sensors")
    = Normal [Some "Technology"; Some "Science"] /\
  selectOptimalSpecialists discoverySpecialists (JString "Practical sensors")
    = Normal [Some "Applications"; Some "Technology"] /\
  selectOptimalSpecialists discoverySpecialists
    (JString ("study a" +:+ String (ascii_of_nat 196) (String (ascii_of_nat 176) "")))
    = Normal [Some "Technology"; Some "Science"].
Proof. repeat split; vm_compute; reflexivity. Qed.

Section Untitled.
Context {R : JSRuntime}.

(** C7 fails for a topic without a text.  The reply
    [{"topics": [{"priority": 9}]}] gives the initial topics; the first
    cycle selects the topic, whose text is [undefined]; the selection
    of specialists then throws a TypeError at
    [topic.topic.toLowerCase()] and selects nobody.  It throws for
    every text that is not a string, and returns a selection for every
    string. *)
Theorem selectOptimalSpecialists_throws :
  let untitled := {| raw_topic := JUndefined; raw_priority := JNumber (Fin 9);
                     raw_parent := JUndefined |} in
  let st := {| researchQueue := generateInitialTopics [] [untitled];
               currentCycle := 0 |} in
  (exists selected,
     snd (process st []) = Normal (Some selected) /\
     status selected = active /\ topic selected = JUndefined /\
     selectOptimalSpecialists discoverySpecialists (topic selected) = Throw) /\
  (forall roster text,
     match text with
     | JString _ =>
         exists selected, selectOptimalSpecialists roster text = Normal selected
     | _ => selectOptimalSpecialists roster text = Throw
     end).
Proof.
  cbn zeta. split.
  - eexists. split; [reflexivity|]. cbn. done.
  - intros roster [| | | |text| |]; cbn; eauto.
Qed.

End Untitled.

End Selection.

(** ** Sorting *)

Section SortFacts.
Context {A : Type} (before : A -> A -> bool) (le : A -> A -> Prop).
Hypothesis before_le : forall x y, before x y = true -> le x y.
Hypothesis before_total : forall x y, before x y = false -> le y x.

Lemma insert_perm x l : Permutation (Sort.insert before x l) (x :: l).
Proof.
  induction l as [|y l IH]; cbn; [done|].
  destruct (before x y); [done|].
  rewrite IH. apply perm_swap.
Qed.

Lemma sort_perm l : Permutation (Sort.sort before l) l.
Proof.
  induction l as [|x l IH]; cbn; [done|].
  rewrite insert_perm. by constructor.
Qed.

Lemma insert_HdRel x y l :
  le y x -> HdRel le y l -> HdRel le y (Sort.insert before x l).
Proof.
  intros Hyx Hl. destruct l as [|z l]; cbn.
  - by constructor.
  - destruct (before x z); constructor; [done|]. by inversion Hl.
Qed.

Lemma insert_Sorted x l : Sorted le l -> Sorted le (Sort.insert before x l).
Proof.
  induction 1 as [|y l Hl IH Hy]; cbn.
  - repeat constructor.
  - destruct (before x y) eqn:E.
    + constructor; [by constructor|]. constructor. by apply before_le.
    + constructor; [done|]. apply insert_HdRel; [|done]. by apply before_total.
Qed.

Lemma sort_Sorted l : Sorted le (Sort.sort before l).
Proof.
  induction l as [|x l IH]; cbn; [constructor|]. by apply insert_Sorted.
Qed.

Lemma take_Sorted n l : Sorted le l -> Sorted le (take n l).
Proof.
  intros Hl. revert n. induction Hl as [|y l Hl IH Hy]; intros [|n]; cbn;
    try constructor; [apply IH|].
  destruct Hy as [|z l' Hyz]; destruct n; cbn; by constructor.
Qed.

End SortFacts.

Section OrderFacts.
Import JS.


Lemma Sorted_weaken {A} (R R' : A -> A -> Prop) (P : A -> Prop) l :
  Sorted R l -> Forall P l ->
  (forall x y, P x -> P y -> R x y -> R' x y) -> Sorted R' l.
Proof.
  intros Hs Hp Himp. induction Hs as [|x l Hl IH Hx]; [constructor|].
  apply Forall_cons in Hp as [Hpx Hpl]. constructor; [by apply IH|].
  destruct Hx as [|y l' Hxy]; constructor.
  apply Forall_cons in Hpl as [Hpy _]. by apply Himp.
Qed.

Lemma num_le_trans a b c :
  num_le a b = true -> num_le b c = true -> num_le a c = true.
Proof.
  destruct a as [| |x|], b as [| |y|], c as [| |z|]; cbn; try done.
  rewrite !Qle_bool_iff. apply Qle_trans.
Qed.

Lemma num_le_refl a : isNaN a = false -> num_le a a = true.
Proof.
  destruct a as [| |x|]; cbn; try done. intros _. apply Qle_bool_iff, Qle_refl.
Qed.

End OrderFacts.

(** ** The topic queue *)

Section QueueFacts.
Import JS ResearchDirector.

Section Generic.
Context {R : JSRuntime}.

Lemma numeric_number t :
  numeric t = true -> throws t = false /\ isNaN (number t) = false.
Proof.
  unfold numeric. intros [H1 H2]%andb_true_iff.
  by apply negb_true_iff in H1, H2.
Qed.

Lemma at_most_ten_numeric t : at_most_ten t = true -> numeric t = true.
Proof.
  unfold at_most_ten, numeric, number, throws.
  destruct (ToNumber (priority t)) as [[| |q|]|]; cbn; done.
Qed.

Lemma before_sound a b :
  before a b = true ->
  isNaN (number a) || isNaN (number b) || num_le (number b) (number a) = true.
Proof.
  unfold before. intros H%negb_true_iff.
  destruct (number a) as [| |x|], (number b) as [| |y|]; cbn in *; try done.
  by apply negb_false_iff in H.
Qed.

Lemma before_total a b :
  before a b = false ->
  isNaN (number b) || isNaN (number a) || num_le (number a) (number b) = true.
Proof.
  unfold before. intros H%negb_false_iff.
  destruct (number a) as [| |x|] eqn:Ea, (number b) as [| |y|] eqn:Eb;
    cbn in *; try done.
  apply negb_true_iff in H. apply Qle_bool_iff, Qlt_le_weak. by apply Qle_bool_false.
Qed.

(** A sorted array of Numbers is in descending priority. *)
Lemma sort_descending l :
  Forall (fun t => numeric t = true) l -> descending (Sort.sort before l).
Proof.
  intros Hl. unfold descending.
  apply (Sorted_weaken
           (fun a b => isNaN (number a) || isNaN (number b)
                       || num_le (number b) (number a) = true)
           _ (fun t => numeric t = true)).
  - apply (sort_Sorted before); [apply before_sound|apply before_total].
  - rewrite Forall_forall in Hl. apply Forall_forall.
    intros t Ht%list_elem_of_In. apply Hl, list_elem_of_In.
    by apply (Permutation_in _ (sort_perm before l)).
  - intros x y [_ Hx]%numeric_number [_ Hy]%numeric_number H.
    by rewrite Hx, Hy in H.
Qed.

Lemma updateResearchQueue_Normal q new queue :
  updateResearchQueue q new = Normal queue ->
  queue = (if (20 <? length (Sort.sort before (candidates q new)))%nat
           then take 20 (Sort.sort before (candidates q new))
           else Sort.sort before (candidates q new)) /\
  (length (candidates q new) < 2 \/
   Forall (fun t => throws t = false) (candidates q new)).
Proof.
  unfold updateResearchQueue. fold (candidates q new).
  destruct (2 <=? length (candidates q new))%nat eqn:Hlen; cbn.
  - destruct (existsb throws (candidates q new)) eqn:Hex; [done|].
    intros [= <-]. split; [done|]. right.
    apply Forall_forall. intros t Ht%list_elem_of_In.
    destruct (throws t) eqn:Et; [|done].
    assert (existsb throws (candidates q new) = true)
      by (apply existsb_exists; eauto).
    congruence.
  - intros [= <-]. split; [done|]. left. by apply Nat.leb_gt in Hlen.
Qed.

Lemma updateResearchQueue_Throw q new :
  updateResearchQueue q new = Throw <->
  2 <= length (candidates q new) /\
  exists t, In t (candidates q new) /\ throws t = true.
Proof.
  unfold updateResearchQueue. fold (candidates q new).
  destruct (2 <=? length (candidates q new))%nat eqn:Hlen; cbn.
  - apply Nat.leb_le in Hlen.
    destruct (existsb throws (candidates q new)) eqn:Hex.
    + apply existsb_exists in Hex. done.
    + split; [done|]. intros [_ Ht]. apply existsb_exists in Ht. congruence.
  - apply Nat.leb_gt in Hlen. split; [done|]. intros [H _]. lia.
Qed.

Lemma updateResearchQueue_returns q new :
  Forall (fun t => throws t = false) (candidates q new) ->
  exists queue, updateResearchQueue q new = Normal queue.
Proof.
  intros Hall.
  destruct (updateResearchQueue q new) as [queue|] eqn:E; [eauto|].
  apply updateResearchQueue_Throw in E as (_ & t & Hin & Ht).
  rewrite Forall_forall in Hall. apply list_elem_of_In, Hall in Hin. congruence.
Qed.

Lemma updateResearchQueue_length q new queue :
  updateResearchQueue q new = Normal queue -> length queue <= 20.
Proof.
  intros [-> _]%updateResearchQueue_Normal.
  destruct (20 <? length _)%nat eqn:E.
  - rewrite length_take. lia.
  - by apply Nat.ltb_ge in E.
Qed.

Lemma updateResearchQueue_descending q new queue :
  updateResearchQueue q new = Normal queue ->
  Forall (fun t => numeric t = true) (candidates q new) ->
  descending queue.
Proof.
  intros [-> _]%updateResearchQueue_Normal Hnum.
  destruct (20 <? length _)%nat.
  - apply take_Sorted. by apply sort_descending.
  - by apply sort_descending.
Qed.

Lemma updateResearchQueue_In q new queue t :
  updateResearchQueue q new = Normal queue ->
  In t queue ->
  In t (candidates q new) /\ In t (q ++ new) /\ status t <> completed.
Proof.
  intros [-> _]%updateResearchQueue_Normal H.
  assert (H' : In t (Sort.sort before (candidates q new))).
  { destruct (20 <? length _)%nat; [|done].
    apply list_elem_of_In. apply list_elem_of_In in H.
    by apply (subseteq_take 20 _ t). }
  apply (Permutation_in _ (sort_perm before _)) in H'.
  split; [done|]. unfold candidates in H'.
  apply filter_In in H' as [Hin Hst]. split; [done|].
  apply negb_true_iff in Hst. by apply bool_decide_eq_false in Hst.
Qed.

Lemma updateResearchQueue_numeric q new queue :
  updateResearchQueue q new = Normal queue ->
  Forall (fun t => numeric t = true) (candidates q new) ->
  Forall (fun t => numeric t = true) queue.
Proof.
  intros Hq Hnum. apply Forall_forall. intros t Ht%list_elem_of_In.
  apply (updateResearchQueue_In q new queue t Hq) in Ht as [Ht _].
  rewrite Forall_forall in Hnum. by apply Hnum, list_elem_of_In.
Qed.

Lemma processVoiceCommand_descending q text now :
  descending q -> Forall (fun t => at_most_ten t = true) q ->
  descending (processVoiceCommand q (Some text) now).
Proof.
  intros Hq Hten. cbn. constructor; [done|].
  destruct Hten as [|t q' Ht _]; constructor. done.
Qed.

(** A queue of two or more topics in descending priority holds no
    priority that is not a Number. *)
Lemma descending_numbers q :
  descending q -> 2 <= length q -> Forall (fun t => isNaN (number t) = false) q.
Proof.
  induction 1 as [|x l Hl IH Hx]; cbn; [lia|]. intros Hlen.
  destruct Hx as [|y l' Hxy]; [cbn in Hlen; lia|].
  assert (Hy : isNaN (number y) = false /\ isNaN (number x) = false)
    by (destruct (number y), (number x); done).
  constructor; [by destruct Hy|].
  destruct l' as [|z l'']; [by constructor; [destruct Hy|]|].
  apply IH. cbn. lia.
Qed.

(** C4, as amended.  [updateResearchQueue] returns unless reading a
    priority throws.  The queue it returns holds at most 20 topics,
    none of them completed, and is in descending priority when every
    priority in play is a Number.  The directed insertion puts one
    pending topic of priority 10 at the head of the queue and nothing
    else: the queue is one longer, and a descending queue whose
    priorities are at most 10 stays descending. *)
Theorem updateResearchQueue_bounded_sorted q new :
  (Forall (fun t => throws t = false) (candidates q new) ->
   exists queue, updateResearchQueue q new = Normal queue) /\
  (forall queue, updateResearchQueue q new = Normal queue ->
     length queue <= 20 /\
     Forall (fun t => status t <> completed) queue /\
     (Forall (fun t => numeric t = true) (candidates q new) ->
      bounded_sorted queue)) /\
  (forall text now,
     (exists voiced, processVoiceCommand q (Some text) now = voiced :: q /\
                     topic voiced = JString text /\
                     priority voiced = JNumber (Fin 10) /\
                     status voiced = pending) /\
     length (processVoiceCommand q (Some text) now) = S (length q) /\
     (descending q -> Forall (fun t => at_most_ten t = true) q ->
      descending (processVoiceCommand q (Some text) now))).
Proof.
  split; [apply updateResearchQueue_returns|]. split.
  - intros queue Hq. split; [by apply (updateResearchQueue_length q new)|]. split.
    + apply Forall_forall. intros t Ht%list_elem_of_In.
      by apply (updateResearchQueue_In q new queue t Hq) in Ht as (_ & _ & Ht).
    + intros Hnum. split; [by apply (updateResearchQueue_length q new)|].
      by apply (updateResearchQueue_descending q new).
  - intros text now. split; [|split].
    + eexists. cbn. done.
    + done.
    + apply processVoiceCommand_descending.
Qed.

(** The first pending topic of the queue, through the filtered array. *)
Lemma available_first q : forall n,
  match List.filter (fun it => bool_decide (status (snd it) = pending))
                    (imap (fun i t => (n + i, t)) q) with
  | [] => Forall (fun t => status t <> pending) q
  | (ref, t) :: _ =>
      exists i, ref = n + i /\ q !! i = Some t /\ status t = pending /\
        forall j t', j < i -> q !! j = Some t' -> status t' <> pending
  end.
Proof.
  induction q as [|a q IH]; intros n; [by constructor|].
  rewrite imap_cons. cbn [List.filter snd]. case_bool_decide as Ha.
  - exists 0%nat. repeat split; [done|]. intros j t' Hj. lia.
  - rewrite (imap_ext _ (fun i t => (S n + i, t))) by (intros; cbn; f_equal; lia).
    specialize (IH (S n)).
    destruct (List.filter _ _) as [|[ref t] rest].
    + by constructor.
    + destruct IH as (i & -> & Hi & Ht & Hbefore).
      exists (S i). repeat split; [lia|done|done|].
      intros [|j] t' Hj Hj'; cbn in Hj'.
      * by injection Hj' as <-.
      * apply (Hbefore j); [lia|done].
Qed.

(** In a descending queue, a topic further down has no higher priority. *)
Lemma descending_lookup q i j a b :
  descending q -> q !! i = Some a -> q !! j = Some b -> i < j ->
  num_le (number b) (number a) = true.
Proof.
  intros Hq. apply Sorted_StronglySorted in Hq.
  2: { intros x y z Hxy Hyz. by apply (num_le_trans _ (number y)). }
  revert i j. induction Hq as [|x l Hl IH Hx]; intros i j Hi Hj Hij; [done|].
  destruct i as [|i], j as [|j]; cbn in *; try lia.
  - injection Hi as <-. rewrite Forall_forall in Hx. apply Hx.
    by eapply list_elem_of_lookup_2.
  - apply (IH i j); [done|done|lia].
Qed.

(** On a queue of Numbers in descending priority the selection returns
    a pending topic of the highest priority among the pending ones,
    marked active in the queue; with no pending topic it returns
    nothing and the queue is unchanged.  [process] selects from the
    queue [updateResearchQueue] has just returned. *)
Lemma selectNextResearchTopic_highest q :
  (Forall (fun t => numeric t = true) q -> descending q -> selects_highest q) /\
  (forall new queue,
     updateResearchQueue q new = Normal queue ->
     Forall (fun t => numeric t = true) (candidates q new) ->
     selects_highest queue).
Proof.
  assert (H : forall q0, Forall (fun t => numeric t = true) q0 ->
                descending q0 -> selects_highest q0).
  { intros q0 Hnum Hq0. unfold selects_highest, selectNextResearchTopic.
    pose proof (available_first q0 0) as H.
    rewrite (imap_ext _ pair) in H by done.
    destruct (List.filter _ _) as [|[ref t] rest].
    - split; [done|]. intros other Hin. rewrite Forall_forall in H.
      by apply H, list_elem_of_In.
    - destruct H as (i & -> & Hi & Ht & Hbefore). cbn.
      exists i, t. repeat split; try done.
      intros other Hin Hother.
      apply list_elem_of_In, list_elem_of_lookup in Hin as [j Hj].
      destruct (lt_eq_lt_dec j i) as [[Hlt|Heq]|Hgt].
      + by destruct (Hbefore j other Hlt Hj).
      + subst j. rewrite Hi in Hj. injection Hj as <-.
        rewrite Forall_forall in Hnum.
        assert (Hn : numeric t = true)
          by (apply Hnum; by eapply list_elem_of_lookup_2).
        apply numeric_number in Hn as [_ Hn]. by apply num_le_refl.
      + by apply (descending_lookup q0 i j). }
  split; [apply H|]. intros new queue Hq Hnum. apply H.
  - by apply (updateResearchQueue_numeric q new).
  - by apply (updateResearchQueue_descending q new).
Qed.

(** C5 fails when a priority is not a Number.  The reply gives the
    initial topics with the priorities 5, [{}] and 9.  In the first
    cycle every comparison with the second topic is NaN, which [sort]
    takes for 0: the queue stays as it is, and the topic of priority 5
    is selected while the topic of priority 9 is pending. *)
Theorem process_selects_lower_priority :
  let st := Sample.mixed_start (JObject []) in
  let st' := fst (process st []) in
  researchQueue st = [Sample.low; Sample.odd (JObject []); Sample.high] /\
  updateResearchQueue (researchQueue st) [] = Normal (researchQueue st) /\
  snd (process st []) = Normal (Some (with_status Sample.low active)) /\
  researchQueue st'
  = [with_status Sample.low active; Sample.odd (JObject []); Sample.high] /\
  status Sample.high = pending /\
  number Sample.low = Fin 5 /\ number Sample.high = Fin 9 /\
  num_le (number Sample.high) (number Sample.low) = false /\
  ~ selects_highest (researchQueue st).
Proof.
  cbn zeta.
  assert (Hq : researchQueue (Sample.mixed_start (JObject []))
               = [Sample.low; Sample.odd (JObject []); Sample.high]) by reflexivity.
  assert (Hu : updateResearchQueue (researchQueue (Sample.mixed_start (JObject []))) []
               = Normal [Sample.low; Sample.odd (JObject []); Sample.high])
    by (vm_compute; reflexivity).
  split; [done|]. split; [by rewrite Hu, Hq|].
  unfold process.
  change (generateResearchTopics _ []) with (@nil ResearchTopic). rewrite Hu.
  split; [reflexivity|]. split; [reflexivity|]. split; [reflexivity|].
  split; [reflexivity|]. split; [reflexivity|]. split; [reflexivity|].
  rewrite Hq. unfold selects_highest.
  destruct (selectNextResearchTopic [Sample.low; Sample.odd (JObject []); Sample.high])
    as [[selected|] q'] eqn:E; vm_compute in E; [|discriminate].
  injection E as <- <-.
  intros (ref & topic0 & Href & _ & Hsel & _ & Hmax).
  assert (Hnum : number topic0 = Fin 5).
  { apply (f_equal (fun t => ToNumber (priority t))) in Hsel. cbn in Hsel.
    unfold number. by rewrite <- Hsel. }
  specialize (Hmax Sample.high). rewrite Hnum in Hmax.
  assert (Hle : num_le (number Sample.high) (Fin 5) = true).
  { apply Hmax; [|done]. right. right. by left. }
  vm_compute in Hle. discriminate.
Qed.

End Generic.

Lemma full_queue_returned :
  updateResearchQueue (R := Sample.runtime) []
    (generateResearchTopics 1 Sample.batch) = Normal Sample.full_queue.
Proof. vm_compute. reflexivity. Qed.

Lemma full_queue_numeric :
  Forall (fun t => numeric (R := Sample.runtime) t = true)
    (candidates [] (generateResearchTopics 1 Sample.batch)).
Proof. vm_compute. repeat constructor. Qed.

Lemma full_queue_bounded_sorted : bounded_sorted (R := Sample.runtime) Sample.full_queue.
Proof.
  split.
  - exact (updateResearchQueue_length _ _ _ full_queue_returned).
  - exact (updateResearchQueue_descending _ _ _ full_queue_returned full_queue_numeric).
Qed.

Lemma updateResearchQueue_bounded_sorted_witness :
  updateResearchQueue (R := Sample.runtime) []
    (generateResearchTopics 1 Sample.batch) = Normal Sample.full_queue /\
  map (number (R := Sample.runtime)) Sample.full_queue
  = [ Fin 10; Fin 10; Fin 9; Fin 9; Fin 8; Fin 8; Fin 7; Fin 7; Fin 6; Fin 6;
      Fin 5; Fin 5; Fin 5; Fin 4; Fin 4; Fin 4; Fin 3; Fin 3; Fin 3; Fin 2 ] /\
  bounded_sorted (R := Sample.runtime) Sample.full_queue /\
  descending (R := Sample.runtime)
    (processVoiceCommand Sample.full_queue (Some "cats") 0).
Proof.
  assert (Hq : updateResearchQueue (R := Sample.runtime) []
                 (generateResearchTopics 1 Sample.batch) = Normal Sample.full_queue)
    by (vm_compute; reflexivity).
  assert (Hnum : Forall (fun t => numeric (R := Sample.runtime) t = true)
                   (candidates [] (generateResearchTopics 1 Sample.batch)))
    by (vm_compute; repeat constructor).
  assert (Hb : bounded_sorted (R := Sample.runtime) Sample.full_queue).
  { exact (proj2 (proj2 (proj1 (proj2
             (updateResearchQueue_bounded_sorted (R := Sample.runtime) []
                (generateResearchTopics 1 Sample.batch)))
             Sample.full_queue Hq)) Hnum). }
  assert (Hten : Forall (fun t => at_most_ten (R := Sample.runtime) t = true)
                   Sample.full_queue)
    by (vm_compute; repeat constructor).
  split; [exact Hq|]. split; [vm_compute; reflexivity|]. split; [exact Hb|].
  exact (proj2 (proj2 (proj2 (proj2
           (updateResearchQueue_bounded_sorted (R := Sample.runtime)
              Sample.full_queue [])) "cats" 0)) (proj2 Hb) Hten).
Defined.

(** C4 fails as stated.  A queue at its capacity of 20 holds 21 topics
    after a directed topic is inserted.  And with a priority that is a
    text, here 5, [high], 9, the queue that [updateResearchQueue]
    returns is not in descending priority: no order of these three
    topics is. *)
Lemma queue_bound_and_order_fail :
  bounded_sorted (R := Sample.runtime) Sample.full_queue /\
  length (processVoiceCommand Sample.full_queue (Some "cats") 0) = 21 /\
  ~ bounded_sorted (R := Sample.runtime)
      (processVoiceCommand Sample.full_queue (Some "cats") 0) /\
  updateResearchQueue (R := Sample.runtime)
    (generateInitialTopics [] (Sample.mixed (JString "high"))) []
  = Normal [Sample.low; Sample.odd (JString "high"); Sample.high] /\
  ~ descending (R := Sample.runtime)
      [Sample.low; Sample.odd (JString "high"); Sample.high] /\
  (forall queue,
     Permutation queue [Sample.low; Sample.odd (JString "high"); Sample.high] ->
     ~ descending (R := Sample.runtime) queue).
Proof.
  assert (Hnone : forall queue,
            Permutation queue [Sample.low; Sample.odd (JString "high"); Sample.high] ->
            ~ descending (R := Sample.runtime) queue).
  { intros queue Hperm Hd.
    apply descending_numbers in Hd.
    - rewrite Forall_forall in Hd.
      assert (H : isNaN (number (R := Sample.runtime) (Sample.odd (JString "high")))
                  = false).
      { apply Hd, list_elem_of_In. apply (Permutation_in _ (Permutation_sym Hperm)).
        right. by left. }
      vm_compute in H. discriminate.
    - rewrite (Permutation_length Hperm). cbn. lia. }
  split; [exact full_queue_bounded_sorted|].
  split; [vm_compute; reflexivity|]. split.
  - intros [H _]. vm_compute in H. lia.
  - split; [vm_compute; reflexivity|]. split; [by apply Hnone|exact Hnone].
Qed.

(** The same selection with the priority given as the text [high]. *)
Example process_selects_lower_priority_text :
  snd (process (R := Sample.runtime) (Sample.mixed_start (JString "high")) [])
  = Normal (Some (with_status Sample.low active)) /\
  In Sample.high
    (researchQueue
       (fst (process (R := Sample.runtime) (Sample.mixed_start (JString "high")) []))).
Proof. split; [vm_compute; reflexivity|]. vm_compute. right. right. by left. Qed.

(** On the full queue, whose priorities go from 10 down to 2, the
    selection takes a topic of priority 10. *)
Example selectNextResearchTopic_full_queue :
  selects_highest (R := Sample.runtime) Sample.full_queue /\
  exists selected,
    fst (selectNextResearchTopic Sample.full_queue) = Some selected /\
    number (R := Sample.runtime) selected = Fin 10.
Proof.
  split.
  - apply (proj1 (selectNextResearchTopic_highest Sample.full_queue)).
    + vm_compute. repeat constructor.
    + exact (proj2 full_queue_bounded_sorted).
  - eexists. split; vm_compute; reflexivity.
Qed.

End QueueFacts.

(** ** The Chain Builder *)

Section Chains.
Import JS ChainBuilder.
Context {R : JSRuntime}.

Local Arguments num_le : simpl never.
Local Arguments Math_min : simpl never.
Local Arguments Math_max : simpl never.

Lemma analyzeConnection_Some discovery1 discovery2 reply connection :
  analyzeConnection discovery1 discovery2 reply = Some connection ->
  meaningful reply /\ between 6 10 (connectionStrength connection).
Proof.
  unfold analyzeConnection, analyze_try.
  destruct reply as [| |analysis]; try discriminate.
  destruct (get analysis "hasConnection") as [has|] eqn:Hhas; cbn; [|discriminate].
  assert (Hget : forall name, exists v, get analysis name = Normal v).
  { intros name. destruct analysis; try discriminate; cbn; eauto. }
  destruct (Hget "connectionStrength") as [s Hs].
  destruct (Hget "connectionType") as [kind ->].
  destruct (Hget "explanation") as [text ->].
  rewrite Hs. destruct (is_true has) eqn:Htrue; cbn; [|discriminate].
  unfold js_ge. destruct (ToNumber s) as [a|] eqn:Ha; cbn; [|discriminate].
  destruct (num_le (Fin 6) a) eqn:H6; cbn; [|discriminate].
  assert (Ht : truthy s = true) by (eapply (at_least_truthy 6); [lra|done..]).
  assert (Hc : clamp (Fin 1) (Fin 10) (js_or s (JNumber (Fin 5)))
               = Normal (Math_min (Fin 10) (Math_max (Fin 1) a))).
  { unfold clamp, js_or. by rewrite Ht, Ha. }
  rewrite Hc. cbn. intros [= <-]. split.
  - exists analysis, has, s. unfold js_ge. rewrite Ha. cbn. by rewrite H6.
  - cbn [connectionStrength]. apply clamp_at_least; [lra|lra|done].
Qed.

(** Each new opportunity answers a reply that is meaningful. *)
Lemma findConnectionOpportunities_In m discoveries agent connection :
  In connection (findConnectionOpportunities m discoveries agent) ->
  between 6 10 (connectionStrength connection) /\
  exists i j, meaningful (agent i j).
Proof.
  unfold findConnectionOpportunities. intros H.
  apply in_concat in H as (inner & Hinner & H).
  apply list_elem_of_In, elem_of_lookup_imap_1 in Hinner as (i & d & -> & _).
  case_bool_decide; [|done].
  apply in_concat in H as (cell & Hcell & H).
  apply list_elem_of_In, elem_of_lookup_imap_1 in Hcell as (j & e & -> & _).
  destruct (String.eqb _ _); [done|].
  destruct (analyzeConnection d e (agent i j)) as [c|] eqn:Hc; [|done].
  destruct (num_le (Fin 6) (connectionStrength c)); [|done].
  destruct H as [<-|[]].
  apply analyzeConnection_Some in Hc as [Hm Hb]. eauto.
Qed.

(** C8. Every opportunity the Chain Builder has accumulated has a
    strength of at least 6 (and at most 10), and every opportunity a
    call of [process] adds answers a reply that states a connection of
    strength at least 6: a reply with a lower strength, or without a
    connection, adds nothing. *)
Theorem chainOpportunities_strength st :
  reachable st ->
  Forall (fun c => between 6 10 (connectionStrength c)) (chainOpportunities st) /\
  (forall m discoveries agent connection,
     In connection (chainOpportunities (process st m discoveries agent)) ->
     In connection (chainOpportunities st) \/ exists i j, meaningful (agent i j)) /\
  (forall discovery1 discovery2 reply,
     ~ meaningful reply -> analyzeConnection discovery1 discovery2 reply = None).
Proof.
  intros Hreach. split; [|split].
  - induction Hreach as [|st m discoveries agent _ IH]; [constructor|].
    cbn. apply Forall_app. split; [done|].
    apply Forall_forall. intros c Hc%list_elem_of_In.
    by apply findConnectionOpportunities_In in Hc as [Hc _].
  - intros m discoveries agent connection Hin. cbn in Hin.
    apply in_app_or in Hin as [Hin|Hin]; [by left|right].
    by apply findConnectionOpportunities_In in Hin as [_ Hin].
  - intros discovery1 discovery2 reply Hno.
    destruct (analyzeConnection discovery1 discovery2 reply) as [c|] eqn:Hc; [|done].
    by apply analyzeConnection_Some in Hc as [Hm _].
Qed.

End Chains.

Section ChainsWitness.
Import JS ChainBuilder.

(** Two of the eleven validated discoveries against the validated
    ones of the store: each is compared with the others. *)
Example findConnectionOpportunities_sample :
  length (findConnectionOpportunities (R := Sample.runtime)
            (NoveltyValidator.discoveryManager Sample.eleven)
            (Store.getValidatedDiscoveries
               (NoveltyValidator.discoveryManager Sample.eleven) 2%Z)
            Sample.connected) = 20.
Proof. vm_compute. reflexivity. Qed.

Lemma chainOpportunities_strength_witness :
  Forall (fun c => between 6 10 (connectionStrength c))
    (chainOpportunities
       (process (R := Sample.runtime) init
          (NoveltyValidator.discoveryManager Sample.eleven)
          (Store.getValidatedDiscoveries
             (NoveltyValidator.discoveryManager Sample.eleven) 2%Z)
          Sample.connected)).
Proof.
  refine (proj1 (chainOpportunities_strength (R := Sample.runtime) _ _)).
  apply reachable_process, reachable_init.
Defined.

End ChainsWitness.

(** * Further properties *)

(** ** The store: creation, update, views *)

Section StoreMore.
Import JS Store.

Lemma createDiscovery_fields m uuid threadUuid now finding0 explanation
    sources by_ buildsOn0 threadId0 :
  let d := snd (createDiscovery m uuid threadUuid now finding0 explanation
                  sources by_ buildsOn0 threadId0) in
  id d = uuid /\ finding d = finding0 /\ status d = pending /\
  noveltyScore d = Fin 0 /\ buildsOn d = buildsOn0 /\
  threadId d = match threadId0 with
               | Some t => if String.eqb t "" then threadUuid else t
               | None => threadUuid
               end /\
  noveltyExplanation d = explanation /\ sourcesSynthesized d = sources /\
  discoveredBy d = by_ /\ researchNext d = [] /\ timestamp d = now.
Proof.
  unfold createDiscovery.
  destruct threadId0 as [t|]; [destruct (String.eqb t "")|]; cbn; done.
Qed.

Lemma createDiscovery_map m uuid threadUuid now finding0 explanation
    sources by_ buildsOn0 threadId0 :
  discoveries (fst (createDiscovery m uuid threadUuid now finding0 explanation
                      sources by_ buildsOn0 threadId0))
  = <[uuid := snd (createDiscovery m uuid threadUuid now finding0 explanation
                     sources by_ buildsOn0 threadId0)]> (discoveries m).
Proof.
  unfold createDiscovery.
  destruct threadId0 as [t|]; [destruct (String.eqb t "")|];
    cbn; unfold addDiscoveryToThread; cbn; repeat case_match; done.
Qed.

(** X1. A created discovery can be read back under its id: it is
    pending, its score is 0, it carries the finding, the explanation,
    the sources, the authors and the parents given, and the clock as
    its time; no other discovery changed. *)
Theorem createDiscovery_getDiscovery m uuid threadUuid now finding0 explanation
    sources by_ buildsOn0 threadId0 :
  let m' := fst (createDiscovery m uuid threadUuid now finding0 explanation
                   sources by_ buildsOn0 threadId0) in
  let d := snd (createDiscovery m uuid threadUuid now finding0 explanation
                  sources by_ buildsOn0 threadId0) in
  getDiscovery m' uuid = Some d /\
  id d = uuid /\ finding d = finding0 /\ status d = pending /\
  noveltyScore d = Fin 0 /\
  noveltyExplanation d = explanation /\ sourcesSynthesized d = sources /\
  discoveredBy d = by_ /\ buildsOn d = buildsOn0 /\ researchNext d = [] /\
  timestamp d = now /\
  (forall k, k <> uuid -> getDiscovery m' k = getDiscovery m k).
Proof.
  cbn zeta. unfold getDiscovery. rewrite createDiscovery_map.
  destruct (createDiscovery_fields m uuid threadUuid now finding0 explanation
              sources by_ buildsOn0 threadId0)
    as (Hid & Hf & Hs & Hn & Hb & _ & He & Hsrc & Hby & Hnext & Ht).
  split; [by rewrite lookup_insert_eq|]. repeat (split; [done|]).
  intros k Hk. by rewrite lookup_insert_ne.
Qed.

(** X2. With a fresh thread id at hand, creating a discovery never
    shrinks a thread: every thread that existed is still there, with
    the same topic, a depth that is not smaller, and its list of
    discoveries extended at the end at most. *)
Theorem createDiscovery_threads_grow m uuid threadUuid now finding0 explanation
    sources by_ buildsOn0 threadId0 t thread :
  threads m !! threadUuid = None ->
  threads m !! t = Some thread ->
  exists thread',
    threads (fst (createDiscovery m uuid threadUuid now finding0 explanation
                    sources by_ buildsOn0 threadId0)) !! t = Some thread' /\
    topic thread' = topic thread /\
    depth thread <= depth thread' /\
    (thread_discoveries thread' = thread_discoveries thread \/
     thread_discoveries thread' = thread_discoveries thread ++ [uuid]).
Proof.
  intros Hfresh Ht.
  assert (Hne : t <> threadUuid) by (intros ->; congruence).
  unfold createDiscovery.
  destruct threadId0 as [t0|]; [destruct (String.eqb t0 "")|];
    cbn; unfold addDiscoveryToThread; cbn.
  - rewrite lookup_insert_eq. cbn. rewrite lookup_insert_ne by done.
    exists thread. rewrite lookup_insert_ne by done. auto.
  - destruct (threads m !! t0) as [th|] eqn:E; cbn.
    + destruct (decide (t0 = t)) as [->|Hn].
      * rewrite lookup_insert_eq. rewrite Ht in E. injection E as <-.
        eexists. split; [done|]. cbn. split; [done|]. split; [lia|]. by right.
      * rewrite lookup_insert_ne by done. exists thread. auto.
    + exists thread. auto.
  - rewrite lookup_insert_eq. cbn. rewrite lookup_insert_ne by done.
    exists thread. rewrite lookup_insert_ne by done. auto.
Qed.

(** X3. Without a thread id, the discovery opens a thread of its own:
    the thread holds it alone, has its finding as topic, and its depth
    is the number of discoveries it builds on, plus one. *)
Theorem createDiscovery_opens_thread m uuid threadUuid now finding0 explanation
    sources by_ buildsOn0 :
  let m' := fst (createDiscovery m uuid threadUuid now finding0 explanation
                   sources by_ buildsOn0 None) in
  exists thread,
    getThread m' threadUuid = Some thread /\
    topic thread = finding0 /\
    thread_discoveries thread = [uuid] /\
    depth thread = length buildsOn0 + 1 /\
    getThreadDiscoveries m' threadUuid
      = [snd (createDiscovery m uuid threadUuid now finding0 explanation
                sources by_ buildsOn0 None)].
Proof.
  cbn zeta. unfold getThread, getThreadDiscoveries, createDiscovery.
  cbn. unfold addDiscoveryToThread. cbn. rewrite lookup_insert_eq. cbn.
  rewrite lookup_insert_eq. eexists. split; [done|]. cbn.
  repeat (split; [done|]). by rewrite lookup_insert_eq.
Qed.

(** X4. A discovery created for a thread id that names no thread is
    stored all the same, but no thread lists it: the threads are left
    as they were. *)
Theorem createDiscovery_unknown_thread m uuid threadUuid now finding0 explanation
    sources by_ buildsOn0 t :
  t <> "" -> threads m !! t = None ->
  let m' := fst (createDiscovery m uuid threadUuid now finding0 explanation
                   sources by_ buildsOn0 (Some t)) in
  threads m' = threads m /\
  getThreadDiscoveries m' t = [] /\
  exists d, getDiscovery m' uuid = Some d /\ threadId d = t.
Proof.
  intros Hne Hnone. cbn zeta.
  unfold createDiscovery, getThreadDiscoveries, getDiscovery.
  destruct (String.eqb_spec t ""); [done|].
  cbn. unfold addDiscoveryToThread. cbn. rewrite Hnone. cbn. rewrite Hnone.
  repeat split. eexists. by rewrite lookup_insert_eq.
Qed.

End StoreMore.

Section StoreViews.
Import JS Store Queries.

(** X5. Updating a known discovery sets its status, and its score when
    one is given; the other discoveries and the threads are untouched,
    and every thread shows the discoveries it lists as they now are:
    its view keeps its length and holds the updated discovery wherever
    the thread lists the id. *)
Theorem updateDiscoveryStatus_known m discoveryId d st score :
  discoveries m !! discoveryId = Some d ->
  let m' := updateDiscoveryStatus m discoveryId st score in
  let d' := setStatus d st score in
  getDiscovery m' discoveryId = Some d' /\
  status d' = st /\
  noveltyScore d' = default (noveltyScore d) score /\
  finding d' = finding d /\
  (forall k, k <> discoveryId -> getDiscovery m' k = getDiscovery m k) /\
  threads m' = threads m /\
  (forall t thread, threads m !! t = Some thread ->
     length (getThreadDiscoveries m' t) = length (getThreadDiscoveries m t) /\
     (In discoveryId (thread_discoveries thread) ->
      In d' (getThreadDiscoveries m' t))).
Proof.
  intros Hin. cbn zeta. unfold getDiscovery, updateDiscoveryStatus. rewrite Hin. cbn.
  split; [by rewrite lookup_insert_eq|]. split; [done|].
  split; [by destruct score|]. split; [done|].
  split; [intros k Hk; by rewrite lookup_insert_ne|]. split; [done|].
  intros t thread Ht. unfold getThreadDiscoveries. cbn. rewrite Ht.
  generalize (thread_discoveries thread). intros keys. split.
  - induction keys as [|k keys IH]; cbn; [done|].
    destruct (decide (discoveryId = k)) as [<-|Hne].
    + rewrite lookup_insert_eq, Hin. cbn. by rewrite IH.
    + rewrite lookup_insert_ne by done.
      destruct (discoveries m !! k); cbn; by rewrite ?IH.
  - induction keys as [|k keys IH]; cbn; [done|]. intros [->|Hk].
    + rewrite lookup_insert_eq. cbn. by left.
    + destruct (<[discoveryId:=setStatus d st score]> (discoveries m) !! k);
        cbn; [right|]; by apply IH.
Qed.

Lemma values_stored m d : In d (values m) -> exists k, discoveries m !! k = Some d.
Proof.
  unfold values. intros H%list_elem_of_In.
  apply list_elem_of_omap in H as (k & _ & Hk). eauto.
Qed.



(** X7. The seeds are at most 5 validated discoveries scored at least
    8, the newest first; each of them is scored at least 7 as well, so
    each is one that [getValidatedDiscoveries] would list. *)
Theorem getSeedDiscoveries_sound m :
  let seeds := getSeedDiscoveries m in
  length seeds <= 5 /\
  Forall (fun d => (exists k, discoveries m !! k = Some d) /\
                   status d = validated /\
                   num_le (Fin 8) (noveltyScore d) = true /\
                   num_le (Fin 7) (noveltyScore d) = true) seeds /\
  Sorted (fun a b => timestamp b <= timestamp a) seeds.
Proof.
  cbn zeta. unfold getSeedDiscoveries.
  split; [rewrite length_take; lia|]. split.
  - apply Forall_forall. intros d Hd. apply (subseteq_take 5) in Hd.
    apply list_elem_of_In in Hd.
    apply (Permutation_in _ (sort_perm newer_first _)) in Hd.
    apply filter_In in Hd as [Hv Hk].
    apply andb_true_iff in Hk as [Hst Hsc]. apply bool_decide_eq_true in Hst.
    split; [by apply values_stored|]. split; [done|]. split; [done|].
    destruct (noveltyScore d) as [| |q|]; cbn in *; try done.
    apply Qle_bool_iff in Hsc. apply Qle_bool_iff. lra.
  - apply take_Sorted. apply (sort_Sorted newer_first).
    + intros x y H. by apply Nat.leb_le in H.
    + intros x y H. apply Nat.leb_gt in H. lia.
Qed.





End StoreViews.

(** ** Strings *)

Section StrFacts.

Lemma append_cons c a b : String c a +:+ b = String c (a +:+ b).
Proof. reflexivity. Qed.

Lemma append_assoc a b c : (a +:+ b) +:+ c = a +:+ (b +:+ c).
Proof.
  induction a as [|x a IH]; [done|]. by rewrite !append_cons, IH.
Qed.

Lemma startsWith_spec s p :
  Str.startsWith s p = true <-> exists r, s = p +:+ r.
Proof.
  revert s. induction p as [|a p IH]; intros s.
  - split; [by exists s|by destruct s].
  - destruct s as [|b s]; cbn.
    + split; [done|]. by intros [r Hr].
    + destruct (Ascii.eqb_spec a b) as [->|Hne].
      * rewrite IH. split; intros [r Hr]; exists r.
        -- by rewrite append_cons, Hr.
        -- rewrite append_cons in Hr. by injection Hr.
      * split; [done|]. intros [r Hr]. rewrite append_cons in Hr.
        injection Hr as -> _. done.
Qed.

Lemma includes_spec s p :
  Str.includes s p = true <-> exists a b, s = a +:+ (p +:+ b).
Proof.
  induction s as [|c s IH]; cbn [Str.includes].
  - rewrite orb_false_r, startsWith_spec. split.
    + intros [r Hr]. by exists "", r.
    + intros (a & b & H). destruct a; [by exists b|discriminate].
  - rewrite orb_true_iff, IH, startsWith_spec. split.
    + intros [[r Hr]|(a & b & H)].
      * by exists "", r.
      * exists (String c a), b. by rewrite append_cons, H.
    + intros (a & b & H). destruct a as [|x a].
      * left. by exists b.
      * right. rewrite append_cons in H. injection H as _ H. by exists a, b.
Qed.

(** A part of a part is a part. *)
Lemma includes_trans s p q :
  Str.includes s p = true -> Str.includes p q = true -> Str.includes s q = true.
Proof.
  rewrite !includes_spec. intros (a & b & ->) (c & d & ->).
  exists (a +:+ c), (d +:+ b). by rewrite !append_assoc.
Qed.

End StrFacts.

(** ** The Discovery Specialist *)

Section SpecialistFacts.
Import JS Specialist.

(** X9. The credibility of a source is a whole number from 5 to 10; it
    is 5 when no signal is found, and it is 10 for every address that
    contains [science.org] or [ieee.org], which also counts as [org]. *)
Theorem estimateCredibility_range url title :
  5 <= estimateCredibility url title <= 10 /\
  (any_of url ["edu"; "arxiv"; "scholar"; "gov"; "org"; "nature.com"] = false ->
   any_of (Str.toLowerCase title) ["research"; "study"] = false ->
   estimateCredibility url title = 5) /\
  (any_of url ["science.org"; "ieee.org"] = true ->
   estimateCredibility url title = 10).
Proof.
  unfold estimateCredibility, any_of. cbn [existsb]. split; [|split].
  - repeat (match goal with |- context [if ?b then _ else _] => destruct b end);
      cbn; lia.
  - intros H1 H2. rewrite !orb_false_r in *.
    apply orb_false_iff in H1 as [He H1]. apply orb_false_iff in H1 as [Ha H1].
    apply orb_false_iff in H1 as [Hs H1]. apply orb_false_iff in H1 as [Hg H1].
    apply orb_false_iff in H1 as [Ho Hn].
    assert (Hsci : Str.includes url "science.org" = false).
    { destruct (Str.includes url "science.org") eqn:E; [|done].
      rewrite <- Ho. symmetry. by apply (includes_trans _ "science.org"). }
    assert (Hie : Str.includes url "ieee.org" = false).
    { destruct (Str.includes url "ieee.org") eqn:E; [|done].
      rewrite <- Ho. symmetry. by apply (includes_trans _ "ieee.org"). }
    rewrite He, Ha, Hs, Hg, Ho, Hn, Hsci, Hie, H2. done.
  - intros H. rewrite orb_false_r in H.
    assert (Ho : Str.includes url "org" = true).
    { apply orb_true_iff in H as [H|H].
      - by apply (includes_trans _ "science.org").
      - by apply (includes_trans _ "ieee.org"). }
    assert (Hk : Str.includes url "nature.com" || (Str.includes url "science.org"
                 || (Str.includes url "ieee.org" || false)) = true).
    { rewrite orb_false_r. rewrite H. apply orb_true_r. }
    rewrite Ho, Hk, !orb_true_r.
    repeat (match goal with |- context [if ?b then _ else _] => destruct b end);
      cbn; lia.
Qed.

Lemma findIndex_Some {A} (p : A -> bool) l i :
  findIndex p l = Some i ->
  exists x, l !! i = Some x /\ p x = true /\
    forall j y, j < i -> l !! j = Some y -> p y = false.
Proof.
  revert i. induction l as [|a l IH]; intros i; cbn; [done|].
  destruct (p a) eqn:Ha.
  - intros [= <-]. exists a. repeat split; [done|]. intros j y Hj. lia.
  - destruct (findIndex p l) as [k|]; cbn; [|done]. intros [= <-].
    destruct (IH k eq_refl) as (x & Hx & Hpx & Hbefore).
    exists x. repeat split; [done..|].
    intros [|j] y Hj Hy; cbn in Hy; [by injection Hy as <-|].
    apply (Hbefore j); [lia|done].
Qed.

Lemma findIndex_In {A} (p : A -> bool) l x :
  In x l -> p x = true -> exists i, findIndex p l = Some i.
Proof.
  induction l as [|a l IH]; cbn; [done|]. intros [->|Hin] Hp.
  - rewrite Hp. eauto.
  - destruct (p a); [eauto|]. destruct (IH Hin Hp) as [i ->]. cbn. eauto.
Qed.

(** The sources [deduplicateAndRankSources] keeps before it sorts. *)
Lemma unique_kept (sources : list Store.Source) i s0 :
  In (i, s0)
     (List.filter
        (fun it =>
           bool_decide
             (findIndex (fun s => String.eqb (Store.url s) (Store.url (snd it))) sources
              = Some (fst it)))
        (imap pair sources)) <->
  sources !! i = Some s0 /\
  findIndex (fun s => String.eqb (Store.url s) (Store.url s0)) sources = Some i.
Proof.
  rewrite filter_In, <- list_elem_of_In, elem_of_lookup_imap. cbn.
  rewrite bool_decide_eq_true. split.
  - intros [(j & y & [= -> ->] & Hy) Hf]. done.
  - intros [Hs Hf]. split; [|done]. by exists i, s0.
Qed.

Lemma NoDup_map_through {A B C} (f : A -> B) (g : A -> C) (l : list A) :
  NoDup (map f l) ->
  (forall x y, In x l -> In y l -> g x = g y -> f x = f y) ->
  NoDup (map g l).
Proof.
  induction l as [|a l IH]; cbn; [constructor|].
  intros Hn Himp. apply NoDup_cons in Hn as [Ha Hn]. apply NoDup_cons. split.
  - intros Hin. apply Ha. apply list_elem_of_In, in_map_iff in Hin as (y & Hy & Hin).
    apply list_elem_of_In, in_map_iff. exists y. split; [|done].
    symmetry. apply Himp; auto.
  - apply IH; [done|]. intros x y Hx Hy. apply Himp; auto.
Qed.

Lemma NoDup_filter_imap {A} (p : nat * A -> bool) (l : list A) :
  NoDup (map fst (List.filter p (imap pair l))).
Proof.
  assert (H : forall n, NoDup (map fst (List.filter p (imap (fun i x => (n + i, x)) l)))
              /\ forall k, In k (map fst (List.filter p (imap (fun i x => (n + i, x)) l)))
                           -> n <= k).
  { induction l as [|a l IH]; intros n; cbn; [split; [constructor|done]|].
    rewrite (imap_ext _ (fun i x => (S n + i, x))) by (intros; cbn; f_equal; lia).
    destruct (IH (S n)) as [Hn Hk].
    destruct (p (n + 0, a)); cbn.
    - split.
      + apply NoDup_cons. split; [|done]. intros Hin%list_elem_of_In.
        apply Hk in Hin. lia.
      + intros k [<-|Hin]; [lia|]. apply Hk in Hin. lia.
    - split; [done|]. intros k Hin. apply Hk in Hin. lia. }
  destruct (H 0) as [Hn _]. by rewrite (imap_ext _ pair) in Hn by done.
Qed.

Lemma deduplicateAndRankSources_ranked sources :
  let ranked := deduplicateAndRankSources sources in
  NoDup (map Store.url ranked) /\
  (forall s, In s ranked -> In s sources) /\
  (forall s, In s sources -> exists s', In s' ranked /\ Store.url s' = Store.url s) /\
  (Forall (fun s => Store.credibility s <> NaN) sources ->
   Sorted (fun a b => num_le (Store.credibility b) (Store.credibility a) = true) ranked).
Proof.
  cbn zeta. unfold deduplicateAndRankSources.
  set (kept := List.filter _ (imap pair sources)).
  assert (Hkept : forall i s0, In (i, s0) kept <->
            sources !! i = Some s0 /\
            findIndex (fun s => String.eqb (Store.url s) (Store.url s0)) sources = Some i)
    by apply unique_kept.
  assert (Hperm := sort_perm more_credible_first (map snd kept)).
  assert (Hin : forall s, In s (map snd kept) -> In s sources).
  { intros s Hs. apply in_map_iff in Hs as ([i s0] & <- & Hs).
    apply Hkept in Hs as [Hs _]. cbn.
    apply list_elem_of_In. by eapply list_elem_of_lookup_2. }
  split; [|split; [|split]].
  - rewrite Hperm, map_map.
    apply (NoDup_map_through fst); [apply NoDup_filter_imap|].
    intros [i a] [j b] Ha Hb Hurl. cbn in *.
    apply Hkept in Ha as [_ Ha]. apply Hkept in Hb as [_ Hb].
    rewrite Hurl in Ha. congruence.
  - intros s Hs. apply Hin. by apply (Permutation_in _ Hperm).
  - intros s Hs.
    destruct (findIndex_In (fun x => String.eqb (Store.url x) (Store.url s)) sources s Hs)
      as [i Hi]; [apply String.eqb_refl|].
    destruct (findIndex_Some _ _ _ Hi) as (s' & Hs' & Hurl & _).
    apply String.eqb_eq in Hurl. exists s'. split; [|done].
    apply (Permutation_in _ (Permutation_sym Hperm)).
    apply in_map_iff. exists (i, s'). split; [done|].
    apply Hkept. split; [done|]. by rewrite Hurl.
  - intros Hnum.
    apply (Sorted_weaken
             (fun a b => more_credible_first a b = true) _
             (fun s => Store.credibility s <> NaN)).
    + apply (sort_Sorted more_credible_first); [done|].
      intros x y H. unfold more_credible_first in *.
      apply negb_false_iff in H. apply negb_true_iff.
      destruct (Store.credibility x) as [| |a|], (Store.credibility y) as [| |b|];
        cbn in *; try done.
      apply negb_true_iff in H. apply negb_false_iff.
      apply Qle_bool_iff. apply Qlt_le_weak. by apply Qle_bool_false.
    + rewrite Forall_forall in Hnum. apply Forall_forall.
      intros s Hs%list_elem_of_In. apply Hnum, list_elem_of_In, Hin.
      by apply (Permutation_in _ Hperm).
    + intros x y Hx Hy H. unfold more_credible_first in H.
      destruct (Store.credibility x) as [| |a|], (Store.credibility y) as [| |b|];
        cbn in *; try done.
      by apply negb_true_iff, negb_false_iff in H.
Qed.

(** The first source of an address is the one that stays. *)
Lemma deduplicateAndRankSources_first sources s :
  In s (deduplicateAndRankSources sources) ->
  exists i, sources !! i = Some s /\
    forall j s', j < i -> sources !! j = Some s' -> Store.url s' <> Store.url s.
Proof.
  unfold deduplicateAndRankSources. intros Hs.
  apply (Permutation_in _ (sort_perm more_credible_first _)) in Hs.
  apply in_map_iff in Hs as ([i s0] & <- & Hs). cbn.
  apply unique_kept in Hs as [Hs Hfirst]. exists i. split; [done|].
  destruct (findIndex_Some _ _ _ Hfirst) as (x & _ & _ & Hbefore).
  intros j s' Hj Hs' Heq. specialize (Hbefore j s' Hj Hs').
  apply String.eqb_neq in Hbefore. done.
Qed.

(** X10. [deduplicateAndRankSources] keeps the first source of each
    address: the addresses of the result are distinct, every result is
    one of the sources, every address of the sources is still there;
    and with credibilities that are numbers the result is in descending
    credibility. *)
Theorem deduplicateAndRankSources_unique sources :
  let ranked := deduplicateAndRankSources sources in
  NoDup (map Store.url ranked) /\
  (forall s, In s ranked ->
     exists i, sources !! i = Some s /\
       forall j s', j < i -> sources !! j = Some s' -> Store.url s' <> Store.url s) /\
  (forall s, In s sources -> exists s', In s' ranked /\ Store.url s' = Store.url s) /\
  (Forall (fun s => Store.credibility s <> NaN) sources ->
   Sorted (fun a b => num_le (Store.credibility b) (Store.credibility a) = true) ranked).
Proof.
  cbn zeta. destruct (deduplicateAndRankSources_ranked sources) as (Hnd & _ & Hall & Hs).
  split; [done|]. split; [apply deduplicateAndRankSources_first|]. done.
Qed.

(** X11. [gatherWebSources] returns at most 5 sources with distinct
    addresses, each found by one of the first four searches; the two
    queries that name the specialization are cut off by [slice(0, 4)],
    so the result does not depend on the specialization. *)
Theorem gatherWebSources_bounded specialization topic search :
  let sources := gatherWebSources specialization topic search in
  generateSearchQueries specialization topic
    = [ topic; topic +:+ " research breakthrough"; topic +:+ " novel applications";
        topic +:+ " interdisciplinary connections" ] /\
  sources = gatherWebSources None topic search /\
  length sources <= 5 /\
  NoDup (map Store.url sources) /\
  (forall s, In s sources -> exists i found, i < 4 /\ search i = Some found /\ In s found).
Proof.
  cbn zeta.
  assert (Hq : generateSearchQueries specialization topic
               = [ topic; topic +:+ " research breakthrough";
                   topic +:+ " novel applications";
                   topic +:+ " interdisciplinary connections" ]).
  { unfold generateSearchQueries.
    destruct specialization as [name|]; [destruct (String.eqb name "")|]; done. }
  split; [done|]. unfold gatherWebSources. rewrite Hq.
  split; [done|]. split; [rewrite length_take; lia|].
  destruct (deduplicateAndRankSources_ranked
              (concat (imap (fun i _ => default [] (search i))
                 [ topic; topic +:+ " research breakthrough";
                   topic +:+ " novel applications";
                   topic +:+ " interdisciplinary connections" ])))
    as (Hnd & Hin & _).
  split.
  - rewrite <- (take_drop 5 (deduplicateAndRankSources _)) in Hnd.
    rewrite map_app in Hnd. by apply NoDup_app in Hnd as [Hnd _].
  - intros s Hs%list_elem_of_In. apply (subseteq_take 5) in Hs.
    apply list_elem_of_In, Hin in Hs. cbn in Hs. rewrite !in_app_iff in Hs.
    assert (Hcase : forall i, In s (default [] (search i)) ->
              exists found, search i = Some found /\ In s found).
    { intros i. destruct (search i); cbn; [eauto|done]. }
    destruct Hs as [H|[H|[H|[H|[]]]]]; apply Hcase in H as (found & ? & ?).
    + exists 0, found. repeat split; [lia|done..].
    + exists 1, found. repeat split; [lia|done..].
    + exists 2, found. repeat split; [lia|done..].
    + exists 3, found. repeat split; [lia|done..].
Qed.

Lemma clamped_at_least (k : Q) (a : JSNum) :
  num_le (Fin k) (Math_min (Fin 10) (Math_max (Fin 1) a)) = true ->
  between k 10 (Math_min (Fin 10) (Math_max (Fin 1) a)).
Proof.
  destruct a as [| |q|]; cbn; try done.
  - intros H%Qle_bool_iff. split; lra.
  - destruct (Qle_bool 1 q) eqn:H1; cbn.
    + destruct (Qle_bool 10 q) eqn:H2; cbn.
      * intros H%Qle_bool_iff. split; lra.
      * apply Qle_bool_false in H2. intros H%Qle_bool_iff. split; lra.
    + intros H%Qle_bool_iff. split; lra.
  - intros H%Qle_bool_iff. split; lra.
Qed.

Section SynthesisFacts.
Context {R : JSRuntime}.
Local Arguments num_le : simpl never.
Local Arguments Math_min : simpl never.
Local Arguments Math_max : simpl never.

Lemma creates_score sources reply :
  creates (synthesizeMultipleSources sources reply) = true ->
  between 7 10 (noveltyScore (synthesizeMultipleSources sources reply)) /\
  num_le (Fin 2) (sourcesSynthesized (synthesizeMultipleSources sources reply)) = true.
Proof.
  unfold synthesizeMultipleSources.
  destruct (length sources <? 2)%nat; [done|].
  unfold creates. intros [Hs Hc]%andb_true_iff.
  destruct reply as [| |v]; [done..|].
  unfold synthesize_try, clamp in *.
  destruct (get v "finding") as [f|]; cbn in *; [|done].
  destruct (get v "noveltyExplanation") as [e|]; cbn in *; [|done].
  destruct (get v "noveltyScore") as [sc|]; cbn in *; [|done].
  destruct (ToNumber (js_or sc (JNumber (Fin 3)))) as [a|]; cbn in *; [|done].
  destruct (get v "sourcesSynthesized") as [c|]; cbn in *; [|done].
  destruct (ToNumber (js_or c (JNumber (Fin 0)))) as [n|]; cbn in *; [|done].
  split; [by apply clamped_at_least|done].
Qed.

(** X12. A discovery is created only from at least 2 sources and a
    reply that parsed, and then the novelty score of the analysis lies
    in [7, 10]; with fewer than 2 sources, or a reply that failed or did
    not parse, the score is 2 and nothing is created. *)
Theorem synthesizeMultipleSources_creates sources reply :
  let analysis := synthesizeMultipleSources sources reply in
  (creates analysis = true ->
   (2 <= length sources)%nat /\ (exists v, reply = Parsed v) /\
   between 7 10 (noveltyScore analysis) /\
   num_le (Fin 2) (sourcesSynthesized analysis) = true) /\
  ((length sources < 2)%nat \/ reply = AgentError \/ reply = Malformed ->
   noveltyScore analysis = Fin 2 /\ creates analysis = false).
Proof.
  cbn zeta. unfold synthesizeMultipleSources.
  destruct (length sources <? 2)%nat eqn:Hlen.
  { split; [done|]. intros _. done. }
  apply Nat.ltb_ge in Hlen. split.
  - intros Hc. split; [done|]. split.
    + destruct reply as [| |v]; [done..|]. eauto.
    + pose proof (creates_score sources reply) as H.
      unfold synthesizeMultipleSources in H.
      assert (Hlt : (length sources <? 2)%nat = false) by (apply Nat.ltb_ge; lia).
      rewrite Hlt in H. by apply H.
  - intros [H|[->| ->]]; [lia|done..].
Qed.


End SynthesisFacts.

Section SynthesisWitness.

Lemma synthesizeMultipleSources_creates_witness :
  between 7 10
    (noveltyScore
       (synthesizeMultipleSources (R := Scenario.runtime)
          (gatherWebSources None "sensors" Scenario.search)
          (Scenario.synthesis (Fin 8) (Fin 3)))) /\
  creates
    (synthesizeMultipleSources (R := Scenario.runtime) [] (Scenario.synthesis (Fin 8) (Fin 3)))
  = false.
Proof.
  split.
  - exact (proj1 (proj2 (proj2 (proj1
             (synthesizeMultipleSources_creates (R := Scenario.runtime)
                (gatherWebSources None "sensors" Scenario.search)
                (Scenario.synthesis (Fin 8) (Fin 3))) eq_refl)))).
  - exact (proj2 (proj2
             (synthesizeMultipleSources_creates (R := Scenario.runtime)
                [] (Scenario.synthesis (Fin 8) (Fin 3)))
             (or_introl (Nat.lt_0_succ 1)))).
Defined.


End SynthesisWitness.

End SpecialistFacts.

(** ** The Research Director: more about the queue *)

Section StableSort.
Context {A : Type} (before : A -> A -> bool).

(** The sort leaves a sorted array as it is. *)
Lemma sort_sorted l :
  Sorted (fun a b => before a b = true) l -> Sort.sort before l = l.
Proof.
  induction 1 as [|x l Hl IH Hx]; cbn; [done|].
  rewrite IH. destruct Hx as [|y l' Hxy]; cbn; [done|]. by rewrite Hxy.
Qed.

(** An element that nothing may precede stays at the head. *)
Lemma sort_head x l :
  (forall y, In y l -> before x y = true) ->
  Sort.sort before (x :: l) = x :: Sort.sort before l.
Proof.
  intros Hx. cbn.
  assert (Hy : forall y, In y (Sort.sort before l) -> before x y = true).
  { intros y Hin. apply Hx. by apply (Permutation_in _ (sort_perm before l)). }
  destruct (Sort.sort before l) as [|y r]; cbn; [done|].
  rewrite Hy; [done|by left].
Qed.

End StableSort.


Section QueueMore.
Import JS ResearchDirector QueueViews.

Lemma selectNextResearchTopic_cases q :
  (selectNextResearchTopic q = (None, q) /\
   Forall (fun t => status t <> pending) q) \/
  (exists i t,
     q !! i = Some t /\ status t = pending /\
     (forall j t', j < i -> q !! j = Some t' -> status t' <> pending) /\
     selectNextResearchTopic q
     = (Some (with_status t active), <[i := with_status t active]> q)).
Proof.
  unfold selectNextResearchTopic.
  pose proof (available_first q 0) as H.
  rewrite (imap_ext _ pair) in H by done.
  destruct (List.filter _ _) as [|[ref t] rest]; [by left|].
  destruct H as (i & -> & Hi & Ht & Hbefore). right. by exists i, t.
Qed.



Lemma count_total q :
  Forall (fun t => status t <> completed) q ->
  length q = count pending q + count active q.
Proof.
  unfold count. induction 1 as [|t q Ht _ IH]; cbn; [done|].
  rewrite IH. repeat case_bool_decide; cbn [length]; try lia; try congruence.
  by destruct (status t).
Qed.

Lemma not_completed_filter q :
  Forall (fun t => status t <> completed) q ->
  List.filter (fun t => negb (bool_decide (status t = completed))) q = q.
Proof.
  induction 1 as [|t q Ht _ IH]; cbn; [done|].
  by rewrite bool_decide_eq_false_2, IH.
Qed.

Section Cycles.
Context {R : JSRuntime}.

Lemma updateResearchQueue_not_completed q new queue :
  updateResearchQueue q new = Normal queue ->
  Forall (fun t => status t <> completed) queue.
Proof.
  intros Hq. apply Forall_forall. intros t Ht%list_elem_of_In.
  by apply (updateResearchQueue_In q new queue t Hq) in Ht as (_ & _ & Ht).
Qed.

Lemma selectNextResearchTopic_not_completed q :
  Forall (fun t => status t <> completed) q ->
  Forall (fun t => status t <> completed) (snd (selectNextResearchTopic q)).
Proof.
  intros Hq.
  destruct (selectNextResearchTopic_cases q) as [[-> _]|(i & t & Hi & _ & _ & ->)];
    [done|]. cbn.
  apply Forall_insert; done.
Qed.

Lemma generateResearchTopics_pending cycle topicsData :
  Forall (fun t => status t = pending) (generateResearchTopics cycle topicsData).
Proof.
  apply Forall_forall. intros t Ht.
  apply elem_of_lookup_imap_1 in Ht as (i & r & -> & _). done.
Qed.

(** X14. No topic of the director's queue is ever completed: in every
    state reached from the initial topics through voice commands and
    cycles, every topic is pending or active, and the total of
    [getQueueStatus] is the sum of its two counts. *)
Theorem queue_never_completed st :
  reachable st ->
  Forall (fun t => status t <> completed) (researchQueue st) /\
  total_topics (getQueueStatus (researchQueue st))
  = pending_topics (getQueueStatus (researchQueue st))
    + active_topics (getQueueStatus (researchQueue st)).
Proof.
  intros Hst.
  assert (H : Forall (fun t => status t <> completed) (researchQueue st)).
  { assert (Hpushed : forall pushed,
              Forall (fun t => status t <> completed) (generateInitialTopics [] pushed)).
    { intros pushed. apply Forall_forall. intros t Ht.
      apply elem_of_lookup_imap_1 in Ht as (i & r & -> & _). done. }
    induction Hst as [topics|pushed|st userTopic now Hst IH|st topicsData Hst IH];
      cbn [researchQueue].
    - apply Hpushed.
    - apply Forall_app. split; [apply Hpushed|]. apply Forall_forall. intros t Ht.
      apply elem_of_lookup_imap_1 in Ht as (i & r & -> & _). done.
    - destruct userTopic; cbn; [|done]. by constructor.
    - unfold process.
      destruct (updateResearchQueue (researchQueue st)
                  (generateResearchTopics (S (currentCycle st)) topicsData))
        as [queue|] eqn:Hq.
      + pose proof (selectNextResearchTopic_not_completed queue
                      (updateResearchQueue_not_completed _ _ _ Hq)) as H.
        by destruct (selectNextResearchTopic queue).
      + cbn. apply Forall_app. split; [done|].
        eapply Forall_impl; [apply generateResearchTopics_pending|].
        intros t ->. done. }
  split; [done|]. cbn. by apply count_total.
Qed.



(** Topics in descending priority are in the order the sort gives. *)
Lemma descending_before q :
  descending q -> Sorted (fun a b => before a b = true) q.
Proof.
  induction 1 as [|x l Hl IH Hx]; constructor; [done|].
  destruct Hx as [|y l' Hxy]; constructor. unfold before.
  destruct (number x), (number y); cbn in *; try done.
  by rewrite Hxy.
Qed.

(** X16. [updateResearchQueue] is idempotent on Numbers: when every
    priority in play is a Number, updating the queue it returned, with
    no new topic, returns the same queue. *)
Theorem updateResearchQueue_idempotent q new queue :
  updateResearchQueue q new = Normal queue ->
  Forall (fun t => numeric t = true) (candidates q new) ->
  updateResearchQueue queue [] = Normal queue.
Proof.
  intros Hq Hnum.
  assert (Hlen : length queue <= 20) by (by eapply updateResearchQueue_length).
  assert (Hd : descending queue) by (by eapply updateResearchQueue_descending).
  assert (Hc : Forall (fun t => status t <> completed) queue)
    by (by eapply updateResearchQueue_not_completed).
  assert (Hn : Forall (fun t => numeric t = true) queue)
    by (by eapply updateResearchQueue_numeric).
  assert (Hcand : candidates queue [] = queue).
  { unfold candidates. rewrite app_nil_r. by apply not_completed_filter. }
  destruct (updateResearchQueue queue []) as [again|] eqn:E.
  - apply updateResearchQueue_Normal in E as [-> _]. rewrite Hcand.
    rewrite (sort_sorted before queue (descending_before queue Hd)).
    destruct (20 <? length queue)%nat eqn:E; [|done].
    apply Nat.ltb_lt in E. lia.
  - apply updateResearchQueue_Throw in E as (_ & t & Hin & Ht).
    rewrite Hcand in Hin. rewrite Forall_forall in Hn.
    apply list_elem_of_In, Hn, numeric_number in Hin as [Hin _]. congruence.
Qed.

(** X17. What [updateResearchQueue] cuts off: the kept and the dropped
    topics together are the topics of the queue and the new ones that
    are not completed, the dropped ones are those beyond 20, and when
    every priority in play is a Number no dropped topic has a higher
    priority than a kept one. *)
Theorem updateResearchQueue_drops_lowest q new queue :
  updateResearchQueue q new = Normal queue ->
  exists dropped,
    Permutation (queue ++ dropped) (candidates q new) /\
    length dropped = length (candidates q new) - 20 /\
    (Forall (fun t => numeric t = true) (candidates q new) ->
     forall d k, In d dropped -> In k queue ->
       num_le (number d) (number k) = true).
Proof.
  intros [-> _]%updateResearchQueue_Normal.
  pose proof (sort_perm before (candidates q new)) as Hperm.
  assert (Hlen : length (Sort.sort before (candidates q new))
                 = length (candidates q new))
    by (by apply Permutation_length).
  destruct (20 <? length _)%nat eqn:E.
  - exists (drop 20 (Sort.sort before (candidates q new))).
    rewrite take_drop. split; [done|]. split; [rewrite length_drop; lia|].
    intros Hnum d k Hd%list_elem_of_In Hk%list_elem_of_In.
    apply list_elem_of_lookup in Hd as [j Hj]. apply list_elem_of_lookup in Hk as [i Hi].
    rewrite lookup_drop in Hj.
    assert (i < 20).
    { apply lookup_lt_Some in Hi. rewrite length_take in Hi. lia. }
    rewrite lookup_take_lt in Hi by done.
    apply (descending_lookup (Sort.sort before (candidates q new)) i (20 + j));
      [by apply sort_descending|done..|lia].
  - apply Nat.ltb_ge in E. exists []. rewrite app_nil_r.
    split; [done|]. split; [cbn; lia|]. intros _ d k [].
Qed.

(** X18. A voiced topic is researched next: when no topic of the queue
    and no topic of the reply has a priority above 10, all of them
    being Numbers, the cycle after the voice command selects the voiced
    topic. *)
Theorem voice_topic_selected st text now topicsData :
  Forall (fun t => at_most_ten t = true) (researchQueue st) ->
  Forall (fun t => at_most_ten t = true)
    (generateResearchTopics (S (currentCycle st)) topicsData) ->
  snd (process
         {| researchQueue := processVoiceCommand (researchQueue st) (Some text) now;
            currentCycle := currentCycle st |} topicsData)
  = Normal (Some {| id := "voice-" +:+ pretty now; topic := JString text;
                    priority := JNumber (Fin 10);
                    assignedTo := None; status := active;
                    parentDiscoveryId := JUndefined |}).
Proof.
  intros Hq Hnew. unfold process. cbn [researchQueue currentCycle processVoiceCommand].
  set (voiced := {| id := "voice-" +:+ pretty now; topic := JString text;
                    priority := JNumber (Fin 10);
                    assignedTo := None; status := pending;
                    parentDiscoveryId := JUndefined |}).
  set (new := generateResearchTopics _ topicsData) in *.
  assert (Hten : Forall (fun t => at_most_ten t = true) (researchQueue st ++ new))
    by (by apply Forall_app).
  assert (Hcand : candidates (voiced :: researchQueue st) new
                  = voiced :: candidates (researchQueue st) new) by reflexivity.
  assert (Hall : Forall (fun t => at_most_ten t = true)
                   (candidates (researchQueue st) new)).
  { apply Forall_forall. intros t Ht%list_elem_of_In. unfold candidates in Ht.
    apply filter_In in Ht as [Ht _]. rewrite Forall_forall in Hten.
    by apply Hten, list_elem_of_In. }
  destruct (updateResearchQueue (voiced :: researchQueue st) new) as [queue|] eqn:E.
  2: { exfalso. apply updateResearchQueue_Throw in E as (_ & t & Hin & Ht).
       rewrite Hcand in Hin. destruct Hin as [<-|Hin]; [done|].
       rewrite Forall_forall in Hall.
       apply list_elem_of_In, Hall, at_most_ten_numeric, numeric_number in Hin
         as [Hin _]. congruence. }
  apply updateResearchQueue_Normal in E as [-> _]. rewrite Hcand.
  rewrite sort_head.
  2: { intros y Hy. rewrite Forall_forall in Hall.
       apply list_elem_of_In, Hall in Hy. unfold at_most_ten in Hy.
       unfold before. change (number voiced) with (Fin 10).
       destruct (number y); cbn in *; try done. by rewrite Hy. }
  set (rest := Sort.sort before _).
  assert (Hhead : exists tail,
            (if (20 <? length (voiced :: rest))%nat
             then take 20 (voiced :: rest) else voiced :: rest) = voiced :: tail).
  { destruct (20 <? _)%nat; cbn; eauto. }
  destruct Hhead as [tail ->].
  unfold selectNextResearchTopic. rewrite imap_cons. cbn [List.filter snd].
  done.
Qed.

End Cycles.

End QueueMore.

(** ** The controller: handoffs, the run loop, the message queue *)

Section ReplaceFacts.

Lemma substring_all s : forall n,
  String.length s <= n -> String.substring 0 n s = s.
Proof.
  induction s as [|c s IH]; intros [|n] Hn; cbn in *; try done; try lia.
  f_equal. apply IH. lia.
Qed.

Lemma substring_append p m r :
  String.substring (String.length p) m (p +:+ r) = String.substring 0 m r.
Proof. induction p as [|c p IH]; cbn; [done|apply IH]. Qed.

Lemma length_append p r :
  String.length (p +:+ r) = String.length p + String.length r.
Proof. induction p as [|c p IH]; cbn; [done|]. by rewrite <- IH. Qed.

(** Replacing a prefix by the empty text leaves the rest. *)
Lemma replace_prefix p r : Handoffs.replace (p +:+ r) p "" = r.
Proof.
  assert (Hstart : Str.startsWith (p +:+ r) p = true)
    by (apply startsWith_spec; by exists r).
  assert (Heq : Handoffs.replace (p +:+ r) p ""
                = "" +:+ String.substring (String.length p)
                           (String.length (p +:+ r)) (p +:+ r)).
  { destruct (p +:+ r); cbn [Handoffs.replace]; by rewrite Hstart. }
  rewrite Heq, substring_append. cbn. apply substring_all.
  rewrite length_append. lia.
Qed.

Lemma find_In roster name :
  In name roster -> Controller.find roster name = Some name.
Proof.
  unfold Controller.find. induction roster as [|s roster IH]; cbn; [done|].
  intros Hin. destruct (String.eqb_spec name s) as [->|Hne]; [done|].
  destruct Hin as [->|Hin]; [done|by apply IH].
Qed.

Lemma targetAgent_specialist roster other :
  In other roster ->
  Handoffs.targetAgent roster ("DiscoverySpecialist-" +:+ other)
  = Some (Handoffs.discoverySpecialist other).
Proof.
  intros Hin. unfold Handoffs.targetAgent.
  change ("DiscoverySpecialist-" +:+ other =? "NoveltyValidator")%string with false.
  change ("DiscoverySpecialist-" +:+ other =? "ChainBuilder")%string with false.
  cbn match.
  assert (Hstart : Str.startsWith ("DiscoverySpecialist-" +:+ other)
                     "DiscoverySpecialist-" = true)
    by (apply startsWith_spec; by exists other).
  rewrite Hstart, replace_prefix, (find_In roster other Hin). done.
Qed.

End ReplaceFacts.

Section HandoffFacts.
Import JS Handoffs.
Context {R : JSRuntime}.

Local Arguments num_le : simpl never.
Local Arguments num_lt : simpl never.

(** A recommendation comes in two kinds. *)
Lemma evaluateHandoffNeed_recommended roster content specialist :
  Controller.recommended (Controller.evaluateHandoffNeed roster content specialist) = true ->
  (Controller.evaluateHandoffNeed roster content specialist = Controller.toValidator /\
   exists messageData, content = Normal messageData /\
     forall name, exists v, get messageData name = Normal v) \/
  (exists other rest,
     List.filter (fun s => negb (String.eqb s specialist)) roster = other :: rest /\
     Controller.evaluateHandoffNeed roster content specialist
     = Controller.toSpecialist other).
Proof.
  unfold Controller.evaluateHandoffNeed, Controller.evaluate_try.
  destruct content as [messageData|]; cbn; [|done].
  destruct (get messageData "noveltyScore") as [novelty|] eqn:Hn; cbn; [|done].
  assert (Hget : forall name, exists v, get messageData name = Normal v).
  { intros name. destruct messageData; try discriminate; cbn; eauto. }
  destruct (Hget "sourcesSynthesized") as [count ->].
  destruct (Hget "sourcesAnalyzed") as [analyzed ->]. cbn.
  unfold js_ge, js_lt.
  destruct (ToNumber novelty) as [n|]; cbn; [|done].
  assert (Hlow : forall low : bool,
    Controller.recommended
      match
        (if low
         then match List.filter (fun s => negb (String.eqb s specialist)) roster with
              | [] => Normal (Controller.noHandoff "No handoff needed")
              | other :: _ => Normal (Controller.toSpecialist other)
              end
         else Normal (Controller.noHandoff "No handoff needed"))
      with
      | Normal decision => decision
      | Throw => Controller.noHandoff "Error evaluating handoff need"
      end = true ->
    exists other rest,
      List.filter (fun s => negb (String.eqb s specialist)) roster = other :: rest /\
      match
        (if low
         then match List.filter (fun s => negb (String.eqb s specialist)) roster with
              | [] => Normal (Controller.noHandoff "No handoff needed")
              | other :: _ => Normal (Controller.toSpecialist other)
              end
         else Normal (Controller.noHandoff "No handoff needed"))
      with
      | Normal decision => decision
      | Throw => Controller.noHandoff "Error evaluating handoff need"
      end = Controller.toSpecialist other).
  { intros [|]; [|done].
    destruct (List.filter _ roster) as [|other rest]; [done|]. intros _. eauto. }
  destruct (num_le (Fin 6) n); cbn.
  - destruct (ToNumber count) as [c|]; cbn; [|done].
    destruct (num_le (Fin 2) c); cbn.
    + intros _. left. split; [done|]. by exists messageData.
    + destruct (ToNumber analyzed) as [a|]; cbn; [|done].
      destruct (num_le (Fin 3) a); cbn; [|done].
      intros H. right. by apply Hlow in H.
  - destruct (ToNumber analyzed) as [a|]; cbn; [|done].
    destruct (num_le (Fin 3) a); cbn; [|done].
    intros H. right. by apply Hlow in H.
Qed.

(** X19. A recommended handoff is always carried out: the target that
    [evaluateHandoffNeed] names, [NoveltyValidator] or
    [DiscoverySpecialist-X], is found, so [executeAgentHandoff] never
    ends in [handoff_failed].  A handoff to the Novelty Validator reads
    the discovery summary of the same message: it validates the stored
    discovery whose id the summary gives, and ends in
    [handoff_completed] when the message has no discovery, when the id
    is not a text, or when no discovery is stored under it.  A handoff
    to a specialist sends X, a specialist of the roster other than the
    current one, to research the topic. *)
Theorem handoff_after_recommendation roster m content specialist fromAgent topic :
  let decision := Controller.evaluateHandoffNeed roster content specialist in
  let action :=
    executeAgentHandoff roster m fromAgent (Controller.targetAgent decision)
      topic content in
  Controller.recommended decision = true ->
  action <> handoff_failed /\
  (Controller.targetAgent decision = "NoveltyValidator" \/
   exists other, Controller.targetAgent decision = "DiscoverySpecialist-" +:+ other) /\
  (Controller.targetAgent decision = "NoveltyValidator" ->
   exists messageData summary,
     content = Normal messageData /\
     get messageData "discovery" = Normal summary /\
     (truthy summary = false -> action = handoff_completed) /\
     (truthy summary = true ->
      exists key,
        get summary "id" = Normal key /\
        (forall k discovery,
           key = JString k -> Store.discoveries m !! k = Some discovery ->
           action = validate discovery) /\
        (forall k,
           key = JString k -> Store.discoveries m !! k = None ->
           action = handoff_completed) /\
        ((forall k, key <> JString k) -> action = handoff_completed))) /\
  (forall other,
     Controller.targetAgent decision = "DiscoverySpecialist-" +:+ other ->
     In other roster /\ other <> specialist /\
     action = research other (topic +:+ " (handoff from " +:+ fromAgent +:+ ")")).
Proof.
  cbn zeta. intros Hrec.
  destruct (evaluateHandoffNeed_recommended roster content specialist Hrec)
    as [[-> (messageData & -> & Hget)]|(other & rest & Hfilter & ->)].
  - cbn [Controller.targetAgent Controller.toValidator].
    destruct (Hget "discovery") as [summary Hsummary].
    assert (Hid : truthy summary = true -> exists key, get summary "id" = Normal key).
    { destruct summary; try discriminate; cbn; eauto. }
    assert (Hcases :
      (truthy summary = false ->
       executeAgentHandoff roster m fromAgent "NoveltyValidator" topic
         (Normal messageData) = handoff_completed) /\
      (truthy summary = true ->
       exists key,
         get summary "id" = Normal key /\
         (forall k discovery,
            key = JString k -> Store.discoveries m !! k = Some discovery ->
            executeAgentHandoff roster m fromAgent "NoveltyValidator" topic
              (Normal messageData) = validate discovery) /\
         (forall k,
            key = JString k -> Store.discoveries m !! k = None ->
            executeAgentHandoff roster m fromAgent "NoveltyValidator" topic
              (Normal messageData) = handoff_completed) /\
         ((forall k, key <> JString k) ->
          executeAgentHandoff roster m fromAgent "NoveltyValidator" topic
            (Normal messageData) = handoff_completed))).
    { unfold executeAgentHandoff, handoff_try. cbn. rewrite Hsummary. cbn.
      split.
      - intros ->. done.
      - intros Ht. rewrite Ht. destruct (Hid Ht) as [key Hkey].
        exists key. split; [done|]. rewrite Hkey. cbn. unfold Store.getDiscovery.
        split; [|split].
        + intros k discovery -> ->. done.
        + intros k -> ->. done.
        + intros Hnot. destruct key as [| | | |k| |]; try done.
          by destruct (Hnot k). }
    split; [|split; [by left|split]].
    + destruct Hcases as [Hfalse Htrue].
      destruct (truthy summary) eqn:Ht.
      * destruct (Htrue eq_refl) as (key & _ & Hsome & Hnone & Hother).
        destruct key as [| | | |k| |];
          try (rewrite Hother; [done|intros k; discriminate]).
        destruct (Store.discoveries m !! k) as [discovery|] eqn:Hk.
        -- by rewrite (Hsome k discovery eq_refl Hk).
        -- by rewrite (Hnone k eq_refl Hk).
      * by rewrite Hfalse.
    + intros _. by exists messageData, summary.
    + intros other [=].
  - assert (Hin : In other (List.filter (fun s => negb (String.eqb s specialist)) roster))
      by (rewrite Hfilter; by left).
    apply filter_In in Hin as [Hin Hne].
    apply negb_true_iff, String.eqb_neq in Hne.
    assert (Haction :
      executeAgentHandoff roster m fromAgent ("DiscoverySpecialist-" +:+ other)
        topic content
      = research other (topic +:+ " (handoff from " +:+ fromAgent +:+ ")")).
    { unfold executeAgentHandoff, handoff_try.
      rewrite (targetAgent_specialist roster other Hin).
      change ("DiscoverySpecialist-" +:+ other =? "NoveltyValidator")%string with false.
      done. }
    cbn [Controller.targetAgent Controller.toSpecialist].
    split; [by rewrite Haction|]. split; [right; by exists other|].
    split; [intros [=]|].
    intros other' Heq.
    cbn in Heq. injection Heq as Heq. change (other = other') in Heq. by subst.
Qed.

End HandoffFacts.

Section ControllerFacts.
Import Controller.

(** X20. In every state the controller reaches through [start], [stop]
    and cycles, it is running exactly when it holds a timer, and a
    running controller has begun at least one cycle: [start] runs the
    first cycle before it returns. *)
Theorem controller_timer_invariant st :
  Handoffs.reachable st ->
  (isRunning st = true <-> exists timer, cycleInterval st = Some timer) /\
  (isRunning st = true -> 1 <= currentCycle st).
Proof.
  induction 1 as [|st now timer Hst [IH1 IH2]|st Hst [IH1 IH2]|st now Hst [IH1 IH2]].
  - cbn. split; [|done]. split; [done|]. by intros [timer H].
  - unfold start, runDiscoveryCycle. destruct st as [running cycle interval last lines].
    cbn in *. destruct running; cbn.
    + split; [done|]. intros _. by apply IH2.
    + split; [|lia]. split; [eauto|done].
  - unfold stop. destruct st as [running cycle interval last lines].
    cbn in *. destruct running; cbn.
    + split; [|done]. split; [done|]. by intros [timer H].
    + done.
  - unfold runDiscoveryCycle. destruct st as [running cycle interval last lines].
    cbn in *. destruct running; cbn.
    + split; [done|]. lia.
    + done.
Qed.

End ControllerFacts.

Section MessageFacts.
Import Handoffs.

Lemma slice_last_suffix {A} n (queue : list A) :
  exists older, queue = older ++ slice_last n queue /\
    length (slice_last n queue)
    = (if (n =? 0)%nat then length queue else Nat.min n (length queue)).
Proof.
  destruct n as [|n]; cbn [slice_last Nat.eqb].
  - by exists [].
  - exists (take (length queue - S n) queue). rewrite take_drop. split; [done|].
    rewrite length_drop. lia.
Qed.

(** X21. [getRecentMessages] returns the last [limit] messages of the
    queue, the newest first; with limit 0 it returns all of them, since
    [slice(-0)] is [slice(0)]. *)
Theorem getRecentMessages_window messageQueue limit :
  let recent := getRecentMessages messageQueue limit in
  Sorted (fun a b => timestamp b <= timestamp a) recent /\
  length recent
  = (if (limit =? 0)%nat then length messageQueue
     else Nat.min limit (length messageQueue)) /\
  exists older window,
    messageQueue = older ++ window /\ Permutation recent window.
Proof.
  cbn zeta. unfold getRecentMessages.
  destruct (slice_last_suffix limit messageQueue) as (older & Holder & Hlen).
  pose proof (sort_perm newest_first (slice_last limit messageQueue)) as Hperm.
  split; [|split].
  - apply (sort_Sorted newest_first); unfold newest_first; intros x y H.
    + by apply Nat.leb_le in H.
    + apply Nat.leb_gt in H. lia.
  - by rewrite (Permutation_length Hperm).
  - by exists older, (slice_last limit messageQueue).
Qed.

(** X22. [cleanupMessages] leaves a queue of at most 1000 messages as
    it is, and cuts a longer one down to its last 500. *)
Theorem cleanupMessages_bound (messageQueue : list AgentMessage) :
  let kept := cleanupMessages messageQueue in
  length kept <= 1000 /\
  (length messageQueue <= 1000 -> kept = messageQueue) /\
  (1000 < length messageQueue -> length kept = 500) /\
  exists older, messageQueue = older ++ kept.
Proof.
  cbn zeta. unfold cleanupMessages.
  destruct (1000 <? length messageQueue)%nat eqn:E.
  - apply Nat.ltb_lt in E.
    destruct (slice_last_suffix 500 messageQueue) as (older & Holder & Hlen).
    cbn [Nat.eqb] in Hlen.
    split; [lia|]. split; [lia|]. split; [lia|]. by exists older.
  - apply Nat.ltb_ge in E. split; [done|]. split; [done|]. split; [lia|]. by exists [].
Qed.

End MessageFacts.

(** ** The Novelty Validator: the knowledge base *)

Section KnowledgeFacts.
Import JS NoveltyValidator Knowledge.

Lemma lower_idempotent c : Str.lower (Str.lower c) = Str.lower c.
Proof. destruct c as [[] [] [] [] [] [] [] []]; reflexivity. Qed.

Lemma toLowerCase_idempotent s :
  Str.toLowerCase (Str.toLowerCase s) = Str.toLowerCase s.
Proof.
  induction s as [|c s IH]; cbn; [done|]. by rewrite lower_idempotent, IH.
Qed.

Lemma NoDup_map_filter {A B} (f : A -> B) (p : A -> bool) l :
  NoDup (map f l) -> NoDup (map f (List.filter p l)).
Proof.
  induction l as [|a l IH]; cbn; [done|].
  intros [Ha Hl]%NoDup_cons. destruct (p a); cbn; [|by apply IH].
  apply NoDup_cons. split; [|by apply IH].
  intros Hin. apply Ha.
  apply list_elem_of_In, in_map_iff in Hin as (x & Hx & Hin%filter_In).
  apply list_elem_of_In, in_map_iff. exists x. by destruct Hin.
Qed.

(** X23. The tags of a finding: [general] alone when no pattern
    matches, otherwise the tags of the matching patterns, each once and
    in the order of the patterns; upper and lower case make no
    difference.  A tag is the source of its pattern without the letter
    [i]: a finding about machine learning is filed under
    [machne learnng]. *)
Theorem extractTopics_tags finding :
  extractTopics (Str.toLowerCase finding) = extractTopics finding /\
  NoDup (extractTopics finding) /\
  1 <= length (extractTopics finding) <= 15 /\
  (forall pattern, In pattern domainPatterns -> test pattern finding = true ->
     In (tag pattern) (extractTopics finding)) /\
  (In "general" (extractTopics finding) <->
   forall pattern, In pattern domainPatterns -> test pattern finding = false) /\
  (Str.includes (Str.toLowerCase finding) "machine learning" = true ->
   In "machne learnng" (extractTopics finding)).
Proof.
  assert (Htags : NoDup (map tag domainPatterns)).
  { apply NoDup_ListNoDup. vm_compute.
    repeat (constructor; [cbn; intuition discriminate|]). constructor. }
  assert (Hkept : forall pattern, In pattern domainPatterns ->
            test pattern finding = true -> In (tag pattern) (extractTopics finding)).
  { intros pattern Hin Ht. unfold extractTopics.
    assert (H : In (tag pattern)
                  (map tag (List.filter (fun p => test p finding) domainPatterns))).
    { apply in_map. by apply filter_In. }
    revert H. generalize (map tag (List.filter (fun p => test p finding) domainPatterns)).
    by intros [|x l]. }
  assert (Hgeneral : ~ In "general" (map tag domainPatterns)).
  { vm_compute. intuition discriminate. }
  split; [|split; [|split; [|split; [|split]]]].
  - unfold extractTopics. f_equal.
    assert (H : forall p, test p (Str.toLowerCase finding) = test p finding).
    { intros p. unfold test. by rewrite toLowerCase_idempotent. }
    by rewrite (List.filter_ext _ _ H).
  - unfold extractTopics.
    pose proof (NoDup_map_filter tag (fun p => test p finding) domainPatterns Htags) as H.
    revert H. generalize (map tag (List.filter (fun p => test p finding) domainPatterns)).
    intros [|x l] H; [apply NoDup_singleton|done].
  - unfold extractTopics.
    assert (H : length (map tag (List.filter (fun p => test p finding) domainPatterns))
                <= 15).
    { rewrite length_map. apply (List.filter_length_le _ domainPatterns). }
    revert H. generalize (map tag (List.filter (fun p => test p finding) domainPatterns)).
    intros [|x l] H; cbn in *; lia.
  - done.
  - unfold extractTopics.
    destruct (List.filter (fun p => test p finding) domainPatterns) as [|p rest] eqn:E.
    + cbn. split; [|by left]. intros _ pattern Hin.
      destruct (test pattern finding) eqn:Ht; [|done].
      assert (H : In pattern []) by (rewrite <- E; by apply filter_In). done.
    + split.
      * intros Hin. exfalso. apply Hgeneral.
        change (In "general" (map tag (p :: rest))) in Hin. rewrite <- E in Hin.
        apply in_map_iff in Hin as (x & Hx & Hin%filter_In).
        apply in_map_iff. exists x. by destruct Hin.
      * intros Hnone. exfalso.
        assert (H : In p (List.filter (fun p => test p finding) domainPatterns))
          by (rewrite E; by left).
        apply filter_In in H as [Hin Ht]. rewrite (Hnone p Hin) in Ht. done.
  - intros Hml.
    apply (Hkept ("machine learning", ["machine learning"])).
    + vm_compute. intuition.
    + unfold test. cbn [snd existsb]. by rewrite Hml.
Qed.

Lemma remember_frame finding (kb : gmap string (list string)) topic t :
  t <> topic -> remember finding kb topic !! t = kb !! t.
Proof.
  intros Hne. unfold remember.
  assert (H1 : (match kb !! topic with
                | Some _ => kb
                | None => <[topic := []]> kb
                end) !! t = kb !! t).
  { destruct (kb !! topic); [done|]. by rewrite lookup_insert_ne. }
  case_bool_decide; [done|]. by rewrite lookup_insert_ne.
Qed.

Lemma remember_tidy finding (kb : gmap string (list string)) topic :
  tidy kb -> tidy (remember finding kb topic).
Proof.
  intros Hkb t insights Ht.
  destruct (decide (t = topic)) as [->|Hne].
  2: { rewrite remember_frame in Ht by done. by apply (Hkb t). }
  unfold remember in Ht.
  set (kb1 := match kb !! topic with
              | Some _ => kb
              | None => <[topic := []]> kb
              end) in *.
  assert (H1 : exists old, kb1 !! topic = Some old /\ length old <= 10 /\ NoDup old).
  { unfold kb1. destruct (kb !! topic) as [old|] eqn:E.
    - exists old. split; [done|]. by apply (Hkb topic).
    - exists []. rewrite lookup_insert_eq. repeat split; [cbn; lia|constructor]. }
  destruct H1 as (old & Hold & Hlen & Hnd). rewrite Hold in Ht.
  cbn [default from_option id] in Ht. case_bool_decide as Hin.
  - rewrite Hold in Ht. by injection Ht as <-.
  - rewrite lookup_insert_eq in Ht. injection Ht as <-.
    assert (Hpushed : NoDup (old ++ [finding])).
    { apply NoDup_app. split; [done|]. split; [|apply NoDup_singleton].
      intros x Hx ->%list_elem_of_singleton. done. }
    destruct (10 <? length (old ++ [finding]))%nat eqn:Hten.
    + split.
      * rewrite length_tl, length_app. cbn. lia.
      * destruct old as [|x old]; cbn [app tail]; [constructor|].
        by apply NoDup_cons in Hpushed as [_ ?].
    + apply Nat.ltb_ge in Hten. done.
Qed.

Lemma updateKnowledgeBase_tidy kb discovery :
  tidy kb -> tidy (updateKnowledgeBase kb discovery).
Proof.
  unfold updateKnowledgeBase. generalize (extractTopics (Store.finding discovery)).
  intros topics. revert kb.
  induction topics as [|t topics IH]; intros kb Hkb; cbn; [done|].
  by apply IH, remember_tidy.
Qed.

Lemma updateKnowledgeBase_frame kb discovery t :
  ~ In t (extractTopics (Store.finding discovery)) ->
  updateKnowledgeBase kb discovery !! t = kb !! t.
Proof.
  unfold updateKnowledgeBase. generalize (extractTopics (Store.finding discovery)).
  intros topics. revert kb.
  induction topics as [|topic topics IH]; intros kb Hnot; cbn; [done|].
  rewrite IH by (intros H; apply Hnot; by right).
  apply remember_frame. intros ->. apply Hnot. by left.
Qed.

Section Frames.
Context {R : JSRuntime}.

(** X24. The knowledge base stays tidy: in every state reached by
    creating discoveries and validating them, and after
    [buildKnowledgeBase], every topic holds at most 10 findings and
    none of them twice. *)
Theorem knowledgeBase_tidy st :
  reachable st ->
  tidy (knowledgeBase st) /\ tidy (knowledgeBase (buildKnowledgeBase st)).
Proof.
  intros Hst.
  assert (H : tidy (knowledgeBase st)).
  { induction Hst as [|st st' Hst IH Hstep].
    - intros t insights Ht. cbn in Ht. by rewrite lookup_empty in Ht.
    - destruct Hstep as [st uuid threadUuid now finding0 explanation sources by_
                           buildsOn threadId|st key discovery reply Hkey]; [done|].
      rewrite process_knowledgeBase.
      destruct (decide _); [by apply updateKnowledgeBase_tidy|done]. }
  split; [done|]. unfold buildKnowledgeBase. cbn [knowledgeBase].
  generalize (Store.getValidatedDiscoveries (discoveryManager st) 50%Z).
  intros validated. revert H. generalize (knowledgeBase st).
  induction validated as [|d validated IH]; intros kb Hkb; cbn; [done|].
  by apply IH, updateKnowledgeBase_tidy.
Qed.

(** X25. What [process] leaves alone: the counter grows by one; the
    threads, the order of the store and every discovery but the
    processed one are unchanged, and no discovery appears or
    disappears; the knowledge base changes under the tags of the
    finding only, and not at all when the stored discovery ends up
    rejected. *)
Theorem process_frame st discovery reply :
  let st' := fst (process st discovery reply) in
  processedCount st' = S (processedCount st) /\
  Store.threads (discoveryManager st') = Store.threads (discoveryManager st) /\
  Store.inserted (discoveryManager st') = Store.inserted (discoveryManager st) /\
  (forall key, key <> Store.id discovery ->
     Store.discoveries (discoveryManager st') !! key
     = Store.discoveries (discoveryManager st) !! key) /\
  (forall key,
     is_Some (Store.discoveries (discoveryManager st') !! key) <->
     is_Some (Store.discoveries (discoveryManager st) !! key)) /\
  (forall t, ~ In t (extractTopics (Store.finding discovery)) ->
     knowledgeBase st' !! t = knowledgeBase st !! t) /\
  (forall stored,
     Store.discoveries (discoveryManager st') !! Store.id discovery = Some stored ->
     Store.status stored = Store.rejected ->
     knowledgeBase st' = knowledgeBase st).
Proof.
  cbn zeta. rewrite process_knowledgeBase, process_manager.
  split; [done|].
  set (final := if decide (recommendation (assessNovelty discovery reply) = accept)
                then Store.validated else Store.rejected).
  unfold Store.updateDiscoveryStatus.
  destruct (Store.discoveries (discoveryManager st) !! Store.id discovery)
    as [old|] eqn:Hold; cbn [Store.threads Store.inserted Store.discoveries].
  - split; [done|]. split; [done|].
    split; [intros key Hkey; by rewrite lookup_insert_ne|].
    split.
    { intros key. destruct (decide (key = Store.id discovery)) as [->|Hne].
      - rewrite lookup_insert_eq, Hold. split; eauto.
      - by rewrite lookup_insert_ne. }
    split.
    { intros t Ht. destruct (decide _); [|done]. by apply updateKnowledgeBase_frame. }
    intros stored. rewrite lookup_insert_eq. intros [= <-]. cbn. unfold final.
    by destruct (decide _).
  - split; [done|]. split; [done|]. split; [done|]. split; [done|].
    split.
    { intros t Ht. destruct (decide _); [|done]. by apply updateKnowledgeBase_frame. }
    intros stored Hstored. congruence.
Qed.

End Frames.

End KnowledgeFacts.

(** ** The Chain Builder: pairs and suggestions *)

Section ChainPairs.
Import JS ChainBuilder.
Context {R : JSRuntime}.

Local Arguments num_le : simpl never.
Local Arguments Math_min : simpl never.
Local Arguments Math_max : simpl never.

Lemma analyzeConnection_ids discovery1 discovery2 reply connection :
  analyzeConnection discovery1 discovery2 reply = Some connection ->
  sourceDiscoveryId connection = Store.id discovery1 /\
  targetDiscoveryId connection = Store.id discovery2.
Proof.
  unfold analyzeConnection, analyze_try.
  destruct reply as [| |analysis]; try discriminate.
  destruct (get analysis "hasConnection") as [has|]; cbn; [|discriminate].
  destruct (if is_true has then _ else _) as [[|]|]; cbn; try discriminate.
  destruct (get analysis "connectionType") as [kind|]; cbn; [|discriminate].
  destruct (get analysis "connectionStrength") as [s|]; cbn; [|discriminate].
  destruct (clamp _ _ _) as [strength|]; cbn; [|discriminate].
  destruct (get analysis "explanation") as [text|]; cbn; [|discriminate].
  by intros [= <-].
Qed.

Lemma length_concat_imap {A B} (w : A -> nat) (l : list A) :
  forall f : nat -> A -> list B,
  (forall i x, length (f i x) <= w x) ->
  length (concat (imap f l)) <= list_sum (map w l).
Proof.
  induction l as [|a l IH]; intros f Hf; [done|].
  rewrite imap_cons. cbn [concat map list_sum].
  rewrite length_app. specialize (Hf 0 a) as Ha.
  assert (Hrest : length (concat (imap (f ∘ S) l)) <= list_sum (map w l))
    by (apply IH; intros i x; apply Hf).
  unfold list_sum in *. cbn [foldr]. lia.
Qed.

(** X26. The opportunities a call of [process] adds, after those it
    had: each pairs a validated discovery of the input with another
    discovery, one of the 20 best validated discoveries of the store,
    never a discovery with itself; a validated input yields at most 20
    of them and any other input none; the counter grows by the number
    of inputs. *)
Theorem process_pairs st m discoveries agent :
  let st' := process st m discoveries agent in
  processedConnections st' = processedConnections st + length discoveries /\
  exists found,
    chainOpportunities st' = chainOpportunities st ++ found /\
    length found
    <= 20 * length (List.filter
                      (fun d => bool_decide (Store.status d = Store.validated))
                      discoveries) /\
    forall connection, In connection found ->
      sourceDiscoveryId connection <> targetDiscoveryId connection /\
      (exists d, In d discoveries /\ Store.status d = Store.validated /\
         Store.id d = sourceDiscoveryId connection) /\
      (exists e, In e (Store.getValidatedDiscoveries m 20%Z) /\
         Store.id e = targetDiscoveryId connection).
Proof.
  cbn zeta. split; [done|].
  exists (findConnectionOpportunities m discoveries agent). split; [done|].
  assert (Hexisting : length (Store.getValidatedDiscoveries m 20%Z) <= 20).
  { unfold Store.getValidatedDiscoveries, Store.slice_to.
    change (20 <? 0)%Z with false. cbn match. rewrite length_take. lia. }
  split.
  - unfold findConnectionOpportunities.
    etransitivity.
    + apply (length_concat_imap
               (fun d => if bool_decide (Store.status d = Store.validated)
                         then 20 else 0)).
      intros i d. case_bool_decide; [|done].
      etransitivity; [|exact Hexisting].
      etransitivity.
      * apply (length_concat_imap (fun _ => 1)).
        intros j e. destruct (String.eqb _ _); [cbn; lia|].
        destruct (analyzeConnection d e (agent i j)) as [c|]; [|cbn; lia].
        destruct (num_le (Fin 6) (connectionStrength c)); cbn; lia.
      * generalize (Store.getValidatedDiscoveries m 20%Z). intros l.
        unfold list_sum. induction l as [|x l IH]; cbn [map foldr length]; lia.
    + unfold list_sum.
      induction discoveries as [|d l IH]; cbn [map foldr List.filter]; [done|].
      case_bool_decide; cbn [length]; lia.
  - intros connection H. unfold findConnectionOpportunities in H.
    apply in_concat in H as (inner & Hinner & H).
    apply list_elem_of_In, elem_of_lookup_imap_1 in Hinner as (i & d & -> & Hd).
    case_bool_decide as Hvalidated; [|done].
    apply in_concat in H as (cell & Hcell & H).
    apply list_elem_of_In, elem_of_lookup_imap_1 in Hcell as (j & e & -> & He).
    destruct (String.eqb_spec (Store.id d) (Store.id e)) as [|Hne]; [done|].
    destruct (analyzeConnection d e (agent i j)) as [c|] eqn:Hc; [|done].
    destruct (num_le (Fin 6) (connectionStrength c)); [|done].
    destruct H as [<-|[]].
    apply analyzeConnection_ids in Hc as [-> ->].
    split; [done|]. split.
    + exists d. split; [|done]. apply list_elem_of_In. by eapply list_elem_of_lookup_2.
    + exists e. split; [|done]. apply list_elem_of_In. by eapply list_elem_of_lookup_2.
Qed.

End ChainPairs.

Section SuggestionFacts.
Import JS Suggestions.
Context {R : JSRuntime}.

Local Arguments num_le : simpl never.
Local Arguments Math_min : simpl never.
Local Arguments Math_max : simpl never.

Lemma promising_kept suggestions : forall kept,
  promising suggestions = Normal kept ->
  length kept <= length suggestions /\
  forall s, In s kept ->
    exists p, get s "priority" = Normal p /\ js_ge p (Fin 7) = Normal true.
Proof.
  induction suggestions as [|x rest IH]; intros kept; cbn.
  - intros [= <-]. split; [done|]. intros s [].
  - destruct (get x "priority") as [p|] eqn:Hp; cbn; [|done].
    destruct (js_ge p (Fin 7)) as [keep|] eqn:Hge; cbn; [|done].
    destruct (promising rest) as [kept'|]; cbn; [|done].
    destruct (IH kept' eq_refl) as [Hlen Hall].
    intros [= <-]. destruct keep; cbn.
    + split; [lia|]. intros s [<-|Hs]; [eauto|by apply Hall].
    + split; [lia|]. done.
Qed.

Lemma suggestion_priority s p made :
  get s "priority" = Normal p -> js_ge p (Fin 7) = Normal true ->
  suggestion s = Normal made -> between 7 10 (priority made).
Proof.
  intros Hp Hge. unfold suggestion. rewrite Hp.
  destruct (get s "suggestedTopic") as [t|]; cbn; [|done].
  unfold js_ge in Hge. destruct (ToNumber p) as [a|] eqn:Ha; cbn in Hge; [|done].
  injection Hge as Hge.
  assert (Ht : truthy p = true) by (eapply (at_least_truthy 7); [lra|done..]).
  assert (Hc : clamp (Fin 1) (Fin 10) (js_or p (JNumber (Fin 7)))
               = Normal (Math_min (Fin 10) (Math_max (Fin 1) a))).
  { unfold clamp, js_or. by rewrite Ht, Ha. }
  rewrite Hc. cbn.
  destruct (get s "basedOnDiscoveries") as [b|]; cbn; [|done].
  destruct (get s "reasoning") as [r|]; cbn; [|done].
  destruct (get s "type") as [k|]; cbn; [|done].
  intros [= <-]. cbn [priority]. apply clamp_at_least; [lra|lra|done].
Qed.

Lemma suggestions_of_made kept : forall made,
  suggestions_of kept = Normal made ->
  length made = length kept /\
  forall x, In x made -> exists s, In s kept /\ suggestion s = Normal x.
Proof.
  induction kept as [|s rest IH]; intros made; cbn.
  - intros [= <-]. split; [done|]. intros x [].
  - destruct (suggestion s) as [first|] eqn:Hs; cbn; [|done].
    destruct (suggestions_of rest) as [others|]; cbn; [|done].
    destruct (IH others eq_refl) as [Hlen Hall].
    intros [= <-]. split; [cbn; lia|].
    intros x [<-|Hx]; [eauto|].
    destruct (Hall x Hx) as (s' & Hin & Hs'). eauto.
Qed.

(** X27. Every research suggestion that [generateResearchSuggestions]
    returns has a priority in [7, 10]; there are no more of them than
    the reply lists; and there is none without a discovery, or when the
    agent fails, or when its reply is not an array. *)
Theorem generateResearchSuggestions_priority discoveries reply :
  let made := generateResearchSuggestions discoveries reply in
  Forall (fun x => between 7 10 (priority x)) made /\
  (made <> [] ->
   discoveries <> [] /\
   exists suggestions,
     reply = Parsed (JArray suggestions) /\ length made <= length suggestions).
Proof.
  cbn zeta. unfold generateResearchSuggestions.
  destruct discoveries as [|d rest]; [split; [constructor|done]|].
  destruct (suggestions_try reply) as [made|] eqn:Htry; [|split; [constructor|done]].
  unfold suggestions_try in Htry.
  destruct reply as [| |v]; try discriminate.
  destruct v as [| | | | |suggestions|]; try discriminate.
  destruct (promising suggestions) as [kept|] eqn:Hkept; cbn in Htry; [|discriminate].
  destruct (promising_kept suggestions kept Hkept) as [Hlen Hall].
  destruct (suggestions_of_made kept made Htry) as [Hlen' Hmade].
  split.
  - apply Forall_forall. intros x Hx%list_elem_of_In.
    destruct (Hmade x Hx) as (s & Hs & Hsx).
    destruct (Hall s Hs) as (p & Hp & Hge).
    by apply (suggestion_priority s p x).
  - intros _. split; [done|]. exists suggestions. split; [done|]. lia.
Qed.

End SuggestionFacts.

(** ** Scenarios *)

Section Scenarios.
Import JS.

Lemma createDiscovery_threads_grow_witness :
  let m := NoveltyValidator.discoveryManager Sample.created in
  exists thread',
    Store.threads (fst (Store.createDiscovery m "d2" "t2" 1 "Second finding" ""
                          [] [] ["d1"] (Some "t1"))) !! "t1" = Some thread' /\
    Store.topic thread' = Store.topic Scenario.first_thread /\
    Store.depth Scenario.first_thread <= Store.depth thread' /\
    (Store.thread_discoveries thread' = Store.thread_discoveries Scenario.first_thread \/
     Store.thread_discoveries thread'
     = Store.thread_discoveries Scenario.first_thread ++ ["d2"]).
Proof.
  assert (Hfresh : Store.threads (NoveltyValidator.discoveryManager Sample.created)
                     !! "t2" = None) by (vm_compute; reflexivity).
  assert (Ht : Store.threads (NoveltyValidator.discoveryManager Sample.created)
                 !! "t1" = Some Scenario.first_thread) by (vm_compute; reflexivity).
  exact (createDiscovery_threads_grow _ "d2" "t2" 1 "Second finding" ""
           [] [] ["d1"] (Some "t1") "t1" Scenario.first_thread Hfresh Ht).
Defined.

Lemma createDiscovery_unknown_thread_witness :
  let m' := fst (Store.createDiscovery Store.empty "d1" "t1" 0 "A finding" ""
                   [] [] [] (Some "ghost")) in
  Store.threads m' = Store.threads Store.empty /\
  Store.getThreadDiscoveries m' "ghost" = [] /\
  exists d, Store.getDiscovery m' "d1" = Some d /\ Store.threadId d = "ghost".
Proof.
  assert (Hne : "ghost" <> "") by discriminate.
  assert (Hnone : Store.threads Store.empty !! "ghost" = None) by reflexivity.
  exact (createDiscovery_unknown_thread Store.empty "d1" "t1" 0 "A finding" ""
           [] [] [] "ghost" Hne Hnone).
Defined.

Lemma updateDiscoveryStatus_known_witness :
  Store.getDiscovery
    (Store.updateDiscoveryStatus (NoveltyValidator.discoveryManager Sample.created)
       "d1" Store.validated (Some (Fin 8))) "d1"
  = Some Sample.accepted.
Proof.
  assert (Hin : Store.discoveries (NoveltyValidator.discoveryManager Sample.created)
                  !! "d1" = Some Sample.quantum) by (vm_compute; reflexivity).
  exact (proj1 (updateDiscoveryStatus_known _ "d1" Sample.quantum Store.validated
                  (Some (Fin 8)) Hin)).
Defined.



Lemma estimateCredibility_range_witness :
  Specialist.estimateCredibility "https://www.science.org/doi/1" "A report" = 10 /\
  Specialist.estimateCredibility "https://example.com/post" "A report" = 5.
Proof.
  split.
  - assert (H : Specialist.any_of "https://www.science.org/doi/1"
                  ["science.org"; "ieee.org"] = true) by (vm_compute; reflexivity).
    exact (proj2 (proj2 (estimateCredibility_range
                           "https://www.science.org/doi/1" "A report")) H).
  - assert (H1 : Specialist.any_of "https://example.com/post"
                   ["edu"; "arxiv"; "scholar"; "gov"; "org"; "nature.com"] = false)
      by (vm_compute; reflexivity).
    assert (H2 : Specialist.any_of (Str.toLowerCase "A report") ["research"; "study"]
                 = false) by (vm_compute; reflexivity).
    exact (proj1 (proj2 (estimateCredibility_range
                           "https://example.com/post" "A report")) H1 H2).
Defined.

Lemma deduplicateAndRankSources_unique_witness :
  Sorted (fun a b => num_le (Store.credibility b) (Store.credibility a) = true)
    (Specialist.deduplicateAndRankSources
       [ Scenario.paper "https://arxiv.org/abs/1" 8;
         Scenario.paper "https://nature.com/x" 9;
         Scenario.paper "https://arxiv.org/abs/1" 7 ]).
Proof.
  assert (H : Forall (fun s => Store.credibility s <> NaN)
                [ Scenario.paper "https://arxiv.org/abs/1" 8;
                  Scenario.paper "https://nature.com/x" 9;
                  Scenario.paper "https://arxiv.org/abs/1" 7 ])
    by (repeat constructor; discriminate).
  exact (proj2 (proj2 (proj2 (deduplicateAndRankSources_unique _))) H).
Defined.

Lemma queue_never_completed_witness :
  QueueViews.total_topics
    (QueueViews.getQueueStatus (ResearchDirector.researchQueue Scenario.director))
  = QueueViews.pending_topics
      (QueueViews.getQueueStatus (ResearchDirector.researchQueue Scenario.director))
    + QueueViews.active_topics
        (QueueViews.getQueueStatus (ResearchDirector.researchQueue Scenario.director)).
Proof.
  exact (proj2 (queue_never_completed (R := Sample.runtime) Scenario.director
                  (QueueViews.reachable_process _ [Sample.raw "third" 8]
                     (QueueViews.reachable_initial
                        [Sample.raw "first" 7; Sample.raw "second" 9])))).
Defined.


Lemma updateResearchQueue_idempotent_witness :
  ResearchDirector.updateResearchQueue (R := Sample.runtime) Sample.full_queue []
  = Normal Sample.full_queue.
Proof.
  exact (updateResearchQueue_idempotent (R := Sample.runtime) []
           (ResearchDirector.generateResearchTopics 1 Sample.batch) Sample.full_queue
           full_queue_returned full_queue_numeric).
Defined.

Lemma updateResearchQueue_drops_lowest_witness :
  exists dropped,
    Permutation (Sample.full_queue ++ dropped)
      (ResearchDirector.candidates []
         (ResearchDirector.generateResearchTopics 1 Sample.batch)) /\
    length dropped = 5 /\
    forall d k, In d dropped -> In k Sample.full_queue ->
      num_le (ResearchDirector.number (R := Sample.runtime) d)
             (ResearchDirector.number (R := Sample.runtime) k) = true.
Proof.
  destruct (updateResearchQueue_drops_lowest (R := Sample.runtime) []
              (ResearchDirector.generateResearchTopics 1 Sample.batch)
              Sample.full_queue full_queue_returned)
    as (dropped & Hperm & Hlen & Hlow).
  exists dropped. split; [exact Hperm|]. split; [exact Hlen|].
  exact (Hlow full_queue_numeric).
Defined.

Lemma voice_topic_selected_witness :
  snd (ResearchDirector.process (R := Sample.runtime) Scenario.voiced
         [Sample.raw "dogs" 9])
  = Normal (Some {| ResearchDirector.id := "voice-" +:+ pretty 0;
                    ResearchDirector.topic := JString "cats";
                    ResearchDirector.priority := JNumber (Fin 10);
                    ResearchDirector.assignedTo := None;
                    ResearchDirector.status := ResearchDirector.active;
                    ResearchDirector.parentDiscoveryId := JUndefined |}).
Proof.
  assert (Hq : Forall (fun t => ResearchDirector.at_most_ten (R := Sample.runtime) t
                               = true)
                 (ResearchDirector.researchQueue Scenario.busy)).
  { vm_compute. repeat constructor. }
  assert (Hnew : Forall (fun t => ResearchDirector.at_most_ten (R := Sample.runtime) t
                                 = true)
                   (ResearchDirector.generateResearchTopics
                      (S (ResearchDirector.currentCycle Scenario.busy))
                      [Sample.raw "dogs" 9])).
  { vm_compute. repeat constructor. }
  exact (voice_topic_selected (R := Sample.runtime) Scenario.busy "cats" 0
           [Sample.raw "dogs" 9] Hq Hnew).
Defined.

Lemma handoff_after_recommendation_witness :
  Handoffs.executeAgentHandoff Controller.discoverySpecialists
    (NoveltyValidator.discoveryManager Sample.created)
    (Handoffs.getName "Science")
    (Controller.targetAgent
       (Controller.evaluateHandoffNeed (R := Sample.runtime)
          Controller.discoverySpecialists (Sample.result 3 4 2) "Science"))
    "sensors" (Sample.result 3 4 2)
  = Handoffs.research "Technology"
      ("sensors" +:+ " (handoff from " +:+ Handoffs.getName "Science" +:+ ")") /\
  Handoffs.executeAgentHandoff Controller.discoverySpecialists
    (NoveltyValidator.discoveryManager Sample.created)
    (Handoffs.getName "Science")
    (Controller.targetAgent
       (Controller.evaluateHandoffNeed (R := Sample.runtime)
          Controller.discoverySpecialists Scenario.found "Science"))
    "sensors" Scenario.found
  = Handoffs.validate Sample.quantum.
Proof.
  split.
  - assert (Hrec : Controller.recommended
                     (Controller.evaluateHandoffNeed (R := Sample.runtime)
                        Controller.discoverySpecialists (Sample.result 3 4 2) "Science")
                   = true) by (vm_compute; reflexivity).
    assert (Hto : Controller.targetAgent
                    (Controller.evaluateHandoffNeed (R := Sample.runtime)
                       Controller.discoverySpecialists (Sample.result 3 4 2) "Science")
                  = "DiscoverySpecialist-" +:+ "Technology")
      by (vm_compute; reflexivity).
    exact (proj2 (proj2 (proj2 (proj2 (proj2
             (handoff_after_recommendation (R := Sample.runtime)
                Controller.discoverySpecialists
                (NoveltyValidator.discoveryManager Sample.created)
                (Sample.result 3 4 2) "Science" (Handoffs.getName "Science") "sensors"
                Hrec))) "Technology" Hto))).
  - assert (Hrec : Controller.recommended
                     (Controller.evaluateHandoffNeed (R := Sample.runtime)
                        Controller.discoverySpecialists Scenario.found "Science")
                   = true) by (vm_compute; reflexivity).
    assert (Hto : Controller.targetAgent
                    (Controller.evaluateHandoffNeed (R := Sample.runtime)
                       Controller.discoverySpecialists Scenario.found "Science")
                  = "NoveltyValidator") by (vm_compute; reflexivity).
    destruct (proj1 (proj2 (proj2
                (handoff_after_recommendation (R := Sample.runtime)
                   Controller.discoverySpecialists
                   (NoveltyValidator.discoveryManager Sample.created)
                   Scenario.found "Science" (Handoffs.getName "Science") "sensors"
                   Hrec))) Hto)
      as (messageData & summary & Hcontent & Hsummary & _ & Hvalidate).
    injection Hcontent as <-. injection Hsummary as <-.
    destruct (Hvalidate eq_refl) as (key & Hkey & Hstored & _).
    injection Hkey as <-.
    apply (Hstored "d1" Sample.quantum eq_refl). vm_compute. reflexivity.
Defined.

Lemma controller_timer_invariant_witness :
  1 <= Controller.currentCycle (Controller.start Controller.init 0 7).
Proof.
  exact (proj2 (controller_timer_invariant (Controller.start Controller.init 0 7)
                  (Handoffs.reachable_start _ 0 7 Handoffs.reachable_init))
           eq_refl).
Defined.

Lemma cleanupMessages_bound_witness :
  length (Handoffs.cleanupMessages (replicate 1001 Scenario.note)) = 500 /\
  Handoffs.cleanupMessages (replicate 1000 Scenario.note)
  = replicate 1000 Scenario.note.
Proof.
  split.
  - assert (H : 1000 < length (replicate 1001 Scenario.note))
      by (rewrite length_replicate; lia).
    exact (proj1 (proj2 (proj2 (cleanupMessages_bound (replicate 1001 Scenario.note))))
             H).
  - assert (H : length (replicate 1000 Scenario.note) <= 1000)
      by (rewrite length_replicate; lia).
    exact (proj1 (proj2 (cleanupMessages_bound (replicate 1000 Scenario.note))) H).
Defined.

Lemma extractTopics_tags_witness :
  In "machne learnng" (NoveltyValidator.extractTopics "Machine Learning for climate").
Proof.
  assert (H : Str.includes (Str.toLowerCase "Machine Learning for climate")
                "machine learning" = true) by (vm_compute; reflexivity).
  exact (proj2 (proj2 (proj2 (proj2 (proj2
           (extractTopics_tags "Machine Learning for climate"))))) H).
Defined.

Lemma knowledgeBase_tidy_witness :
  Knowledge.tidy (NoveltyValidator.knowledgeBase Sample.eleven) /\
  Knowledge.tidy
    (NoveltyValidator.knowledgeBase (Knowledge.buildKnowledgeBase Sample.eleven)).
Proof.
  exact (knowledgeBase_tidy (R := Sample.runtime) Sample.eleven eleven_reachable).
Defined.

Lemma process_frame_witness :
  NoveltyValidator.knowledgeBase
    (fst (NoveltyValidator.process (R := Sample.runtime) Sample.created Sample.quantum
            AgentError))
  = NoveltyValidator.knowledgeBase Sample.created.
Proof.
  assert (Hstored :
    Store.discoveries
      (NoveltyValidator.discoveryManager
         (fst (NoveltyValidator.process (R := Sample.runtime) Sample.created
                 Sample.quantum AgentError))) !! Store.id Sample.quantum
    = Some (Store.setStatus Sample.quantum Store.rejected (Some (Fin 3))))
    by (vm_compute; reflexivity).
  exact (proj2 (proj2 (proj2 (proj2 (proj2 (proj2
           (process_frame (R := Sample.runtime) Sample.created Sample.quantum
              AgentError))))))
           (Store.setStatus Sample.quantum Store.rejected (Some (Fin 3)))
           Hstored eq_refl).
Defined.

Lemma generateResearchSuggestions_priority_witness :
  exists suggestions,
    Scenario.suggested = Parsed (JArray suggestions) /\
    length (Suggestions.generateResearchSuggestions (R := Sample.runtime)
              [Sample.accepted] Scenario.suggested)
    <= length suggestions.
Proof.
  assert (Hmade : Suggestions.generateResearchSuggestions (R := Sample.runtime)
                    [Sample.accepted] Scenario.suggested <> [])
    by (vm_compute; discriminate).
  exact (proj2 (proj2 (generateResearchSuggestions_priority (R := Sample.runtime)
                         [Sample.accepted] Scenario.suggested) Hmade)).
Defined.

End Scenarios.
